(** * recorder-extension: response parsing, content cleaning and source analysis

    A shallow embedding of [code_refactor.py] (class [CodeRefactorer]) and
    [script_generator.py] (class [ScriptGenerator]).

    Texts are [string]s over 8-bit characters, read as the code points
    U+0000..U+00FF; the character classes are the ones Python's [str] and
    [re] use on that range.  Python's [re] module is modelled by a small
    backtracking matcher over a regular-expression syntax tree: every
    pattern of the source is written down as such a tree.  Paths are those
    of [pathlib] on POSIX, and the operating system under the two classes
    is a parameter: a computation records the calls it makes, and the
    system decides what each call returns or raises. *)

From Stdlib Require Import Strings.String Strings.Ascii.
From Stdlib Require Import List Arith Bool NArith Lia DecimalString.
From stdpp Require Import strings list.

Local Open Scope string_scope.
Local Open Scope list_scope.
Local Open Scope nat_scope.

(** ** Characters *)

Definition nl : ascii := "010"%char.
Definition tick : ascii := "`"%char.

Definition in_range (lo hi : N) (c : ascii) : bool :=
  let n := N_of_ascii c in (N.leb lo n && N.leb n hi)%bool.

(** [str.isspace], which is also [\s] of a [str] pattern and what
    [str.strip] removes. *)
Definition is_space (c : ascii) : bool :=
  (in_range 9 13 c || in_range 28 32 c || in_range 133 133 c
   || in_range 160 160 c)%bool.

(** [\w] of a [str] pattern: alphanumeric characters and the underscore. *)
Definition is_word (c : ascii) : bool :=
  (in_range 48 57 c || in_range 65 90 c || in_range 95 95 c
   || in_range 97 122 c || in_range 170 170 c || in_range 178 179 c
   || in_range 181 181 c || in_range 185 186 c || in_range 188 190 c
   || in_range 192 214 c || in_range 216 246 c || in_range 248 255 c)%bool.

(** [.] without [re.DOTALL], and with it. *)
Definition is_dot (c : ascii) : bool := negb (Ascii.eqb c nl).
Definition is_any (c : ascii) : bool := true.

(** ** Python string operations *)

Definition str_len (s : string) : nat := String.length s.

Fixpoint str_lstrip (s : string) : string :=
  match s with
  | String c s' => if is_space c then str_lstrip s' else s
  | EmptyString => EmptyString
  end.

Fixpoint str_rstrip (s : string) : string :=
  match s with
  | String c s' =>
      match str_rstrip s' with
      | EmptyString => if is_space c then EmptyString else String c EmptyString
      | r => String c r
      end
  | EmptyString => EmptyString
  end.

Definition str_strip (s : string) : string := str_lstrip (str_rstrip s).

(** [s.split(sep)] for a one-character separator. *)
Fixpoint str_split (sep : ascii) (s : string) : list string :=
  match s with
  | EmptyString => [EmptyString]
  | String c s' =>
      if Ascii.eqb c sep then EmptyString :: str_split sep s'
      else match str_split sep s' with
           | h :: t => String c h :: t
           | [] => [String c EmptyString]
           end
  end.

(** [sep.join(l)] *)
Fixpoint str_join (sep : string) (l : list string) : string :=
  match l with
  | [] => EmptyString
  | [x] => x
  | x :: l' => x +:+ sep +:+ str_join sep l'
  end.

Definition newline : string := String nl EmptyString.

(** [str(n)] for a non-negative integer. *)
Definition str_of_nat (n : nat) : string := NilZero.string_of_uint (Nat.to_uint n).


(** [s.startswith(p)], returning what follows the prefix. *)
Fixpoint strip_prefix (p s : string) : option string :=
  match p with
  | EmptyString => Some s
  | String a p' =>
      match s with
      | String b s' => if Ascii.eqb a b then strip_prefix p' s' else None
      | EmptyString => None
      end
  end.

(** [sub in s]. *)
Fixpoint str_contains (sub s : string) : bool :=
  match strip_prefix sub s with
  | Some _ => true
  | None => match s with
            | String _ s' => str_contains sub s'
            | EmptyString => false
            end
  end.

Fixpoint str_take (n : nat) (s : string) : string :=
  match n, s with
  | S n', String c s' => String c (str_take n' s')
  | _, _ => EmptyString
  end.

(** [s.count(sub)] for a non-empty [sub]: occurrences that do not overlap,
    from left to right; [skip] characters of the last occurrence are
    still to be passed. *)
Fixpoint str_count_from (sub : string) (skip : nat) (s : string) : nat :=
  match s with
  | EmptyString => 0
  | String _ s' =>
      match skip with
      | S k => str_count_from sub k s'
      | 0 => match strip_prefix sub s with
             | Some _ => S (str_count_from sub (str_len sub - 1) s')
             | None => str_count_from sub 0 s'
             end
      end
  end.

Definition str_count (sub s : string) : nat := str_count_from sub 0 s.

(** ** The [re] module *)

Inductive regex : Type :=
| Lit (s : string)                                  (* literal text *)
| Cls (p : ascii -> bool)                           (* one character of a class *)
| Cat (r1 r2 : regex)                               (* r1 r2 *)
| RepeatOne (greedy : bool) (lo : nat) (p : ascii -> bool)
                                                    (* c{lo,} and c{lo,}? *)
| Repeat (lo : nat) (r : regex)                     (* (?:r){lo,} *)
| Opt (r : regex)                                   (* r? *)
| Group (r : regex).                                (* (r) *)

(** The outcome of a match attempt at the start of a text: the text of
    the capture group, if the pattern has one, and the unconsumed rest. *)
Definition mres : Type := option (option string * string).

Definition or_else (a : mres) (b : unit -> mres) : mres :=
  match a with Some x => Some x | None => b tt end.

Fixpoint take_n (p : ascii -> bool) (n : nat) (s : string) : option string :=
  match n with
  | 0 => Some s
  | S n' => match s with
            | String c s' => if p c then take_n p n' s' else None
            | EmptyString => None
            end
  end.

(** Longest run first, then one character less at a time. *)
Fixpoint greedy_one (p : ascii -> bool) (s : string) (k : string -> mres) : mres :=
  match s with
  | String c s' =>
      if p c then or_else (greedy_one p s' k) (fun _ => k s) else k s
  | EmptyString => k EmptyString
  end.

(** Shortest run first, then one character more at a time. *)
Fixpoint lazy_one (p : ascii -> bool) (s : string) (k : string -> mres) : mres :=
  or_else (k s)
    (fun _ => match s with
              | String c s' => if p c then lazy_one p s' k else None
              | EmptyString => None
              end).

Fixpoint rmatch (r : regex) (s : string) (cap : option string)
    (k : option string -> string -> mres) {struct r} : mres :=
  match r with
  | Lit l => match strip_prefix l s with
             | Some s' => k cap s'
             | None => None
             end
  | Cls p => match s with
             | String c s' => if p c then k cap s' else None
             | EmptyString => None
             end
  | Cat r1 r2 => rmatch r1 s cap (fun cap' s' => rmatch r2 s' cap' k)
  | RepeatOne greedy lo p =>
      match take_n p lo s with
      | Some s' => (if greedy then greedy_one else lazy_one) p s' (k cap)
      | None => None
      end
  | Repeat lo r' =>
      (fix iter (fuel lo : nat) (s : string) (cap : option string) : mres :=
         let more (_ : unit) : mres :=
           match fuel with
           | 0 => None
           | S fuel' =>
               rmatch r' s cap
                 (fun cap' s' =>
                    if str_len s' <? str_len s
                    then iter fuel' (pred lo) s' cap' else None)
           end in
         match lo with
         | 0 => or_else (more tt) (fun _ => k cap s)
         | S _ => more tt
         end) (S (str_len s)) lo s cap
  | Opt r' => or_else (rmatch r' s cap k) (fun _ => k cap s)
  | Group r' =>
      rmatch r' s cap
        (fun _ s' => k (Some (str_take (str_len s - str_len s') s)) s')
  end.

Definition match_here (r : regex) (s : string) : mres :=
  rmatch r s None (fun cap s' => Some (cap, s')).

(** One match of a scan: the matched text and the text of the group. *)
Record re_match : Type := MkMatch { m_text : string; m_group : option string }.

(** Leftmost non-empty match: the text before it, the match, the rest.
    (Every pattern of the source starts with a literal.) *)
Fixpoint find_first (r : regex) (s : string) : option (string * re_match * string) :=
  let skip (_ : unit) :=
    match s with
    | String c s' =>
        match find_first r s' with
        | Some (gap, m, rest) => Some (String c gap, m, rest)
        | None => None
        end
    | EmptyString => None
    end in
  match match_here r s with
  | Some (cap, rest) =>
      if str_len rest <? str_len s
      then Some (EmptyString,
                 MkMatch (str_take (str_len s - str_len rest) s) cap, rest)
      else skip tt
  | None => skip tt
  end.

(** All non-overlapping matches from left to right: the text before the
    first match, and every match with the text that follows it up to the
    next match (or to the end). *)
Fixpoint scan_fuel (fuel : nat) (r : regex) (s : string)
    : string * list (re_match * string) :=
  match fuel with
  | 0 => (s, [])
  | S fuel' =>
      match find_first r s with
      | Some (gap, m, rest) =>
          let '(g, l) := scan_fuel fuel' r rest in (gap, (m, g) :: l)
      | None => (s, [])
      end
  end.

Definition scan (r : regex) (s : string) : string * list (re_match * string) :=
  scan_fuel (str_len s) r s.

Definition group_or_text (m : re_match) : string :=
  match m_group m with Some g => g | None => m_text m end.

(** [re.findall(r, s)] for a pattern with at most one group. *)
Definition re_findall (r : regex) (s : string) : list string :=
  map (fun mg => group_or_text (fst mg)) (snd (scan r s)).

(** [re.sub(r, '', s)]. *)
Definition re_sub_empty (r : regex) (s : string) : string :=
  let '(g, l) := scan r s in
  g +:+ fold_right (fun mg acc => snd mg +:+ acc) EmptyString l.

(** [re.split(r, s)] for a pattern with one group. *)
Definition re_split (r : regex) (s : string) : list string :=
  let '(g, l) := scan r s in
  g :: flat_map (fun mg => [group_or_text (fst mg); snd mg]) l.

(** ** The patterns of the source *)

(** [r"=== FILENAME: (.+?) ==="] *)
Definition file_pattern : regex :=
  Cat (Lit "=== FILENAME: ")
      (Cat (Group (RepeatOne false 1 is_dot)) (Lit " ===")).

(** [r'```.*?```'] with [re.DOTALL] *)
Definition fenced_block : regex :=
  Cat (Lit "```") (Cat (RepeatOne false 0 is_any) (Lit "```")).

(** [r'```\w*\n(.*?)```'] with [re.DOTALL] *)
Definition fenced_code : regex :=
  Cat (Lit "```")
      (Cat (RepeatOne true 0 is_word)
           (Cat (Cls (Ascii.eqb nl))
                (Cat (Group (RepeatOne false 0 is_any)) (Lit "```")))).

(** [r'```\w*\n?'] *)
Definition fence_open_opt_nl : regex :=
  Cat (Lit "```") (Cat (RepeatOne true 0 is_word) (Opt (Cls (Ascii.eqb nl)))).

(** [r'```\w*\n'] *)
Definition fence_open_nl : regex :=
  Cat (Lit "```") (Cat (RepeatOne true 0 is_word) (Cls (Ascii.eqb nl))).

(** [r'```'] *)
Definition fence : regex := Lit "```".

(** [r'def \w+\(.*\):(?:\s*\n)*(?:\s{4,}.*\n){20,}'] *)
Definition long_function : regex :=
  Cat (Lit "def ")
   (Cat (RepeatOne true 1 is_word)
    (Cat (Lit "(")
     (Cat (RepeatOne true 0 is_dot)
      (Cat (Lit "):")
       (Cat (Repeat 0 (Cat (RepeatOne true 0 is_space) (Cls (Ascii.eqb nl))))
            (Repeat 20
               (Cat (RepeatOne true 4 is_space)
                    (Cat (RepeatOne true 0 is_dot) (Cls (Ascii.eqb nl)))))))))).

(** ** Exceptions *)

Inductive exn : Type :=
| SyntaxError
| IndexError
| FileNotFoundError (path : string)
| FileExistsError (path : string)
| IsADirectoryError (path : string)
| Exception (msg : string)
| ValueError (msg : string)
| OSError (msg : string).

(** [str(e)] *)
Definition exn_str (e : exn) : string :=
  match e with
  | SyntaxError => "invalid syntax"
  | IndexError => "list index out of range"
  | FileNotFoundError p => "[Errno 2] No such file or directory: '" +:+ p +:+ "'"
  | FileExistsError p => "[Errno 17] File exists: '" +:+ p +:+ "'"
  | IsADirectoryError p => "[Errno 21] Is a directory: '" +:+ p +:+ "'"
  | Exception msg => msg
  | ValueError msg => msg
  | OSError msg => msg
  end.

Inductive result (A : Type) : Type :=
| Ok (a : A)
| Raise (e : exn).
Arguments Ok {A} a.
Arguments Raise {A} e.

#[global] Instance result_ret : MRet result := fun A a => Ok a.
#[global] Instance result_bind : MBind result :=
  fun A B f m => match m with Ok a => f a | Raise e => Raise e end.

(** [try: body except <catches>: handler] *)
Definition try_except {A : Type} (body : result A) (catches : exn -> bool)
    (handler : exn -> result A) : result A :=
  match body with
  | Ok a => Ok a
  | Raise e => if catches e then handler e else Raise e
  end.

Definition is_SyntaxError (e : exn) : bool :=
  match e with SyntaxError => true | _ => false end.

Definition is_Exception (e : exn) : bool := true.

(** [l[i]] *)
Definition getitem (l : list string) (i : nat) : result string :=
  match l !! i with
  | Some x => Ok x
  | None => Raise IndexError
  end.

(** [range(start, stop, step)] for a positive step. *)
Fixpoint range_count (n start step : nat) : list nat :=
  match n with
  | 0 => []
  | S n' => start :: range_count n' (start + step) step
  end.

Definition range (start stop step : nat) : list nat :=
  range_count ((stop - start + (step - 1)) / step) start step.

(** Truth value of a string. *)
Definition truthy (s : string) : bool :=
  match s with EmptyString => false | _ => true end.

(** [max(l, key=len)] of the list [x :: l]: a later element replaces the
    best one so far only when it is strictly longer. *)
Definition max_by_len (x : string) (l : list string) : string :=
  fold_left (fun best y => if str_len best <? str_len y then y else best) l x.

(** ** Paths *)

(** [pathlib.PurePosixPath]: a root (empty, ["/"] or ["//"]) and the parts
    below it.  A part is never empty and never ["."]; [".."] is kept. *)
Record Path : Type := MkPath { path_root : string; path_parts : list string }.

(** [part.lstrip('/')] *)
Fixpoint lstrip_sep (part : string) : string :=
  match part with
  | String c part' => if Ascii.eqb c "/" then lstrip_sep part' else part
  | EmptyString => EmptyString
  end.

(** [splitroot] of the POSIX flavour: exactly two leading slashes are a
    root of their own. *)
Definition splitroot (part : string) : string * string :=
  match part with
  | String c _ =>
      if Ascii.eqb c "/" then
        let stripped_part := lstrip_sep part in
        if str_len part - str_len stripped_part =? 2
        then ("//", stripped_part) else ("/", stripped_part)
      else (EmptyString, part)
  | EmptyString => (EmptyString, part)
  end.

Definition is_part (x : string) : bool := truthy x && negb (String.eqb x ".").

(** [Path(s)] *)
Definition Path_of (s : string) : Path :=
  MkPath (fst (splitroot s)) (List.filter is_part (str_split "/" (snd (splitroot s)))).

(** [p / s]: a rooted [s] replaces [p]. *)
Definition Path_div (p : Path) (s : string) : Path :=
  let q := Path_of s in
  if truthy (path_root q) then q
  else MkPath (path_root p) (path_parts p ++ path_parts q).

(** [str(p)] *)
Definition Path_str (p : Path) : string :=
  if truthy (path_root p) then path_root p +:+ str_join "/" (path_parts p)
  else match path_parts p with
       | [] => "."
       | parts => str_join "/" parts
       end.

(** [p.name] *)
Definition Path_name (p : Path) : string := List.last (path_parts p) EmptyString.

(** [p.suffix]: what follows the last dot of the name, the dot included,
    when the dot is neither the first nor the last character. *)
Definition Path_suffix (p : Path) : string :=
  let pieces := str_split "." (Path_name p) in
  let stem := str_join "." (removelast pieces) in
  let ext := List.last pieces EmptyString in
  if (1 <? length pieces) && truthy stem && truthy ext
  then "." +:+ ext else EmptyString.

(** ** The operating system *)

(** The calls the two classes make on files, directories and the
    terminal, each with the path as it is handed over, [str(p)]. *)
Inductive call : Type :=
| Mkdir (path : string)
| Exists (path : string)
| Read (path : string)
| Write (path text : string)
| Stdout (text : string).

(** The system under the program: what each call returns or raises, given
    the calls made before it.  Nothing is assumed about it. *)
Record os : Type := MkOs {
  os_mkdir : list call -> string -> result unit;
  os_exists : list call -> string -> result bool;
  os_read : list call -> string -> result string;
  os_write : list call -> string -> string -> result unit;
  os_print : list call -> string -> result unit
}.

(** A computation that calls the system: it extends the sequence of the
    calls made so far. *)
Definition io (A : Type) : Type := list call -> result A * list call.

Definition io_ret {A : Type} (a : A) : io A := fun log => (Ok a, log).
Definition io_bind {A B : Type} (m : io A) (f : A -> io B) : io B :=
  fun log => match m log with
             | (Ok a, log') => f a log'
             | (Raise e, log') => (Raise e, log')
             end.
Definition io_lift {A : Type} (r : result A) : io A := fun log => (r, log).

Notation "'let*' x ':=' m 'in' k" := (io_bind m (fun x => k))
  (at level 10, x name, m at level 100, k at level 200, only parsing).

(** [p.mkdir(exist_ok=True)] *)
Definition Path_mkdir (sys : os) (p : Path) : io unit :=
  fun log => (os_mkdir sys log (Path_str p), log ++ [Mkdir (Path_str p)]).

(** [p.exists()] *)
Definition Path_exists (sys : os) (p : Path) : io bool :=
  fun log => (os_exists sys log (Path_str p), log ++ [Exists (Path_str p)]).

(** [with open(p, 'w', encoding='utf-8') as f: f.write(text)] *)
Definition open_write (sys : os) (p : Path) (text : string) : io unit :=
  fun log => (os_write sys log (Path_str p) text, log ++ [Write (Path_str p) text]).

(** [with open(p, 'r', encoding='utf-8') as f: f.read()] *)
Definition open_read (sys : os) (p : Path) : io string :=
  fun log => (os_read sys log (Path_str p), log ++ [Read (Path_str p)]).

(** [print(text)] *)
Definition py_print (sys : os) (text : string) : io unit :=
  fun log => (os_print sys log text, log ++ [Stdout text]).

(** ** File records *)

Inductive file_type : Type := documentation | code.

Record file_record : Type := MkFile {
  filename : string;
  content : string;
  type : file_type
}.

Definition py_or_ts (language : string) : string :=
  if String.eqb language "python" then "py" else "ts".

Definition dq : string := String "034" EmptyString.
(** U+2705 and U+274C, as their UTF-8 bytes. *)
Definition check_mark : string := String "226" (String "156" (String "133" EmptyString)).
Definition cross_mark : string := String "226" (String "157" (String "140" EmptyString)).

(** [while cleaned_lines and cleaned_lines[-1] == '': cleaned_lines.pop()] *)
Fixpoint pop_trailing_blank (l : list string) : list string :=
  match l with
  | [] => []
  | x :: l' =>
      match pop_trailing_blank l' with
      | [] => if String.eqb x EmptyString then [] else [x]
      | r => x :: r
      end
  end.

(** The syntax-tree nodes [ast.walk] yields, as far as the analyzer
    tells them apart. *)
Inductive ast_node : Type :=
| Import (names : list string)
| ImportFrom (module : option string) (names : list string)
| FunctionDef (name : string)
| ClassDef (name : string)
| OtherNode.

Record analysis : Type := MkAnalysis {
  analysis_language : string;
  lines_of_code : nat;
  complexity_indicators : list string;
  imports : list string;
  functions : list string;
  classes : list string
}.

Definition add_indicator (a : analysis) (flag : string) : analysis :=
  MkAnalysis (analysis_language a) (lines_of_code a)
    (complexity_indicators a ++ [flag]) (imports a) (functions a) (classes a).

Definition add_imports (a : analysis) (l : list string) : analysis :=
  MkAnalysis (analysis_language a) (lines_of_code a)
    (complexity_indicators a) (imports a ++ l) (functions a) (classes a).

Definition add_function (a : analysis) (f : string) : analysis :=
  MkAnalysis (analysis_language a) (lines_of_code a)
    (complexity_indicators a) (imports a) (functions a ++ [f]) (classes a).

Definition add_class (a : analysis) (c : string) : analysis :=
  MkAnalysis (analysis_language a) (lines_of_code a)
    (complexity_indicators a) (imports a) (functions a) (classes a ++ [c]).

(** ** code_refactor.py *)

Module CodeRefactorer.

(** What [refactor_code], [refactor_file] and [refactor_and_save] return. *)
Inductive refactor_result : Type :=
| Success (original_analysis : analysis) (files : list file_record)
    (raw_response : string) (timestamp : string)
    (saved_files : option (list string))
| Failure (error : string) (timestamp : option string).

Definition output_dir : Path := Path_of "refactored_code".

Section WithEnvironment.

(** [ast.walk(ast.parse(code))]: the nodes in the order of the walk, or the
    exception [ast.parse] raises. *)
Variable ast_parse_walk : string -> result (list ast_node).

(** [self.model.generate_content(prompt).text], or the exception of the call. *)
Variable generate_content : string -> result string.

(** [datetime.now().isoformat()] and
    [datetime.now().strftime('%Y%m%d_%H%M%S')]. *)
Variable now_isoformat : string.
Variable now_stamp : string.

(** The system the files are on. *)
Variable sys : os.

(** The body of [for node in ast.walk(tree)]. *)
Definition visit (a : analysis) (node : ast_node) : analysis :=
  match node with
  | Import names => add_imports a names
  | ImportFrom module names =>
      match module with
      | Some (String c m) =>
          add_imports a [String c m +:+ "." +:+ str_join ", " names]
      | _ => a
      end
  | FunctionDef name => add_function a name
  | ClassDef name => add_class a name
  | OtherNode => a
  end.

Definition analyze_code_structure (code_text language : string) : result analysis :=
  let a := MkAnalysis language (length (str_split nl code_text)) [] [] [] [] in
  a ← (if String.eqb language "python" then
         try_except
           (tree ← ast_parse_walk code_text; mret (fold_left visit tree a))
           is_SyntaxError
           (fun _ => mret (add_indicator a "Syntax errors present"))
       else mret a);
  let a := if 500 <? lines_of_code a
           then add_indicator a "Large file (>500 lines)" else a in
  let a := if 20 <? length (functions a)
           then add_indicator a "Many functions (>20)" else a in
  let a := if 10 <? length (classes a)
           then add_indicator a "Many classes (>10)" else a in
  let a := if str_contains "TODO" code_text || str_contains "FIXME" code_text
           then add_indicator a "Contains TODO/FIXME comments" else a in
  let a := if 0 <? str_count "except:" code_text
           then add_indicator a "Bare except clauses found" else a in
  let a := if 0 <? length (re_findall long_function code_text)
           then add_indicator a "Very long functions detected" else a in
  mret a.

Definition get_refactoring_system_prompt (language : string) (a : analysis) : string :=
  "You are an expert "
  +:+ language
  +:+ " code refactoring specialist with deep knowledge of software engineering best practices.

ANALYSIS OF CURRENT CODE:
- Language: "
  +:+ analysis_language a
  +:+ "
- Lines of code: "
  +:+ str_of_nat (lines_of_code a)
  +:+ "
- Functions: "
  +:+ str_of_nat (length (functions a))
  +:+ "
- Classes: "
  +:+ str_of_nat (length (classes a))
  +:+ "
- Complexity indicators: "
  +:+ (match complexity_indicators a with [] => "None detected" | l => str_join ", " l end)
  +:+ "
- Imports detected: "
  +:+ str_join ", " (take 10 (imports a))
  +:+ (if 10 <? length (imports a) then "..." else "")
  +:+ "

REFACTORING OBJECTIVES:
1. **Structure & Organization**: Break down large functions/classes into smaller, focused units
2. **Code Quality**: Eliminate code smells, improve readability, add proper error handling
3. **Maintainability**: Apply SOLID principles, design patterns, and clean architecture
4. **Documentation**: Add comprehensive docstrings, type hints, and meaningful comments
5. **Performance**: Optimize where possible without sacrificing readability
6. **Testing**: Make code more testable through dependency injection and modular design

SPECIFIC REFACTORING RULES:
"
  +:+ check_mark
  +:+ " DO:
- Preserve ALL existing functionality and behavior
- Keep all real imports and dependencies intact
- Split large files into logical modules when beneficial
- Extract reusable components and utilities
- Implement proper exception handling and logging
- Add type hints and comprehensive documentation
- Follow "
  +:+ language
  +:+ " conventions and best practices
- Create configuration files for constants and settings
- Use dependency injection for better testability

"
  +:+ cross_mark
  +:+ " DON'T:
- Create mock classes or placeholder implementations
- Remove or change existing functionality
- Add external dependencies not already present
- Break backward compatibility
- Create overly complex abstractions

FILE ORGANIZATION:
If splitting into multiple files, use this format:
=== FILENAME: main_module."
  +:+ py_or_ts language
  +:+ " ===
[main code]

=== FILENAME: config."
  +:+ py_or_ts language
  +:+ " ===
[configuration constants]

=== FILENAME: utils."
  +:+ py_or_ts language
  +:+ " ===
[utility functions]

=== FILENAME: models."
  +:+ py_or_ts language
  +:+ " ===
[data models/classes]

RESPONSE FORMAT:
1. Brief explanation of refactoring approach and key improvements
2. Refactored code (single file or multiple files with clear separators)
3. Summary of changes made and benefits achieved
".

Definition extract_explanation (text : string) : string :=
  let explanation := re_sub_empty fenced_block text in
  let explanation := str_strip explanation in
  if 50 <? str_len explanation
  then "# Refactoring Notes" +:+ newline +:+ newline +:+ explanation
  else EmptyString.

Definition separate_explanation_and_code (response : string) : string * string :=
  let code_blocks := re_findall fenced_code response in
  match code_blocks with
  | b :: bs =>
      let code_text := str_strip (max_by_len b bs) in
      let explanation := str_strip (re_sub_empty fenced_block response) in
      (explanation, code_text)
  | [] => (EmptyString, str_strip response)
  end.

(** One round of [for line in lines]; the state is
    [(cleaned_lines, blank_count)]. *)
Definition clean_step (st : list string * nat) (line : string) : list string * nat :=
  let '(cleaned_lines, blank_count) := st in
  if String.eqb (str_strip line) EmptyString then
    let blank_count := blank_count + 1 in
    if blank_count <=? 2 then (cleaned_lines ++ [EmptyString], blank_count)
    else (cleaned_lines, blank_count)
  else (cleaned_lines ++ [str_rstrip line], 0).

Definition clean_and_validate_code (code_text language : string) : string :=
  let code_text := re_sub_empty fence_open_opt_nl code_text in
  let code_text := re_sub_empty fence code_text in
  let lines := str_split nl code_text in
  let '(cleaned_lines, _) := fold_left clean_step lines ([], 0) in
  let cleaned_lines := pop_trailing_blank cleaned_lines in
  str_join newline cleaned_lines.

(** [for i in range(1, len(parts), 2): if i + 1 < len(parts): ...] *)
Fixpoint file_pairs (language : string) (parts : list string) (idx : list nat)
    (files : list file_record) : result (list file_record) :=
  match idx with
  | [] => Ok files
  | i :: idx' =>
      if i + 1 <? length parts then
        fname ← getitem parts i;
        body ← getitem parts (i + 1);
        let fname := str_strip fname in
        let body := str_strip body in
        let body := clean_and_validate_code body language in
        file_pairs language parts idx' (files ++ [MkFile fname body code])
      else file_pairs language parts idx' files
  end.

Definition parse_refactored_response (response language : string)
    : result (list file_record) :=
  let files := [] in
  let file_matches := re_findall file_pattern response in
  match file_matches with
  | _ :: _ =>
      let parts := re_split file_pattern response in
      part0 ← getitem parts 0;
      let files :=
        if truthy (str_strip part0) then
          let explanation := extract_explanation part0 in
          if truthy explanation
          then files ++ [MkFile "REFACTORING_NOTES.md" explanation documentation]
          else files
        else files in
      file_pairs language parts (range 1 (length parts) 2) files
  | [] =>
      let '(explanation, code_text) := separate_explanation_and_code response in
      let files :=
        if truthy explanation
        then files ++ [MkFile "REFACTORING_NOTES.md" explanation documentation]
        else files in
      let files :=
        if truthy code_text
        then files ++ [MkFile ("refactored_code." +:+ py_or_ts language)
                         (clean_and_validate_code code_text language) code]
        else files in
      Ok files
  end.

Definition refactor_code (code_text language : string) (file_name : option string)
    : result refactor_result :=
  try_except
    (a ← analyze_code_structure code_text language;
     let system_prompt := get_refactoring_system_prompt language a in
     let user_prompt :=
       ("Please refactor the following "
       +:+ language
       +:+ " code:

FILENAME: "
       +:+ (match file_name with Some (String c f) => String c f | _ => "code." +:+ py_or_ts language end)
       +:+ "

```"
       +:+ language
       +:+ "
"
       +:+ code_text
       +:+ "
```

Focus on the complexity indicators identified: "
       +:+ (match complexity_indicators a with [] => "General code improvement" | l => str_join ", " l end)
       +:+ "

Please provide clean, production-ready refactored code that maintains all existing functionality.") in
     let full_prompt := system_prompt +:+ newline +:+ newline +:+ user_prompt in
     response_text ← generate_content full_prompt;
     files ← parse_refactored_response response_text language;
     mret (Success a files response_text now_isoformat None))
    is_Exception
    (fun e => mret (Failure (exn_str e) (Some now_isoformat))).

(** [__init__]: the output directory is made when it is not there. *)
Definition init : io unit := Path_mkdir sys output_dir.

Definition refactor_file (file_path : string) (language : option string)
    : io refactor_result :=
  let file_path := Path_of file_path in
  let* found := Path_exists sys file_path in
  if negb found then io_ret (Failure ("File not found: " +:+ Path_str file_path) None)
  else
    let detected :=
      match language with
      | Some (String c l) => Some (String c l)
      | _ =>
          if String.eqb (Path_suffix file_path) ".py" then Some "python"
          else if String.eqb (Path_suffix file_path) ".ts"
                  || String.eqb (Path_suffix file_path) ".js"
          then Some "typescript"
          else None
      end in
    match detected with
    | None =>
        io_ret (Failure ("Unsupported file type: " +:+ Path_suffix file_path) None)
    | Some language =>
        fun log =>
          match open_read sys file_path log with
          | (Raise e, log') =>
              (Ok (Failure ("Error reading file: " +:+ exn_str e) None), log')
          | (Ok code_text, log') =>
              (refactor_code code_text language (Some (Path_name file_path)), log')
          end
    end.

(** [for file_info in files: ...] of [save_refactored_files]. *)
Fixpoint save_loop (project_dir : Path) (files : list file_record)
    (saved_files : list string) : io (list string) :=
  match files with
  | [] => io_ret saved_files
  | file_info :: files' =>
      let file_path := Path_div project_dir (filename file_info) in
      let* _ := open_write sys file_path (content file_info) in
      let saved_files := saved_files ++ [Path_str file_path] in
      let* _ := py_print sys ("Saved: " +:+ Path_str file_path) in
      save_loop project_dir files' saved_files
  end.

Definition save_refactored_files (files : list file_record)
    (project_name : option string) : io (list string) :=
  let project_name :=
    match project_name with
    | Some (String c n) => String c n
    | _ => "refactored_" +:+ now_stamp
    end in
  let project_dir := Path_div output_dir project_name in
  let* _ := Path_mkdir sys project_dir in
  save_loop project_dir files [].

Definition refactor_and_save (code_text language : string)
    (file_name project_name : option string) : io refactor_result :=
  let* r := io_lift (refactor_code code_text language file_name) in
  match r with
  | Success a files raw ts _ =>
      let* saved_files := save_refactored_files files project_name in
      let* _ := py_print sys (newline +:+ "=== Refactoring Summary ===") in
      let* _ := py_print sys ("Original complexity indicators: "
                              +:+ str_join ", " (complexity_indicators a)) in
      let* _ := py_print sys ("Generated " +:+ str_of_nat (length files) +:+ " files") in
      let* _ := py_print sys ("Reduced from " +:+ str_of_nat (lines_of_code a)
                              +:+ " lines to multiple organized modules") in
      io_ret (Success a files raw ts (Some saved_files))
  | Failure _ _ => io_ret r
  end.

End WithEnvironment.

End CodeRefactorer.

(** ** script_generator.py *)

Module ScriptGenerator.

(** What [generate_script] and [generate_and_save] return. *)
Inductive generate_result : Type :=
| Success (files : list file_record) (raw_response : string)
    (timestamp : string) (saved_files : option (list string))
| Failure (error : string) (timestamp : string).

Definition output_dir : Path := Path_of "generated_scripts".

Definition get_script_generation_prompt (language : string) : string :=
  "You are an expert "
  +:+ language
  +:+ " developer specializing in automation testing and development tools.

Your task is to generate clean, well-structured, production-ready code based on user requirements.

GUIDELINES:
1. Write clean, readable, and maintainable code
2. Include proper error handling and logging
3. Add comprehensive docstrings and comments
4. Follow "
  +:+ language
  +:+ " best practices and conventions
5. Include type hints (Python) or proper typing (TypeScript)
6. Structure code with proper separation of concerns
7. Include import statements for all dependencies
8. Add example usage when appropriate
9. Consider edge cases and validation

OUTPUT FORMAT:
- Provide complete, runnable code
- If multiple files are needed, clearly separate them with "
  +:+ dq
  +:+ "=== FILENAME: <name> ==="
  +:+ dq
  +:+ "
- Include setup/installation instructions if needed
- Add brief explanation of the solution approach

Focus on creating production-ready code that can be used immediately without placeholder implementations.".

Definition get_refactoring_prompt (language : string) : string :=
  "You are an expert "
  +:+ language
  +:+ " code refactoring specialist.

Your task is to refactor messy, poorly structured code into clean, maintainable, professional-quality code.

REFACTORING PRINCIPLES:
1. Improve code readability and structure
2. Extract reusable functions/classes
3. Apply SOLID principles and design patterns
4. Eliminate code duplication
5. Improve error handling and logging
6. Add proper type hints and documentation
7. Split large files into logical modules when beneficial
8. Preserve all existing functionality
9. Keep all real imports and dependencies (NO mock/placeholder implementations)

STRUCTURAL IMPROVEMENTS:
- Extract configuration into separate files
- Separate business logic from presentation
- Create proper class hierarchies
- Implement proper exception handling
- Add comprehensive logging
- Use dependency injection where appropriate

OUTPUT FORMAT:
- If splitting into multiple files, use "
  +:+ dq
  +:+ "=== FILENAME: <name> ==="
  +:+ dq
  +:+ "
- Provide import/export statements for file relationships
- Include brief explanation of refactoring decisions
- Maintain backward compatibility where possible

IMPORTANT: Never create mock classes or placeholder implementations. Keep all real functionality intact.".

Definition clean_code_content (text : string) : string :=
  let text := re_sub_empty fence_open_nl text in
  let text := re_sub_empty fence text in
  let lines := str_split nl text in
  let cleaned_lines := fold_left (fun acc line => acc ++ [str_rstrip line]) lines [] in
  str_strip (str_join newline cleaned_lines).

Fixpoint file_pairs (parts : list string) (idx : list nat)
    (files : list file_record) : result (list file_record) :=
  match idx with
  | [] => Ok files
  | i :: idx' =>
      if i + 1 <? length parts then
        fname ← getitem parts i;
        body ← getitem parts (i + 1);
        let fname := str_strip fname in
        let body := str_strip body in
        let body := clean_code_content body in
        file_pairs parts idx' (files ++ [MkFile fname body code])
      else file_pairs parts idx' files
  end.

Definition parse_multi_file_response (response language : string)
    : result (list file_record) :=
  let files := [] in
  let file_matches := re_findall file_pattern response in
  match file_matches with
  | _ :: _ =>
      let parts := re_split file_pattern response in
      part0 ← getitem parts 0;
      let files :=
        if truthy (str_strip part0)
        then files ++ [MkFile "README.md" (str_strip part0) documentation]
        else files in
      file_pairs parts (range 1 (length parts) 2) files
  | [] =>
      let text := clean_code_content response in
      let extension := py_or_ts language in
      Ok (files ++ [MkFile ("generated_script." +:+ extension) text code])
  end.

Section WithEnvironment.

Variable generate_content : string -> result string.
Variable now_isoformat : string.
Variable now_stamp : string.
Variable sys : os.

Definition generate_script (prompt language task_type : string)
    : result generate_result :=
  try_except
    (let system_prompt :=
       if String.eqb task_type "refactor"
       then get_refactoring_prompt language
       else get_script_generation_prompt language in
     let full_prompt :=
       system_prompt +:+ newline +:+ newline +:+ "USER REQUEST:" +:+ newline +:+ prompt in
     response_text ← generate_content full_prompt;
     files ← parse_multi_file_response response_text language;
     mret (Success files response_text now_isoformat None))
    is_Exception
    (fun e => mret (Failure (exn_str e) now_isoformat)).

(** [__init__]: the output directory is made when it is not there. *)
Definition init : io unit := Path_mkdir sys output_dir.

Fixpoint save_loop (project_dir : Path) (files : list file_record)
    (saved_files : list string) : io (list string) :=
  match files with
  | [] => io_ret saved_files
  | file_info :: files' =>
      let file_path := Path_div project_dir (filename file_info) in
      let* _ := open_write sys file_path (content file_info) in
      let saved_files := saved_files ++ [Path_str file_path] in
      let* _ := py_print sys ("Saved: " +:+ Path_str file_path) in
      save_loop project_dir files' saved_files
  end.

Definition save_files (files : list file_record)
    (project_name : option string) : io (list string) :=
  let project_name :=
    match project_name with
    | Some (String c n) => String c n
    | _ => "project_" +:+ now_stamp
    end in
  let project_dir := Path_div output_dir project_name in
  let* _ := Path_mkdir sys project_dir in
  save_loop project_dir files [].

Definition generate_and_save (prompt language task_type : string)
    (project_name : option string) : io generate_result :=
  let* r := io_lift (generate_script prompt language task_type) in
  match r with
  | Success files raw ts _ =>
      let* saved_files := save_files files project_name in
      io_ret (Success files raw ts (Some saved_files))
  | Failure _ _ => io_ret r
  end.

End WithEnvironment.

End ScriptGenerator.

(** * Notions used by the statements and the proofs *)

(** The code records of the multi-file path: one per match of the
    delimiter, from the name it captured and the text that follows it. *)
Definition code_records (clean : string -> string) (l : list (re_match * string))
    : list file_record :=
  map (fun mg => MkFile (str_strip (group_or_text (fst mg)))
                   (clean (str_strip (snd mg))) code) l.

Definition split_parts (l : list (re_match * string)) : list string :=
  flat_map (fun mg => [group_or_text (fst mg); snd mg]) l.

(** The documentation record of the multi-file path, from the leading
    segment. *)
Definition refactoring_notes (leading : string) : list file_record :=
  let explanation := str_strip (re_sub_empty fenced_block leading) in
  if 50 <? str_len explanation
  then [MkFile "REFACTORING_NOTES.md"
          ("# Refactoring Notes" +:+ newline +:+ newline +:+ explanation)
          documentation]
  else [].

Definition readme (leading : string) : list file_record :=
  if truthy (str_strip leading)
  then [MkFile "README.md" (str_strip leading) documentation]
  else [].

Definition starts_fence (s : string) : bool :=
  match strip_prefix "```" s with Some _ => true | None => false end.

Definition has_fence (s : string) : bool := str_contains "```" s.

(** The number of backticks a text starts with. *)
Fixpoint ticks (s : string) : nat :=
  match s with
  | String c s' => if Ascii.eqb tick c then S (ticks s') else 0
  | EmptyString => 0
  end.

Definition nonempty_match (r : regex) (s : string) : bool :=
  match match_here r s with
  | Some (_, rest) => str_len rest <? str_len s
  | None => false
  end.

Definition find_skip (r : regex) (s : string) : option (string * re_match * string) :=
  match s with
  | String c s' =>
      match find_first r s' with
      | Some (gap, m, rest) => Some (String c gap, m, rest)
      | None => None
      end
  | EmptyString => None
  end.

(** A pattern every match of which starts with a fence, and a pattern
    that matches exactly where a fence starts. *)
Definition fence_led (r : regex) : Prop :=
  forall s, nonempty_match r s = true -> starts_fence s = true.

Definition fence_exact (r : regex) : Prop :=
  forall s, nonempty_match r s = starts_fence s.

Fixpoint all_space (s : string) : bool :=
  match s with
  | String c s' => is_space c && all_space s'
  | EmptyString => true
  end.

Definition optional_record (text : string) (r : file_record) : list file_record :=
  if truthy text then [r] else [].

Fixpoint count_non_space (s : string) : nat :=
  match s with
  | String c s' => (if is_space c then 0 else 1) + count_non_space s'
  | EmptyString => 0
  end.

Definition is_code (f : file_record) : Prop := type f = code.
Definition is_documentation (f : file_record) : Prop := type f = documentation.

(** The shape of the multi-file result for the captured [names]: at most
    one documentation record, then one code record per name, in order. *)
Definition multi_file_outcome (names : list string) (files : list file_record) : Prop :=
  exists docs codes,
    files = docs ++ codes /\
    length docs <= 1 /\ Forall is_documentation docs /\
    length codes = length names /\ Forall is_code codes /\
    map filename codes = map str_strip names.

Definition two_files : string :=
  "=== FILENAME: a.py ===" +:+ newline +:+ "print(1)" +:+ newline +:+
  "=== FILENAME: b.py ===" +:+ newline +:+ "print(2)" +:+ newline.

Definition dangling : string := "=== FILENAME: a.py ===".

Definition only_fenced : string :=
  "```python" +:+ newline +:+ "x=1" +:+ newline +:+ "```".

Fixpoint str_repeat (c : ascii) (n : nat) : string :=
  match n with
  | 0 => EmptyString
  | S n' => String c (str_repeat c n')
  end.

Definition short_leading : string :=
  "hi" +:+ newline +:+ "=== FILENAME: a.py ===" +:+ newline +:+ "x".

Definition spaced_leading : string :=
  "a" +:+ str_repeat " " 60 +:+ "b" +:+ newline +:+ "=== FILENAME: a.py ===" +:+ newline +:+ "x".

Definition tied_blocks : string :=
  "```" +:+ newline +:+ "a" +:+ newline +:+ "```" +:+ " and " +:+
  "```py" +:+ newline +:+ "bc" +:+ newline +:+ "```" +:+ " or " +:+
  "```py" +:+ newline +:+ "de" +:+ newline +:+ "```".

Fixpoint count_char (c : ascii) (s : string) : nat :=
  match s with
  | String a s' => (if Ascii.eqb a c then 1 else 0) + count_char c s'
  | EmptyString => 0
  end.

Definition maybe_flag (b : bool) (flag : string) (a : analysis) : analysis :=
  if b then add_indicator a flag else a.

(** The heuristic flags, appended after the parse. *)
Definition heuristics (code_text : string) (a : analysis) : analysis :=
  let a := maybe_flag (500 <? lines_of_code a) "Large file (>500 lines)" a in
  let a := maybe_flag (20 <? length (functions a)) "Many functions (>20)" a in
  let a := maybe_flag (10 <? length (classes a)) "Many classes (>10)" a in
  let a := maybe_flag (str_contains "TODO" code_text || str_contains "FIXME" code_text)
             "Contains TODO/FIXME comments" a in
  let a := maybe_flag (0 <? str_count "except:" code_text)
             "Bare except clauses found" a in
  maybe_flag (0 <? length (re_findall long_function code_text))
    "Very long functions detected" a.

(** The parse of the structured language, with its soft failure. *)
Definition parse_stage (ast_parse_walk : string -> result (list ast_node))
    (code_text language : string) : result analysis :=
  let a := MkAnalysis language (length (str_split nl code_text)) [] [] [] [] in
  if String.eqb language "python" then
    try_except
      (tree ← ast_parse_walk code_text; mret (fold_left CodeRefactorer.visit tree a))
      is_SyntaxError
      (fun _ => mret (add_indicator a "Syntax errors present"))
  else mret a.

(** A parser that rejects every text, and one that finds no node. *)
Definition reject_all (code_text : string) : result (list ast_node) := Raise SyntaxError.
Definition no_nodes (code_text : string) : result (list ast_node) := Ok [].

Definition is_blank (line : string) : bool := String.eqb (str_strip line) EmptyString.

(** The blank-line loop of [clean_and_validate_code] as a function of the
    running [blank_count]. *)
Fixpoint collapse_blank (blank_count : nat) (lines : list string) : list string :=
  match lines with
  | [] => []
  | line :: rest =>
      if is_blank line then
        if blank_count + 1 <=? 2
        then EmptyString :: collapse_blank (blank_count + 1) rest
        else collapse_blank (blank_count + 1) rest
      else str_rstrip line :: collapse_blank 0 rest
  end.

(** Three blank lines in a row. *)
Fixpoint three_blank_lines (lines : list string) : bool :=
  match lines with
  | a :: rest =>
      match rest with
      | b :: c :: _ => (is_blank a && is_blank b && is_blank c) || three_blank_lines rest
      | _ => false
      end
  | [] => false
  end.

Definition no_nl (line : string) : Prop := count_char nl line = 0.
Definition no_fence (line : string) : Prop := has_fence line = false.
Definition rstripped (line : string) : Prop := str_rstrip line = line.

(** A line as the blank-line loop leaves it. *)
Definition clean_line (line : string) : Prop :=
  line = EmptyString \/ (is_blank line = false /\ rstripped line).

Definition blanks (n : nat) : list string := repeat EmptyString n.

(** The text without its fence markers, and the lines the cleaner keeps. *)
Definition validate_stripped (code_text : string) : string :=
  re_sub_empty fence (re_sub_empty fence_open_opt_nl code_text).

Definition validate_lines (code_text : string) : list string :=
  pop_trailing_blank (collapse_blank 0 (str_split nl (validate_stripped code_text))).

(** Leading blank lines go, and the first other line is stripped on the left. *)
Fixpoint lstrip_lines (l : list string) : list string :=
  match l with
  | [] => []
  | x :: l' => if String.eqb x EmptyString then lstrip_lines l' else str_lstrip x :: l'
  end.

(** The text without its fence markers, and the lines the cleaner keeps. *)
Definition content_stripped (text : string) : string :=
  re_sub_empty fence (re_sub_empty fence_open_nl text).

Definition content_lines (text : string) : list string :=
  lstrip_lines
    (pop_trailing_blank (map str_rstrip (str_split nl (content_stripped text)))).

Definition four_blank_lines : string :=
  "a" +:+ newline +:+ newline +:+ newline +:+ newline +:+ newline +:+ "b".

(** The project directory of a save and the paths of the records under
    it. *)
Definition project_dir_of (output_dir : Path) (default : string)
    (project_name : option string) : Path :=
  Path_div output_dir
    match project_name with
    | Some (String c n) => String c n
    | _ => default
    end.

Definition target_paths (project_dir : Path) (l : list file_record) : list string :=
  map (fun f => Path_str (Path_div project_dir (filename f))) l.

(** The calls a save makes when none of them raises: the project
    directory is made, then every record is written and reported. *)
Definition saves (project_dir : Path) (l : list file_record) : list call :=
  flat_map (fun f => let path := Path_str (Path_div project_dir (filename f)) in
                     [Write path (content f); Stdout ("Saved: " +:+ path)]) l.

Definition save_calls (project_dir : Path) (l : list file_record) : list call :=
  Mkdir (Path_str project_dir) :: saves project_dir l.

(** What [refactor_and_save] prints after the save. *)
Definition summary (a : analysis) (l : list file_record) : list call :=
  [Stdout (newline +:+ "=== Refactoring Summary ===");
   Stdout ("Original complexity indicators: " +:+ str_join ", " (complexity_indicators a));
   Stdout ("Generated " +:+ str_of_nat (length l) +:+ " files");
   Stdout ("Reduced from " +:+ str_of_nat (lines_of_code a)
           +:+ " lines to multiple organized modules")].

(** What the system answers to a call, its value left aside. *)
Definition call_result (sys : os) (log : list call) (c : call) : result unit :=
  match c with
  | Mkdir path => os_mkdir sys log path
  | Exists path => _ ← os_exists sys log path; mret tt
  | Read path => _ ← os_read sys log path; mret tt
  | Write path text => os_write sys log path text
  | Stdout text => os_print sys log text
  end.

(** Every call of a sequence succeeds, one after the other, after the
    calls [log]. *)
Fixpoint all_succeed (sys : os) (calls : list call) (log : list call) : Prop :=
  match calls with
  | [] => True
  | c :: calls' => call_result sys log c = Ok tt /\ all_succeed sys calls' (log ++ [c])
  end.

(** The value a sequence of calls is followed by when none raises. *)
Definition returning {A : Type} (a : A) (m : result unit * list call)
    : result A * list call :=
  (match fst m with Ok _ => Ok a | Raise e => Raise e end, snd m).

(** A sequence of calls made one after the other, up to the first that
    raises. *)
Fixpoint run_calls (sys : os) (calls : list call) : io unit :=
  match calls with
  | [] => io_ret tt
  | c :: calls' =>
      fun log => match call_result sys log c with
                 | Ok _ => run_calls sys calls' (log ++ [c])
                 | Raise e => (Raise e, log ++ [c])
                 end
  end.

(** Four systems to run the operations on: one where every call
    succeeds and every file holds [x = 1]; one where the project
    directory has no subdirectory, so that no file can be opened below
    one; one that refuses the name it is asked about; one whose terminal
    is closed. *)
Definition obliging : os :=
  MkOs (fun _ _ => Ok tt) (fun _ _ => Ok true) (fun _ _ => Ok "x = 1") (fun _ _ _ => Ok tt)
    (fun _ _ => Ok tt).

Definition no_subdirectory : os :=
  MkOs (fun _ _ => Ok tt) (fun _ _ => Ok false)
    (fun _ path => Raise (FileNotFoundError path))
    (fun _ path _ => if 2 <? count_char "/" path
                     then Raise (FileNotFoundError path) else Ok tt)
    (fun _ _ => Ok tt).

Definition long_names : os :=
  MkOs (fun _ _ => Ok tt)
    (fun _ path => Raise (OSError ("[Errno 36] File name too long: '" +:+ path +:+ "'")))
    (fun _ path => Raise (OSError ("[Errno 36] File name too long: '" +:+ path +:+ "'")))
    (fun _ path _ => Raise (OSError ("[Errno 36] File name too long: '" +:+ path +:+ "'")))
    (fun _ _ => Ok tt).

Definition closed_terminal : os :=
  MkOs (fun _ _ => Ok tt) (fun _ _ => Ok true) (fun _ _ => Ok "x = 1") (fun _ _ _ => Ok tt)
    (fun _ _ => Raise (ValueError "I/O operation on closed file.")).

(** A parse that fails on a null byte, with another exception than
    [SyntaxError]. *)
Definition null_bytes (code_text : string) : result (list ast_node) :=
  Raise (ValueError "source code string cannot contain null bytes").

Definition nested_reply (prompt : string) : result string :=
  Ok ("=== FILENAME: src/main.py ===" +:+ newline +:+ "x = 1").

Definition failing_service (prompt : string) : result string :=
  Raise (Exception "quota exceeded").

(** Every character of a text is in a class. *)
Fixpoint str_forall (p : ascii -> bool) (s : string) : bool :=
  match s with
  | String c s' => p c && str_forall p s'
  | EmptyString => true
  end.

(** A delimiter line for a name, and a response put together again from
    the parts [re.split] gives for the delimiter pattern. *)
Definition delimiter (name : string) : string :=
  "=== FILENAME: " +:+ name +:+ " ===".

Fixpoint rejoin_pairs (parts : list string) : string :=
  match parts with
  | name :: segment :: parts' => delimiter name +:+ segment +:+ rejoin_pairs parts'
  | _ => EmptyString
  end.

Definition rejoin (parts : list string) : string :=
  match parts with
  | leading :: parts' => leading +:+ rejoin_pairs parts'
  | [] => EmptyString
  end.

(** The names the walk of a syntax tree contributes, in its order. *)
Definition imports_of (tree : list ast_node) : list string :=
  flat_map (fun node =>
              match node with
              | Import names => names
              | ImportFrom (Some (String c m)) names =>
                  [String c m +:+ "." +:+ str_join ", " names]
              | _ => []
              end) tree.

Definition functions_of (tree : list ast_node) : list string :=
  flat_map (fun node => match node with FunctionDef name => [name] | _ => [] end) tree.

Definition classes_of (tree : list ast_node) : list string :=
  flat_map (fun node => match node with ClassDef name => [name] | _ => [] end) tree.

(** A small module as [ast.walk] would list it. *)
Definition sample_tree : list ast_node :=
  [OtherNode; Import ["os"; "sys"]; ImportFrom (Some "a.b") ["c"; "d"];
   ImportFrom None ["x"]; FunctionDef "f"; ClassDef "C"; FunctionDef "g"].

Definition sample_parser (code_text : string) : result (list ast_node) := Ok sample_tree.

Definition constant_reply (text : string) (prompt : string) : result string := Ok text.

Definition three_records : list file_record :=
  [MkFile "a.py" "old" code; MkFile "b.py" "two" code; MkFile "a.py" "new" code].

Definition nested_after_flat : list file_record :=
  [MkFile "a.py" "one" code; MkFile "src/b.py" "two" code; MkFile "z.py" "three" code].

(** A complete fenced block somewhere in a text: a fence with another
    fence after it. *)
Fixpoint has_block (s : string) : bool :=
  match s with
  | String _ s' => nonempty_match fenced_block s || has_block s'
  | EmptyString => false
  end.

(** The lines of a text that are not blank. *)
Definition code_lines (s : string) : list string :=
  List.filter (fun line => negb (is_blank line)) (str_split nl s).

(** A name of one part: not empty, no slash, and neither [.] nor [..]. *)
Definition plain_name (name : string) : Prop :=
  name <> EmptyString /\ count_char "/" name = 0 /\ name <> "." /\ name <> "..".

(** The text a sequence of calls wrote last to a path. *)
Fixpoint last_write (path : string) (log : list call) : option string :=
  match log with
  | [] => None
  | c :: log' =>
      match last_write path log' with
      | Some text => Some text
      | None =>
          match c with
          | Write p text => if String.eqb p path then Some text else None
          | _ => None
          end
      end
  end.

(** * Properties *)

#[local] Arguments Ascii.eqb : simpl never.
#[local] Arguments is_space : simpl never.
#[local] Arguments is_word : simpl never.
#[local] Arguments is_dot : simpl never.

(** ** Lists, ranges and the loop over the parts *)

Lemma range_odd (n : nat) : range 1 (S (2 * n)) 2 = range_count n 1 2.
Proof.
  unfold range. f_equal.
  replace (S (2 * n) - 1 + (2 - 1)) with (1 + n * 2) by lia.
  rewrite Nat.div_add by lia. reflexivity.
Qed.

Lemma length_split_parts (l : list (re_match * string)) :
  length (split_parts l) = 2 * length l.
Proof. induction l as [|mg l IH]; simpl; [reflexivity | rewrite IH; lia]. Qed.

Lemma getitem_middle (pre post : list string) (x : string) :
  getitem (pre ++ x :: post) (length pre) = Ok x.
Proof. unfold getitem. rewrite list_lookup_middle; reflexivity. Qed.

Lemma getitem_middle_next (pre post : list string) (x y : string) :
  getitem (pre ++ x :: y :: post) (length pre + 1) = Ok y.
Proof.
  replace (pre ++ x :: y :: post) with ((pre ++ [x]) ++ y :: post)
    by (rewrite <- app_assoc; reflexivity).
  replace (length pre + 1) with (length (pre ++ [x]))
    by (rewrite length_app; reflexivity).
  apply getitem_middle.
Qed.

Lemma refactor_file_pairs (language : string) (l : list (re_match * string)) :
  forall pre files,
    CodeRefactorer.file_pairs language (pre ++ split_parts l)
      (range_count (length l) (length pre) 2) files
    = Ok (files ++ code_records
                     (fun c => CodeRefactorer.clean_and_validate_code c language) l).
Proof.
  induction l as [|[m g] l IH]; intros pre files.
  - simpl. rewrite app_nil_r. reflexivity.
  - change (split_parts ((m, g) :: l))
      with (group_or_text m :: g :: split_parts l).
    change (range_count (length ((m, g) :: l)) (length pre) 2)
      with (length pre :: range_count (length l) (length pre + 2) 2).
    unfold CodeRefactorer.file_pairs; fold CodeRefactorer.file_pairs.
    assert (Hlt : (length pre + 1 <? length (pre ++ group_or_text m :: g :: split_parts l)) = true).
    { apply Nat.ltb_lt. rewrite length_app. simpl. lia. }
    rewrite Hlt, getitem_middle, getitem_middle_next.
    unfold mbind, result_bind.
    replace (pre ++ group_or_text m :: g :: split_parts l)
      with ((pre ++ [group_or_text m; g]) ++ split_parts l)
      by (rewrite <- app_assoc; reflexivity).
    replace (length pre + 2) with (length (pre ++ [group_or_text m; g]))
      by (rewrite length_app; reflexivity).
    rewrite IH. rewrite <- app_assoc. reflexivity.
Qed.

Lemma generator_file_pairs (l : list (re_match * string)) :
  forall pre files,
    ScriptGenerator.file_pairs (pre ++ split_parts l)
      (range_count (length l) (length pre) 2) files
    = Ok (files ++ code_records ScriptGenerator.clean_code_content l).
Proof.
  induction l as [|[m g] l IH]; intros pre files.
  - simpl. rewrite app_nil_r. reflexivity.
  - change (split_parts ((m, g) :: l))
      with (group_or_text m :: g :: split_parts l).
    change (range_count (length ((m, g) :: l)) (length pre) 2)
      with (length pre :: range_count (length l) (length pre + 2) 2).
    unfold ScriptGenerator.file_pairs; fold ScriptGenerator.file_pairs.
    assert (Hlt : (length pre + 1 <? length (pre ++ group_or_text m :: g :: split_parts l)) = true).
    { apply Nat.ltb_lt. rewrite length_app. simpl. lia. }
    rewrite Hlt, getitem_middle, getitem_middle_next.
    unfold mbind, result_bind.
    replace (pre ++ group_or_text m :: g :: split_parts l)
      with ((pre ++ [group_or_text m; g]) ++ split_parts l)
      by (rewrite <- app_assoc; reflexivity).
    replace (length pre + 2) with (length (pre ++ [group_or_text m; g]))
      by (rewrite length_app; reflexivity).
    rewrite IH. rewrite <- app_assoc. reflexivity.
Qed.

(** [re.findall] and [re.split] read the same scan. *)
Lemma findall_scan (r : regex) (s : string) :
  re_findall r s = map (fun mg => group_or_text (fst mg)) (snd (scan r s)).
Proof. reflexivity. Qed.

Lemma split_scan (r : regex) (s : string) :
  re_split r s = fst (scan r s) :: split_parts (snd (scan r s)).
Proof. unfold re_split. destruct (scan r s) as [g l]. reflexivity. Qed.

Lemma generator_multi (response language : string) :
  snd (scan file_pattern response) <> [] ->
  ScriptGenerator.parse_multi_file_response response language
  = Ok (readme (fst (scan file_pattern response))
        ++ code_records ScriptGenerator.clean_code_content
             (snd (scan file_pattern response))).
Proof.
  intros Hne. unfold ScriptGenerator.parse_multi_file_response.
  rewrite findall_scan, split_scan.
  destruct (scan file_pattern response) as [g l]. simpl fst in *. simpl snd in *.
  destruct l as [|mg l]; [congruence|].
  set (l' := mg :: l).
  change (map (fun mg0 => group_or_text (fst mg0)) l')
    with (group_or_text (fst mg) :: map (fun mg0 => group_or_text (fst mg0)) l).
  cbv beta iota.
  change (getitem (g :: split_parts l') 0) with (Ok (A:=string) g).
  unfold mbind, result_bind.
  replace (length (g :: split_parts l')) with (S (2 * length l'))
    by (change (length (g :: split_parts l')) with (S (length (split_parts l')));
        rewrite length_split_parts; reflexivity).
  rewrite range_odd.
  pose proof (generator_file_pairs l' [g]) as H.
  change ([g] ++ split_parts l') with (g :: split_parts l') in H.
  change (length [g]) with 1 in H.
  rewrite H. unfold readme.
  destruct (truthy (str_strip g)); reflexivity.
Qed.

(** ** Strings *)

Lemma append_cons (c : ascii) (a b : string) :
  String c a +:+ b = String c (a +:+ b).
Proof. reflexivity. Qed.

Lemma append_nil_l (b : string) : EmptyString +:+ b = b.
Proof. reflexivity. Qed.

Lemma str_len_append (a b : string) : str_len (a +:+ b) = str_len a + str_len b.
Proof.
  unfold str_len. induction a as [|c a IH]; [reflexivity|].
  rewrite append_cons. simpl. rewrite IH. reflexivity.
Qed.

Lemma append_nil_r (a : string) : a +:+ EmptyString = a.
Proof.
  induction a as [|c a IH]; [reflexivity|].
  rewrite append_cons, IH. reflexivity.
Qed.

Lemma append_assoc (a b c : string) : (a +:+ b) +:+ c = a +:+ (b +:+ c).
Proof.
  induction a as [|x a IH]; [reflexivity|].
  rewrite !append_cons, IH. reflexivity.
Qed.

Lemma strip_prefix_len (p s s' : string) :
  strip_prefix p s = Some s' -> str_len s = str_len p + str_len s'.
Proof.
  revert s. induction p as [|a p IH]; intros s H; simpl in H.
  - inversion H. reflexivity.
  - destruct s as [|b s]; [discriminate|].
    destruct (Ascii.eqb a b); [|discriminate].
    apply IH in H. unfold str_len in *. simpl. lia.
Qed.

(** ** Fences *)

Lemma has_fence_cons (c : ascii) (s : string) :
  has_fence (String c s) = starts_fence (String c s) || has_fence s.
Proof.
  unfold has_fence, starts_fence.
  change (str_contains "```" (String c s))
    with (match strip_prefix "```" (String c s) with
          | Some _ => true
          | None => str_contains "```" s
          end).
  destruct (strip_prefix "```" (String c s)); reflexivity.
Qed.

Lemma has_fence_nil : has_fence EmptyString = false.
Proof. reflexivity. Qed.

Lemma starts_fence_ticks (s : string) : starts_fence s = (3 <=? ticks s).
Proof.
  unfold starts_fence. change "```" with (String tick (String tick (String tick EmptyString))).
  destruct s as [|a [|b [|c t]]]; simpl; try reflexivity;
    repeat (match goal with |- context [Ascii.eqb tick ?x] => destruct (Ascii.eqb tick x) end;
            try reflexivity).
Qed.

Lemma no_fence_ticks (s : string) : has_fence s = false -> ticks s <= 2.
Proof.
  intros H. destruct s as [|c s]; [simpl; lia|].
  rewrite has_fence_cons in H. apply orb_false_iff in H as [H _].
  rewrite starts_fence_ticks in H. apply Nat.leb_gt in H. lia.
Qed.

(** ** Scanning *)

Lemma find_first_eq (r : regex) (s : string) :
  find_first r s
  = match match_here r s with
    | Some (cap, rest) =>
        if str_len rest <? str_len s
        then Some (EmptyString,
                   MkMatch (str_take (str_len s - str_len rest) s) cap, rest)
        else find_skip r s
    | None => find_skip r s
    end.
Proof. destruct s; reflexivity. Qed.

Lemma find_first_match (r : regex) (s : string) (cap : option string) (rest : string) :
  match_here r s = Some (cap, rest) -> str_len rest < str_len s ->
  find_first r s
  = Some (EmptyString, MkMatch (str_take (str_len s - str_len rest) s) cap, rest).
Proof.
  intros Hm Hlt. apply Nat.ltb_lt in Hlt.
  rewrite find_first_eq, Hm, Hlt. reflexivity.
Qed.

Lemma find_first_skip (r : regex) (c : ascii) (s : string) :
  nonempty_match r (String c s) = false ->
  find_first r (String c s)
  = match find_first r s with
    | Some (gap, m, rest) => Some (String c gap, m, rest)
    | None => None
    end.
Proof.
  unfold nonempty_match. intros H. rewrite find_first_eq.
  destruct (match_here r (String c s)) as [[cap rest]|]; [|reflexivity].
  rewrite H. reflexivity.
Qed.

Lemma find_first_nil (r : regex) : find_first r EmptyString = None.
Proof.
  rewrite find_first_eq. destruct (match_here r EmptyString) as [[cap rest]|]; [|reflexivity].
  destruct (str_len rest <? str_len EmptyString) eqn:E; [|reflexivity].
  apply Nat.ltb_lt in E. simpl in E. lia.
Qed.

Lemma find_first_shorter (r : regex) (s gap : string) (m : re_match) (rest : string) :
  find_first r s = Some (gap, m, rest) -> str_len rest < str_len s.
Proof.
  revert gap m rest. induction s as [|c s IH]; intros gap m rest H.
  - rewrite find_first_nil in H. discriminate.
  - destruct (nonempty_match r (String c s)) eqn:E.
    + unfold nonempty_match in E.
      destruct (match_here r (String c s)) as [[cap rest']|] eqn:Hm; [|discriminate].
      apply Nat.ltb_lt in E.
      rewrite (find_first_match _ _ _ _ Hm E) in H. inversion H; subst. exact E.
    + rewrite find_first_skip in H by exact E.
      destruct (find_first r s) as [[[gap' m'] rest']|] eqn:F; [|discriminate].
      inversion H; subst. specialize (IH _ _ _ eq_refl).
      unfold str_len in *. simpl. lia.
Qed.

Lemma scan_fuel_enough (r : regex) (f1 : nat) :
  forall f2 s, str_len s <= f1 -> str_len s <= f2 ->
    scan_fuel f1 r s = scan_fuel f2 r s.
Proof.
  induction f1 as [|f1 IH]; intros f2 s H1 H2.
  - destruct s; [|simpl in H1; lia].
    destruct f2; cbn [scan_fuel]; [reflexivity|].
    rewrite find_first_nil. reflexivity.
  - destruct f2 as [|f2].
    + destruct s; [|simpl in H2; lia].
      cbn [scan_fuel]. rewrite find_first_nil. reflexivity.
    + cbn [scan_fuel].
      destruct (find_first r s) as [[[gap m] rest]|] eqn:F; [|reflexivity].
      apply find_first_shorter in F.
      rewrite (IH f2 rest) by lia. reflexivity.
Qed.

Lemma scan_none (r : regex) (s : string) :
  find_first r s = None -> scan r s = (s, []).
Proof.
  intros H. unfold scan. destruct (str_len s); cbn [scan_fuel]; [reflexivity|].
  rewrite H. reflexivity.
Qed.

Lemma scan_some (r : regex) (s gap : string) (m : re_match) (rest : string) :
  find_first r s = Some (gap, m, rest) ->
  scan r s = (gap, (m, fst (scan r rest)) :: snd (scan r rest)).
Proof.
  intros H. pose proof (find_first_shorter _ _ _ _ _ H) as Hlt.
  unfold scan. destruct (str_len s) as [|n] eqn:E; [lia|].
  cbn [scan_fuel]. rewrite H.
  rewrite (scan_fuel_enough r n (str_len rest) rest) by lia.
  destruct (scan_fuel (str_len rest) r rest). reflexivity.
Qed.

Lemma sub_none (r : regex) (s : string) :
  find_first r s = None -> re_sub_empty r s = s.
Proof.
  intros H. unfold re_sub_empty. rewrite (scan_none _ _ H). simpl.
  apply append_nil_r.
Qed.

Lemma sub_some (r : regex) (s gap : string) (m : re_match) (rest : string) :
  find_first r s = Some (gap, m, rest) ->
  re_sub_empty r s = gap +:+ re_sub_empty r rest.
Proof.
  intros H. unfold re_sub_empty. rewrite (scan_some _ _ _ _ _ H).
  destruct (scan r rest) as [g l]. reflexivity.
Qed.

Lemma sub_nil (r : regex) : re_sub_empty r EmptyString = EmptyString.
Proof. apply sub_none, find_first_nil. Qed.

Lemma sub_match (r : regex) (s : string) (cap : option string) (rest : string) :
  match_here r s = Some (cap, rest) -> str_len rest < str_len s ->
  re_sub_empty r s = re_sub_empty r rest.
Proof.
  intros Hm Hlt. rewrite (sub_some _ _ _ _ _ (find_first_match _ _ _ _ Hm Hlt)).
  reflexivity.
Qed.

Lemma sub_skip (r : regex) (c : ascii) (s : string) :
  nonempty_match r (String c s) = false ->
  re_sub_empty r (String c s) = String c (re_sub_empty r s).
Proof.
  intros H. pose proof (find_first_skip _ _ _ H) as F.
  destruct (find_first r s) as [[[gap m] rest]|] eqn:F'.
  - rewrite (sub_some _ _ _ _ _ F), (sub_some _ _ _ _ _ F'). reflexivity.
  - rewrite (sub_none _ _ F), (sub_none _ _ F'). reflexivity.
Qed.

Lemma fence_exact_led (r : regex) : fence_exact r -> fence_led r.
Proof. intros H s. rewrite H. trivial. Qed.

Lemma find_first_no_fence (r : regex) (s : string) :
  fence_led r -> has_fence s = false -> find_first r s = None.
Proof.
  intros Hr. induction s as [|c s IH]; intros H.
  - apply find_first_nil.
  - rewrite has_fence_cons in H. apply orb_false_iff in H as [H1 H2].
    assert (E : nonempty_match r (String c s) = false).
    { destruct (nonempty_match r (String c s)) eqn:E; [|reflexivity].
      apply Hr in E. congruence. }
    rewrite find_first_skip by exact E. rewrite IH by exact H2. reflexivity.
Qed.

(** Without a fence in the text, removing the matches of a fence-led
    pattern changes nothing. *)
Lemma sub_no_fence_id (r : regex) (s : string) :
  fence_led r -> has_fence s = false -> re_sub_empty r s = s.
Proof. intros Hr H. apply sub_none, find_first_no_fence; assumption. Qed.

(** After the matches of a pattern that matches at every fence are
    removed, no fence is left. *)
Lemma sub_exact_no_fence (r : regex) :
  fence_exact r ->
  forall n s, str_len s <= n ->
    has_fence (re_sub_empty r s) = false /\ ticks (re_sub_empty r s) <= ticks s.
Proof.
  intros Hr. induction n as [|n IH]; intros s Hn.
  - destruct s; [|simpl in Hn; lia]. rewrite sub_nil. split; [reflexivity | simpl; lia].
  - destruct s as [|c s]; [rewrite sub_nil; split; [reflexivity | simpl; lia]|].
    destruct (nonempty_match r (String c s)) eqn:E.
    + pose proof E as E'. rewrite Hr, starts_fence_ticks in E'. apply Nat.leb_le in E'.
      unfold nonempty_match in E.
      destruct (match_here r (String c s)) as [[cap rest]|] eqn:Hm; [|discriminate].
      apply Nat.ltb_lt in E. rewrite (sub_match _ _ _ _ Hm E).
      destruct (IH rest) as [H1 H2]; [simpl in *; unfold str_len in *; simpl in *; lia|].
      split; [exact H1|]. apply no_fence_ticks in H1. lia.
    + rewrite sub_skip by exact E.
      destruct (IH s) as [H1 H2]; [unfold str_len in *; simpl in Hn; lia|].
      rewrite Hr, starts_fence_ticks in E. apply Nat.leb_gt in E.
      assert (T : ticks (String c (re_sub_empty r s)) <= ticks (String c s)).
      { simpl. destruct (Ascii.eqb tick c); lia. }
      split; [|exact T].
      rewrite has_fence_cons, H1, starts_fence_ticks, orb_false_r.
      apply Nat.leb_gt. lia.
Qed.

(** ** The fence patterns *)

Lemma cat_fence_led (r : regex) : fence_led (Cat (Lit "```") r).
Proof.
  intros s H. unfold nonempty_match, match_here in H. cbn [rmatch] in H.
  unfold starts_fence. destruct (strip_prefix "```" s); [reflexivity | discriminate].
Qed.

Lemma fence_is_exact : fence_exact fence.
Proof.
  intros s. unfold nonempty_match, match_here, fence, starts_fence. cbn [rmatch].
  destruct (strip_prefix "```" s) as [s'|] eqn:E; [|reflexivity].
  apply strip_prefix_len in E. apply Nat.ltb_lt. rewrite E. simpl. lia.
Qed.

Lemma greedy_one_total (p : ascii -> bool) (k : string -> mres) :
  (forall t, exists cap rest, k t = Some (cap, rest) /\ str_len rest <= str_len t) ->
  forall s, exists cap rest,
    greedy_one p s k = Some (cap, rest) /\ str_len rest <= str_len s.
Proof.
  intros Hk. induction s as [|c s IH].
  - simpl. apply Hk.
  - cbn [greedy_one]. destruct (p c); [|apply Hk].
    destruct IH as (cap & rest & -> & Hlen). simpl.
    exists cap, rest. split; [reflexivity|]. unfold str_len in *. simpl. lia.
Qed.

Lemma fence_open_opt_nl_exact : fence_exact fence_open_opt_nl.
Proof.
  intros s. unfold nonempty_match, match_here, fence_open_opt_nl, starts_fence.
  cbn [rmatch take_n].
  destruct (strip_prefix "```" s) as [s'|] eqn:E; [|reflexivity].
  apply strip_prefix_len in E.
  match goal with |- context [greedy_one is_word s' ?k] => set (k0 := k) end.
  assert (Hk : forall t, exists cap rest,
               k0 t = Some (cap, rest) /\ str_len rest <= str_len t).
  { intros t. subst k0. destruct t as [|c t].
    - simpl. eauto.
    - cbv beta. cbn [rmatch]. destruct (Ascii.eqb nl c); cbn [or_else].
      + exists None, t. split; [reflexivity|]. unfold str_len. simpl. lia.
      + eauto. }
  destruct (greedy_one_total is_word k0 Hk s') as (cap & rest & -> & Hlen).
  apply Nat.ltb_lt. rewrite E. simpl. lia.
Qed.

Lemma fence_open_nl_led : fence_led fence_open_nl.
Proof. apply cat_fence_led. Qed.

Lemma fenced_block_led : fence_led fenced_block.
Proof. apply cat_fence_led. Qed.

Lemma fence_led_lit : fence_led fence.
Proof. apply fence_exact_led, fence_is_exact. Qed.

Lemma fence_open_opt_nl_led : fence_led fence_open_opt_nl.
Proof. apply cat_fence_led. Qed.

(** ** Stripping *)

Lemma rstrip_cons (c : ascii) (s : string) :
  str_rstrip (String c s)
  = match str_rstrip s with
    | EmptyString => if is_space c then EmptyString else String c EmptyString
    | r => String c r
    end.
Proof. reflexivity. Qed.

Lemma lstrip_cons (c : ascii) (s : string) :
  str_lstrip (String c s) = if is_space c then str_lstrip s else String c s.
Proof. reflexivity. Qed.

Lemma rstrip_empty_iff (s : string) :
  str_rstrip s = EmptyString <-> all_space s = true.
Proof.
  induction s as [|c s IH]; [simpl; tauto|].
  rewrite rstrip_cons. cbn [all_space].
  destruct (str_rstrip s) as [|a r] eqn:E.
  - destruct (is_space c); simpl.
    + split; [intros _; apply IH; reflexivity | reflexivity].
    + split; discriminate.
  - split; [discriminate|]. intros H. apply andb_true_iff in H as [_ H].
    apply IH in H. discriminate.
Qed.

Lemma lstrip_empty_iff (s : string) :
  str_lstrip s = EmptyString <-> all_space s = true.
Proof.
  induction s as [|c s IH]; [simpl; tauto|].
  rewrite lstrip_cons. cbn [all_space].
  destruct (is_space c); simpl; [exact IH|]. split; discriminate.
Qed.

Lemma rstrip_idem (s : string) : str_rstrip (str_rstrip s) = str_rstrip s.
Proof.
  induction s as [|c s IH]; [reflexivity|].
  rewrite rstrip_cons. destruct (str_rstrip s) as [|a r] eqn:E.
  - destruct (is_space c) eqn:Ec; [reflexivity|].
    rewrite rstrip_cons. simpl. rewrite Ec. reflexivity.
  - rewrite rstrip_cons, IH. reflexivity.
Qed.

Lemma strip_empty_iff (s : string) :
  str_strip s = EmptyString <-> all_space s = true.
Proof.
  unfold str_strip. rewrite lstrip_empty_iff. split; intros H.
  - apply rstrip_empty_iff. apply rstrip_empty_iff in H.
    rewrite rstrip_idem in H. exact H.
  - apply rstrip_empty_iff in H. rewrite H. reflexivity.
Qed.

Lemma truthy_false (s : string) : truthy s = false <-> s = EmptyString.
Proof. destruct s; simpl; split; congruence. Qed.

Lemma tick_not_space : is_space tick = false.
Proof. reflexivity. Qed.

Lemma all_space_no_fence (s : string) : all_space s = true -> has_fence s = false.
Proof.
  induction s as [|c s IH]; [reflexivity|]. cbn [all_space].
  intros H. apply andb_true_iff in H as [Hc Hs].
  rewrite has_fence_cons, (IH Hs), orb_false_r, starts_fence_ticks.
  apply Nat.leb_gt. simpl. destruct (Ascii.eqb_spec tick c) as [<-|_]; [|lia].
  rewrite tick_not_space in Hc. discriminate.
Qed.

Lemma blank_leading_no_notes (g : string) :
  truthy (str_strip g) = false -> refactoring_notes g = [].
Proof.
  intros H. apply truthy_false in H. unfold refactoring_notes.
  pose proof H as Hs. apply strip_empty_iff, all_space_no_fence in Hs.
  rewrite (sub_no_fence_id _ _ fenced_block_led Hs), H. reflexivity.
Qed.

Lemma refactor_multi (response language : string) :
  snd (scan file_pattern response) <> [] ->
  CodeRefactorer.parse_refactored_response response language
  = Ok (refactoring_notes (fst (scan file_pattern response))
        ++ code_records
             (fun c => CodeRefactorer.clean_and_validate_code c language)
             (snd (scan file_pattern response))).
Proof.
  intros Hne. unfold CodeRefactorer.parse_refactored_response.
  rewrite findall_scan, split_scan.
  destruct (scan file_pattern response) as [g l]. simpl fst in *. simpl snd in *.
  destruct l as [|mg l]; [congruence|].
  set (l' := mg :: l).
  change (map (fun mg0 => group_or_text (fst mg0)) l')
    with (group_or_text (fst mg) :: map (fun mg0 => group_or_text (fst mg0)) l).
  cbv beta iota.
  change (getitem (g :: split_parts l') 0) with (Ok (A:=string) g).
  unfold mbind, result_bind.
  replace (length (g :: split_parts l')) with (S (2 * length l'))
    by (change (length (g :: split_parts l')) with (S (length (split_parts l')));
        rewrite length_split_parts; reflexivity).
  rewrite range_odd.
  pose proof (refactor_file_pairs language l' [g]) as H.
  change ([g] ++ split_parts l') with (g :: split_parts l') in H.
  change (length [g]) with 1 in H.
  rewrite H. f_equal. f_equal.
  destruct (truthy (str_strip g)) eqn:Eg.
  - unfold CodeRefactorer.extract_explanation, refactoring_notes.
    destruct (50 <? str_len (str_strip (re_sub_empty fenced_block g))); reflexivity.
  - rewrite blank_leading_no_notes by exact Eg. reflexivity.
Qed.

(** The single-file paths. *)
Lemma generator_single (response language : string) :
  snd (scan file_pattern response) = [] ->
  ScriptGenerator.parse_multi_file_response response language
  = Ok [MkFile ("generated_script." +:+ py_or_ts language)
          (ScriptGenerator.clean_code_content response) code].
Proof.
  intros H. unfold ScriptGenerator.parse_multi_file_response.
  rewrite findall_scan, H. reflexivity.
Qed.

Lemma refactor_single (response language : string) :
  snd (scan file_pattern response) = [] ->
  CodeRefactorer.parse_refactored_response response language
  = Ok (optional_record (fst (CodeRefactorer.separate_explanation_and_code response))
          (MkFile "REFACTORING_NOTES.md"
             (fst (CodeRefactorer.separate_explanation_and_code response))
             documentation)
        ++ optional_record (snd (CodeRefactorer.separate_explanation_and_code response))
             (MkFile ("refactored_code." +:+ py_or_ts language)
                (CodeRefactorer.clean_and_validate_code
                   (snd (CodeRefactorer.separate_explanation_and_code response))
                   language)
                code)).
Proof.
  intros H. unfold CodeRefactorer.parse_refactored_response.
  rewrite findall_scan, H. cbn [map].
  destruct (CodeRefactorer.separate_explanation_and_code response) as [e c].
  unfold optional_record. simpl fst. simpl snd.
  destruct (truthy e), (truthy c); reflexivity.
Qed.

(** ** The largest code block *)

Lemma max_by_len_cons (x y : string) (l : list string) :
  max_by_len x (y :: l) = max_by_len (if str_len x <? str_len y then y else x) l.
Proof. reflexivity. Qed.

Lemma max_by_len_first (l : list string) :
  forall x, exists pre y post,
    x :: l = pre ++ y :: post /\ max_by_len x l = y /\
    Forall (fun z => str_len z < str_len y) pre /\
    Forall (fun z => str_len z <= str_len y) post.
Proof.
  induction l as [|y l IH]; intros x.
  - exists [], x, []. repeat split; constructor.
  - rewrite max_by_len_cons. destruct (str_len x <? str_len y) eqn:E.
    + apply Nat.ltb_lt in E.
      destruct (IH y) as (pre & m & post & Hd & Hm & Hpre & Hpost).
      exists (x :: pre), m, post. rewrite Hd.
      split; [reflexivity|]. split; [exact Hm|]. split; [|exact Hpost].
      constructor; [|exact Hpre].
      destruct pre as [|p pre]; simpl in Hd; injection Hd as H1 H2.
      * rewrite <- H1. exact E.
      * inversion Hpre as [|? ? Hp Hrest]. rewrite <- H1 in Hp. lia.
    + apply Nat.ltb_ge in E.
      destruct (IH x) as (pre & m & post & Hd & Hm & Hpre & Hpost).
      destruct pre as [|p pre]; simpl in Hd; injection Hd as H1 H2.
      * exists [], m, (y :: post).
        split; [rewrite H1, H2; reflexivity|]. split; [exact Hm|].
        split; [constructor|].
        constructor; [rewrite <- H1; exact E | exact Hpost].
      * inversion Hpre as [|? ? Hp Hrest].
        exists (p :: y :: pre), m, post.
        split; [rewrite H1, H2; reflexivity|]. split; [exact Hm|].
        split; [|exact Hpost].
        constructor; [exact Hp|]. constructor; [rewrite <- H1 in Hp; lia | exact Hrest].
Qed.

(** ** Counting *)

Lemma code_records_are_code (clean : string -> string) (l : list (re_match * string)) :
  Forall is_code (code_records clean l).
Proof.
  unfold code_records. induction l as [|mg l IH]; simpl; constructor;
    [reflexivity | exact IH].
Qed.

Lemma code_records_outcome (clean : string -> string) (docs : list file_record)
    (l : list (re_match * string)) :
  length docs <= 1 -> Forall is_documentation docs ->
  multi_file_outcome (map (fun mg => group_or_text (fst mg)) l)
    (docs ++ code_records clean l).
Proof.
  intros Hlen Hdocs. exists docs, (code_records clean l).
  repeat split; try assumption.
  - unfold code_records. rewrite !length_map. reflexivity.
  - apply code_records_are_code.
  - unfold code_records. rewrite !map_map. reflexivity.
Qed.

Lemma refactoring_notes_doc (g : string) :
  length (refactoring_notes g) <= 1 /\ Forall is_documentation (refactoring_notes g).
Proof.
  unfold refactoring_notes.
  destruct (50 <? str_len (str_strip (re_sub_empty fenced_block g))); simpl;
    split; try lia; repeat constructor.
Qed.

Lemma readme_doc (g : string) :
  length (readme g) <= 1 /\ Forall is_documentation (readme g).
Proof.
  unfold readme. destruct (truthy (str_strip g)); simpl;
    split; try lia; repeat constructor.
Qed.

Lemma findall_nonempty (r : regex) (s : string) :
  re_findall r s <> [] <-> snd (scan r s) <> [].
Proof.
  rewrite findall_scan. destruct (snd (scan r s)); simpl; split; congruence.
Qed.

Lemma findall_empty (r : regex) (s : string) :
  re_findall r s = [] <-> snd (scan r s) = [].
Proof.
  rewrite findall_scan. destruct (snd (scan r s)); simpl; split; congruence.
Qed.

(** ** The parsers *)

(** C1: a response with N >= 1 occurrences of the delimiter gives, in both
    parsers, at most one documentation record followed by exactly N code
    records, named after the delimiters in their order of appearance. *)
Theorem multi_file_records (response language : string) :
  re_findall file_pattern response <> [] ->
  exists files_r files_g,
    CodeRefactorer.parse_refactored_response response language = Ok files_r /\
    multi_file_outcome (re_findall file_pattern response) files_r /\
    ScriptGenerator.parse_multi_file_response response language = Ok files_g /\
    multi_file_outcome (re_findall file_pattern response) files_g.
Proof.
  intros H. apply findall_nonempty in H.
  eexists _, _. split; [apply refactor_multi; exact H|].
  split; [apply code_records_outcome; apply refactoring_notes_doc|].
  split; [apply generator_multi; exact H|].
  apply code_records_outcome; apply readme_doc.
Qed.

Lemma multi_file_records_witness :
  re_findall file_pattern two_files = ["a.py"; "b.py"] /\
  exists files_r files_g,
    CodeRefactorer.parse_refactored_response two_files "python" = Ok files_r /\
    multi_file_outcome (re_findall file_pattern two_files) files_r /\
    ScriptGenerator.parse_multi_file_response two_files "python" = Ok files_g /\
    multi_file_outcome (re_findall file_pattern two_files) files_g.
Proof.
  split; [reflexivity|].
  apply (multi_file_records two_files "python"). vm_compute. discriminate.
Defined.

Lemma code_records_snoc (clean : string -> string) (l : list (re_match * string))
    (mg : re_match * string) :
  code_records clean (l ++ [mg])
  = code_records clean l
    ++ [MkFile (str_strip (group_or_text (fst mg))) (clean (str_strip (snd mg))) code].
Proof. unfold code_records. rewrite map_app. reflexivity. Qed.

Lemma last_split_parts (g : string) (l : list (re_match * string))
    (mg : re_match * string) :
  List.last (g :: split_parts (l ++ [mg])) EmptyString = snd mg.
Proof.
  unfold split_parts. rewrite flat_map_app. cbn [flat_map app].
  replace (g :: flat_map (fun mg0 => [group_or_text (fst mg0); snd mg0]) l
             ++ [group_or_text (fst mg); snd mg])
    with ((g :: flat_map (fun mg0 => [group_or_text (fst mg0); snd mg0]) l
             ++ [group_or_text (fst mg)]) ++ [snd mg])
    by (simpl; rewrite <- app_assoc; reflexivity).
  apply last_last.
Qed.

(** C2, as stated, fails: for a delimiter at the very end of the response
    both parsers emit a record for its filename, with empty content. *)
Lemma dangling_filename_is_emitted :
  CodeRefactorer.parse_refactored_response dangling "python"
  = Ok [MkFile "a.py" EmptyString code] /\
  ScriptGenerator.parse_multi_file_response dangling "python"
  = Ok [MkFile "a.py" EmptyString code].
Proof. split; reflexivity. Qed.

(** C2, amended: when nothing but white space follows the last delimiter,
    both parsers return normally and their last record is a code record
    for that filename with empty content. *)
Theorem dangling_filename_empty_record (response language : string) :
  re_findall file_pattern response <> [] ->
  str_strip (List.last (re_split file_pattern response) EmptyString) = EmptyString ->
  exists files_r files_g,
    CodeRefactorer.parse_refactored_response response language
    = Ok (files_r
          ++ [MkFile (str_strip (List.last (re_findall file_pattern response) EmptyString))
                EmptyString code]) /\
    ScriptGenerator.parse_multi_file_response response language
    = Ok (files_g
          ++ [MkFile (str_strip (List.last (re_findall file_pattern response) EmptyString))
                EmptyString code]).
Proof.
  intros Hne Hlast. apply findall_nonempty in Hne.
  rewrite (refactor_multi _ _ Hne), (generator_multi _ _ Hne).
  rewrite split_scan in Hlast. rewrite findall_scan.
  destruct (scan file_pattern response) as [g l]. simpl fst in *. simpl snd in *.
  destruct (exists_last Hne) as (l0 & mg & ->).
  rewrite last_split_parts in Hlast.
  rewrite map_app. cbn [map]. rewrite last_last, !code_records_snoc, Hlast.
  exists (refactoring_notes g
          ++ code_records (fun c => CodeRefactorer.clean_and_validate_code c language) l0),
         (readme g ++ code_records ScriptGenerator.clean_code_content l0).
  rewrite <- !app_assoc. split; reflexivity.
Qed.

Lemma dangling_filename_empty_record_witness :
  exists files_r files_g,
    CodeRefactorer.parse_refactored_response dangling "python"
    = Ok (files_r
          ++ [MkFile (str_strip (List.last (re_findall file_pattern dangling) EmptyString))
                EmptyString code]) /\
    ScriptGenerator.parse_multi_file_response dangling "python"
    = Ok (files_g
          ++ [MkFile (str_strip (List.last (re_findall file_pattern dangling) EmptyString))
                EmptyString code]).
Proof.
  apply (dangling_filename_empty_record dangling "python").
  - vm_compute. discriminate.
  - reflexivity.
Defined.

(** C3, as stated, fails: the refactoring parser returns no record at all
    for the empty response, which has no delimiter. *)
Lemma single_file_can_be_empty :
  re_findall file_pattern EmptyString = [] /\
  CodeRefactorer.parse_refactored_response EmptyString "python" = Ok [].
Proof. split; reflexivity. Qed.

(** C3, amended: without a delimiter the generation parser returns exactly
    one code record, and the refactoring parser returns at most two
    records: a documentation record when the explanation is not empty,
    then a code record when the code payload is not empty. *)
Theorem single_file_records (response language : string) :
  re_findall file_pattern response = [] ->
  (exists f, ScriptGenerator.parse_multi_file_response response language = Ok [f]
             /\ is_code f) /\
  (exists docs codes,
     CodeRefactorer.parse_refactored_response response language = Ok (docs ++ codes) /\
     length (docs ++ codes) <= 2 /\
     Forall is_documentation docs /\ Forall is_code codes /\
     length docs
     = (if truthy (fst (CodeRefactorer.separate_explanation_and_code response))
        then 1 else 0) /\
     length codes
     = (if truthy (snd (CodeRefactorer.separate_explanation_and_code response))
        then 1 else 0)).
Proof.
  intros H. apply findall_empty in H. split.
  - eexists. split; [apply generator_single; exact H | reflexivity].
  - eexists _, _. split; [apply refactor_single; exact H|].
    unfold optional_record.
    destruct (truthy (fst (CodeRefactorer.separate_explanation_and_code response))),
             (truthy (snd (CodeRefactorer.separate_explanation_and_code response)));
      simpl; repeat split; try lia; repeat constructor.
Qed.

Lemma single_file_records_witness :
  (exists f, ScriptGenerator.parse_multi_file_response only_fenced "python" = Ok [f]
             /\ is_code f) /\
  (exists docs codes,
     CodeRefactorer.parse_refactored_response only_fenced "python" = Ok (docs ++ codes) /\
     length (docs ++ codes) <= 2 /\
     Forall is_documentation docs /\ Forall is_code codes /\
     length docs
     = (if truthy (fst (CodeRefactorer.separate_explanation_and_code only_fenced))
        then 1 else 0) /\
     length codes
     = (if truthy (snd (CodeRefactorer.separate_explanation_and_code only_fenced))
        then 1 else 0)).
Proof. apply (single_file_records only_fenced "python"). reflexivity. Defined.

(** The fenced block alone gives one code record holding the block. *)
Example only_fenced_parsed :
  CodeRefactorer.parse_refactored_response only_fenced "python"
  = Ok [MkFile "refactored_code.py" "x=1" code].
Proof. reflexivity. Qed.

Example two_files_parsed :
  CodeRefactorer.parse_refactored_response two_files "python"
  = Ok [MkFile "a.py" "print(1)" code; MkFile "b.py" "print(2)" code].
Proof. reflexivity. Qed.

(** C10: the generation parser always returns at least one record, and
    without a delimiter exactly the code record [generated_script.py]
    (python) or [generated_script.ts] (otherwise) holding the cleaned
    response. *)
Theorem generator_never_empty (response language : string) :
  (exists f files,
     ScriptGenerator.parse_multi_file_response response language = Ok (f :: files)) /\
  (re_findall file_pattern response = [] ->
   ScriptGenerator.parse_multi_file_response response language
   = Ok [MkFile (if String.eqb language "python"
                 then "generated_script.py" else "generated_script.ts")
           (ScriptGenerator.clean_code_content response) code]).
Proof.
  split.
  - destruct (snd (scan file_pattern response)) as [|mg l] eqn:E.
    + rewrite (generator_single _ _ E). eauto.
    + assert (Hne : snd (scan file_pattern response) <> []) by (rewrite E; discriminate).
      rewrite (generator_multi _ _ Hne), E. unfold readme.
      destruct (truthy (str_strip (fst (scan file_pattern response)))); simpl; eauto.
  - intros H. apply findall_empty in H. rewrite (generator_single _ _ H).
    unfold py_or_ts. destruct (String.eqb language "python"); reflexivity.
Qed.

Lemma generator_never_empty_witness :
  (exists f files,
     ScriptGenerator.parse_multi_file_response EmptyString "python" = Ok (f :: files)) /\
  ScriptGenerator.parse_multi_file_response EmptyString "python"
  = Ok [MkFile "generated_script.py" EmptyString code].
Proof.
  destruct (generator_never_empty EmptyString "python") as [H1 H2].
  split; [exact H1 | exact (H2 eq_refl)].
Defined.

(** C5, as stated, fails: the generation parser emits README.md for a
    leading segment of two characters, and the refactoring parser emits
    REFACTORING_NOTES.md for a leading segment with two characters that
    are not white space (its length with the inner blanks is 62). *)
Lemma documentation_below_fifty :
  (ScriptGenerator.parse_multi_file_response short_leading "python"
   = Ok [MkFile "README.md" "hi" documentation; MkFile "a.py" "x" code] /\
   count_non_space
     (re_sub_empty fenced_block (hd EmptyString (re_split file_pattern short_leading)))
   = 2) /\
  (exists text,
     CodeRefactorer.parse_refactored_response spaced_leading "python"
     = Ok [MkFile "REFACTORING_NOTES.md" text documentation; MkFile "a.py" "x" code]) /\
  count_non_space
    (re_sub_empty fenced_block (hd EmptyString (re_split file_pattern spaced_leading)))
  = 2.
Proof.
  split; [split; reflexivity|]. split; [eexists; reflexivity | reflexivity].
Qed.

(** C5, amended: in the multi-file path the refactoring parser emits
    REFACTORING_NOTES.md exactly when the leading segment, with its fenced
    blocks removed and stripped at both ends, is longer than 50 characters,
    and its content is that text under the heading "# Refactoring Notes";
    the generation parser emits README.md exactly when the leading segment
    is not blank, and its content is the stripped segment.  Every other
    record is a code record. *)
Theorem leading_documentation (response language : string) :
  re_findall file_pattern response <> [] ->
  let leading := hd EmptyString (re_split file_pattern response) in
  let explanation := str_strip (re_sub_empty fenced_block leading) in
  exists codes_r codes_g,
    Forall is_code codes_r /\ Forall is_code codes_g /\
    CodeRefactorer.parse_refactored_response response language
    = Ok ((if 50 <? str_len explanation
           then [MkFile "REFACTORING_NOTES.md"
                   ("# Refactoring Notes" +:+ newline +:+ newline +:+ explanation)
                   documentation]
           else []) ++ codes_r) /\
    ScriptGenerator.parse_multi_file_response response language
    = Ok ((if truthy (str_strip leading)
           then [MkFile "README.md" (str_strip leading) documentation]
           else []) ++ codes_g).
Proof.
  intros Hne leading explanation. apply findall_nonempty in Hne.
  subst explanation leading. rewrite split_scan. cbn [hd].
  rewrite (refactor_multi _ _ Hne), (generator_multi _ _ Hne).
  eexists _, _. split; [|split; [|split; reflexivity]].
  - apply code_records_are_code.
  - apply code_records_are_code.
Qed.

Lemma leading_documentation_witness :
  let leading := hd EmptyString (re_split file_pattern spaced_leading) in
  let explanation := str_strip (re_sub_empty fenced_block leading) in
  exists codes_r codes_g,
    Forall is_code codes_r /\ Forall is_code codes_g /\
    CodeRefactorer.parse_refactored_response spaced_leading "python"
    = Ok ((if 50 <? str_len explanation
           then [MkFile "REFACTORING_NOTES.md"
                   ("# Refactoring Notes" +:+ newline +:+ newline +:+ explanation)
                   documentation]
           else []) ++ codes_r) /\
    ScriptGenerator.parse_multi_file_response spaced_leading "python"
    = Ok ((if truthy (str_strip leading)
           then [MkFile "README.md" (str_strip leading) documentation]
           else []) ++ codes_g).
Proof.
  apply (leading_documentation spaced_leading "python"). vm_compute. discriminate.
Defined.

(** C6: when the response has fenced code blocks, the code payload is
    the (stripped) first block of maximal length: every block before it
    is strictly shorter and no block after it is longer. *)
Theorem largest_block_first (response : string) (b : string) (bs : list string) :
  re_findall fenced_code response = b :: bs ->
  exists pre chosen post,
    b :: bs = pre ++ chosen :: post /\
    snd (CodeRefactorer.separate_explanation_and_code response) = str_strip chosen /\
    Forall (fun other => str_len other < str_len chosen) pre /\
    Forall (fun other => str_len other <= str_len chosen) post.
Proof.
  intros H. unfold CodeRefactorer.separate_explanation_and_code. rewrite H.
  destruct (max_by_len_first bs b) as (pre & chosen & post & Hd & Hm & Hpre & Hpost).
  exists pre, chosen, post. cbn [snd]. rewrite Hm. repeat split; assumption.
Qed.

Lemma largest_block_first_witness :
  re_findall fenced_code tied_blocks
  = ["a" +:+ newline; "bc" +:+ newline; "de" +:+ newline] /\
  snd (CodeRefactorer.separate_explanation_and_code tied_blocks) = "bc" /\
  exists pre chosen post,
    ["a" +:+ newline; "bc" +:+ newline; "de" +:+ newline] = pre ++ chosen :: post /\
    snd (CodeRefactorer.separate_explanation_and_code tied_blocks) = str_strip chosen /\
    Forall (fun other => str_len other < str_len chosen) pre /\
    Forall (fun other => str_len other <= str_len chosen) post.
Proof.
  split; [reflexivity|]. split; [reflexivity|].
  apply (largest_block_first tied_blocks). reflexivity.
Defined.

(** ** The analyzer *)

Lemma str_split_cons (sep c : ascii) (s : string) :
  str_split sep (String c s)
  = if Ascii.eqb c sep then EmptyString :: str_split sep s
    else match str_split sep s with
         | h :: t => String c h :: t
         | [] => [String c EmptyString]
         end.
Proof. reflexivity. Qed.

Lemma length_str_split (sep : ascii) (s : string) :
  length (str_split sep s) = S (count_char sep s).
Proof.
  induction s as [|c s IH]; [reflexivity|].
  rewrite str_split_cons. cbn [count_char].
  destruct (Ascii.eqb c sep); simpl; [rewrite IH; reflexivity|].
  destruct (str_split sep s); simpl in *; lia.
Qed.

Lemma analyze_stages (ast_parse_walk : string -> result (list ast_node))
    (code_text language : string) :
  CodeRefactorer.analyze_code_structure ast_parse_walk code_text language
  = (a ← parse_stage ast_parse_walk code_text language; mret (heuristics code_text a)).
Proof. reflexivity. Qed.

Lemma maybe_flag_lines (b : bool) (flag : string) (a : analysis) :
  lines_of_code (maybe_flag b flag a) = lines_of_code a.
Proof. destruct b; reflexivity. Qed.

Lemma maybe_flag_names (b : bool) (flag : string) (a : analysis) :
  imports (maybe_flag b flag a) = imports a /\
  functions (maybe_flag b flag a) = functions a /\
  classes (maybe_flag b flag a) = classes a.
Proof. destruct b; repeat split; reflexivity. Qed.

Lemma maybe_flag_In (b : bool) (flag x : string) (a : analysis) :
  In x (complexity_indicators (maybe_flag b flag a))
  <-> In x (complexity_indicators a) \/ (b = true /\ x = flag).
Proof.
  destruct b; simpl.
  - rewrite in_app_iff. simpl. intuition congruence.
  - intuition congruence.
Qed.

Lemma heuristics_lines (code_text : string) (a : analysis) :
  lines_of_code (heuristics code_text a) = lines_of_code a.
Proof. unfold heuristics. cbv zeta. rewrite !maybe_flag_lines. reflexivity. Qed.

Lemma heuristics_names (code_text : string) (a : analysis) :
  imports (heuristics code_text a) = imports a /\
  functions (heuristics code_text a) = functions a /\
  classes (heuristics code_text a) = classes a.
Proof.
  unfold heuristics. cbv zeta.
  repeat match goal with
         | |- context [maybe_flag ?b ?f ?x] =>
             destruct (maybe_flag_names b f x) as (-> & -> & ->)
         end.
  repeat split; reflexivity.
Qed.

Lemma heuristics_large_file (code_text : string) (a : analysis) :
  In "Large file (>500 lines)" (complexity_indicators (heuristics code_text a))
  <-> In "Large file (>500 lines)" (complexity_indicators a) \/ 500 < lines_of_code a.
Proof.
  unfold heuristics. cbv zeta. rewrite !maybe_flag_In.
  rewrite Nat.ltb_lt. intuition (try discriminate; auto).
Qed.

Lemma heuristics_keeps (code_text x : string) (a : analysis) :
  In x (complexity_indicators a) ->
  In x (complexity_indicators (heuristics code_text a)).
Proof.
  intros H. unfold heuristics. cbv zeta. rewrite !maybe_flag_In. tauto.
Qed.

Lemma fold_visit_keeps (tree : list ast_node) (a : analysis) :
  lines_of_code (fold_left CodeRefactorer.visit tree a) = lines_of_code a /\
  complexity_indicators (fold_left CodeRefactorer.visit tree a) = complexity_indicators a.
Proof.
  revert a. induction tree as [|node tree IH]; intros a; [split; reflexivity|].
  simpl. destruct (IH (CodeRefactorer.visit a node)) as [-> ->].
  destruct node as [names | [[|c m]|] names | name | name |]; split; reflexivity.
Qed.

Lemma parse_stage_returns (ast_parse_walk : string -> result (list ast_node))
    (code_text language : string) :
  (language = "python" ->
   forall e, ast_parse_walk code_text = Raise e -> e = SyntaxError) ->
  exists a,
    parse_stage ast_parse_walk code_text language = Ok a /\
    lines_of_code a = length (str_split nl code_text) /\
    ~ In "Large file (>500 lines)" (complexity_indicators a) /\
    ((language = "python" /\ exists e, ast_parse_walk code_text = Raise e) ->
     In "Syntax errors present" (complexity_indicators a) /\
     imports a = [] /\ functions a = [] /\ classes a = []).
Proof.
  intros Hparse. unfold parse_stage.
  destruct (String.eqb_spec language "python") as [Hl|Hl].
  - destruct (ast_parse_walk code_text) as [tree|e] eqn:E.
    + eexists. split; [reflexivity|].
      destruct (fold_visit_keeps tree
                  (MkAnalysis language (length (str_split nl code_text)) [] [] [] []))
        as [H1 H2].
      rewrite H1, H2. simpl. split; [reflexivity|]. split; [tauto|].
      intros (_ & e & He). discriminate.
    + rewrite (Hparse Hl e eq_refl). eexists. split; [reflexivity|]. simpl.
      split; [reflexivity|]. split; [intros [H|[]]; discriminate|].
      intros _. repeat split. left. reflexivity.
  - eexists. split; [reflexivity|]. simpl. split; [reflexivity|]. split; [tauto|].
    intros [H _]. contradiction.
Qed.

(** C9: [lines_of_code] is the number of newline-delimited lines, one more
    than the number of newlines (so 1 for the empty text), and the
    large-file flag is there exactly when it exceeds 500. *)
Theorem lines_and_large_file (ast_parse_walk : string -> result (list ast_node))
    (code_text language : string) :
  (language = "python" ->
   forall e, ast_parse_walk code_text = Raise e -> e = SyntaxError) ->
  exists a,
    CodeRefactorer.analyze_code_structure ast_parse_walk code_text language = Ok a /\
    lines_of_code a = length (str_split nl code_text) /\
    lines_of_code a = S (count_char nl code_text) /\
    (In "Large file (>500 lines)" (complexity_indicators a) <-> 500 < lines_of_code a).
Proof.
  intros Hparse. rewrite analyze_stages.
  destruct (parse_stage_returns _ _ _ Hparse) as (a & -> & Hlines & Hno & _).
  eexists. split; [reflexivity|].
  rewrite heuristics_lines, heuristics_large_file, Hlines, length_str_split.
  repeat split; tauto.
Qed.

Lemma lines_and_large_file_witness :
  exists a,
    CodeRefactorer.analyze_code_structure reject_all (str_repeat nl 500) "python" = Ok a /\
    lines_of_code a = length (str_split nl (str_repeat nl 500)) /\
    lines_of_code a = S (count_char nl (str_repeat nl 500)) /\
    (In "Large file (>500 lines)" (complexity_indicators a) <-> 500 < lines_of_code a).
Proof.
  apply (lines_and_large_file reject_all (str_repeat nl 500) "python").
  intros _ e H. unfold reject_all in H. injection H as <-. reflexivity.
Defined.

Example lines_501 :
  CodeRefactorer.analyze_code_structure no_nodes (str_repeat nl 500) "python"
  = Ok (MkAnalysis "python" 501 ["Large file (>500 lines)"] [] [] []).
Proof. vm_compute. reflexivity. Qed.

Example lines_500 :
  CodeRefactorer.analyze_code_structure no_nodes (str_repeat nl 499) "python"
  = Ok (MkAnalysis "python" 500 [] [] [] []).
Proof. vm_compute. reflexivity. Qed.

Example lines_empty :
  CodeRefactorer.analyze_code_structure no_nodes EmptyString "typescript"
  = Ok (MkAnalysis "typescript" 1 [] [] [] []).
Proof. vm_compute. reflexivity. Qed.

(** C8, as stated, fails: the analyzer catches [SyntaxError] only.  On a
    text with a null byte the parse raises [ValueError], and the analyzer
    lets it through. *)
Lemma parse_error_can_propagate :
  CodeRefactorer.analyze_code_structure null_bytes (String Ascii.zero "x = 1") "python"
  = Raise (ValueError "source code string cannot contain null bytes").
Proof. vm_compute. reflexivity. Qed.

(** C8, amended: for [language = "python"], when the parse fails with
    [SyntaxError] the analyzer returns a profile that carries the
    syntax-error flag and whose imports, functions and classes are empty;
    any other exception of the parse is propagated to the caller
    unchanged, and the analyzer raises in no other case. *)
Theorem parse_failure_is_a_flag (ast_parse_walk : string -> result (list ast_node))
    (code_text : string) :
  (ast_parse_walk code_text = Raise SyntaxError ->
   exists a,
     CodeRefactorer.analyze_code_structure ast_parse_walk code_text "python" = Ok a /\
     In "Syntax errors present" (complexity_indicators a) /\
     imports a = [] /\ functions a = [] /\ classes a = []) /\
  (forall e, e <> SyntaxError -> ast_parse_walk code_text = Raise e ->
     CodeRefactorer.analyze_code_structure ast_parse_walk code_text "python" = Raise e) /\
  (forall e,
     CodeRefactorer.analyze_code_structure ast_parse_walk code_text "python" = Raise e ->
     ast_parse_walk code_text = Raise e /\ e <> SyntaxError).
Proof.
  rewrite analyze_stages. unfold parse_stage. cbn [String.eqb Ascii.eqb].
  change ("python" =? "python")%string with true. cbv iota.
  destruct (ast_parse_walk code_text) as [tree|e0] eqn:E.
  - split; [discriminate|]. split; [discriminate|]. intros e H. discriminate H.
  - split; [|split].
    + intros H. injection H as ->. eexists. split; [reflexivity|].
      destruct (heuristics_names code_text
                  (add_indicator
                     (MkAnalysis "python" (length (str_split nl code_text)) [] [] [] [])
                     "Syntax errors present")) as (-> & -> & ->).
      split; [apply heuristics_keeps; left; reflexivity|]. repeat split.
    + intros e Hne H. injection H as ->.
      destruct e; try reflexivity. contradiction.
    + intros e H. destruct e0; try discriminate H;
        cbn in H; injection H as <-; split; try reflexivity; discriminate.
Qed.

Lemma parse_failure_is_a_flag_witness :
  exists a,
    CodeRefactorer.analyze_code_structure reject_all "def f(:" "python" = Ok a /\
    In "Syntax errors present" (complexity_indicators a) /\
    imports a = [] /\ functions a = [] /\ classes a = [].
Proof.
  apply (proj1 (parse_failure_is_a_flag reject_all "def f(:")). reflexivity.
Defined.

(** ** Lines *)

Lemma clean_loop (lines : list string) :
  forall acc bc,
    fst (fold_left CodeRefactorer.clean_step lines (acc, bc))
    = acc ++ collapse_blank bc lines.
Proof.
  induction lines as [|line lines IH]; intros acc bc.
  - simpl. rewrite app_nil_r. reflexivity.
  - cbn [fold_left collapse_blank]. unfold CodeRefactorer.clean_step at 2.
    fold (is_blank line). destruct (is_blank line).
    + destruct (bc + 1 <=? 2); rewrite IH; [rewrite <- app_assoc|]; reflexivity.
    + rewrite IH, <- app_assoc. reflexivity.
Qed.

Lemma clean_and_validate_code_eq (code_text language : string) :
  CodeRefactorer.clean_and_validate_code code_text language
  = str_join newline
      (pop_trailing_blank
         (collapse_blank 0
            (str_split nl (re_sub_empty fence (re_sub_empty fence_open_opt_nl code_text))))).
Proof.
  unfold CodeRefactorer.clean_and_validate_code.
  pose proof (clean_loop
                (str_split nl (re_sub_empty fence (re_sub_empty fence_open_opt_nl code_text)))
                [] 0) as H.
  destruct (fold_left _ _ _) as [cleaned bc]. simpl in H. rewrite H. reflexivity.
Qed.

Lemma rstrip_loop (lines : list string) :
  forall acc,
    fold_left (fun acc line => acc ++ [str_rstrip line]) lines acc
    = acc ++ map str_rstrip lines.
Proof.
  induction lines as [|line lines IH]; intros acc; simpl.
  - rewrite app_nil_r. reflexivity.
  - rewrite IH, <- app_assoc. reflexivity.
Qed.

Lemma clean_code_content_eq (text : string) :
  ScriptGenerator.clean_code_content text
  = str_strip
      (str_join newline
         (map str_rstrip
            (str_split nl (re_sub_empty fence (re_sub_empty fence_open_nl text))))).
Proof. unfold ScriptGenerator.clean_code_content. rewrite rstrip_loop. reflexivity. Qed.

Lemma str_join_two (x y : string) (l : list string) :
  str_join newline (x :: y :: l) = x +:+ String nl (str_join newline (y :: l)).
Proof. reflexivity. Qed.

Lemma str_split_nonempty (sep : ascii) (s : string) : str_split sep s <> [].
Proof.
  pose proof (length_str_split sep s) as H. destruct (str_split sep s); [discriminate H|discriminate].
Qed.

Lemma join_split (s : string) : str_join newline (str_split nl s) = s.
Proof.
  induction s as [|c s IH]; [reflexivity|].
  rewrite str_split_cons. destruct (Ascii.eqb_spec c nl) as [->|Hc].
  - destruct (str_split nl s) as [|h t] eqn:E; [exfalso; eapply str_split_nonempty; eauto|].
    rewrite str_join_two, IH. reflexivity.
  - destruct (str_split nl s) as [|h t] eqn:E; [exfalso; eapply str_split_nonempty; eauto|].
    destruct t as [|h' t].
    + simpl in IH. simpl. rewrite IH. reflexivity.
    + rewrite str_join_two in *. rewrite append_cons, IH. reflexivity.
Qed.

Lemma split_line_app (x w : string) :
  no_nl x -> str_split nl (x +:+ String nl w) = x :: str_split nl w.
Proof.
  unfold no_nl. induction x as [|c x IH]; intros H.
  - rewrite append_nil_l, str_split_cons, Ascii.eqb_refl. reflexivity.
  - cbn [count_char] in H. rewrite append_cons, str_split_cons.
    destruct (Ascii.eqb c nl); [simpl in H; lia|].
    rewrite IH by (simpl in H; lia). reflexivity.
Qed.

Lemma split_no_nl (x : string) : no_nl x -> str_split nl x = [x].
Proof.
  unfold no_nl. induction x as [|c x IH]; intros H; [reflexivity|].
  cbn [count_char] in H. rewrite str_split_cons.
  destruct (Ascii.eqb c nl); [simpl in H; lia|].
  rewrite IH by (simpl in H; lia). reflexivity.
Qed.

Lemma split_join (l : list string) :
  l <> [] -> Forall no_nl l -> str_split nl (str_join newline l) = l.
Proof.
  induction l as [|x l IH]; intros Hne Hl; [congruence|].
  inversion Hl as [|? ? Hx Hrest]; subst.
  destruct l as [|y l].
  - simpl. apply split_no_nl. exact Hx.
  - rewrite str_join_two, split_line_app by exact Hx.
    rewrite IH; [reflexivity | discriminate | exact Hrest].
Qed.

Lemma split_lines_no_nl (s : string) : Forall no_nl (str_split nl s).
Proof.
  induction s as [|c s IH]; [repeat constructor|].
  rewrite str_split_cons. destruct (Ascii.eqb c nl) eqn:E.
  - constructor; [reflexivity | exact IH].
  - destruct (str_split nl s) as [|h t]; [repeat constructor; unfold no_nl; simpl; rewrite E; reflexivity|].
    inversion IH; subst. constructor; [|assumption].
    unfold no_nl in *. simpl. rewrite E. simpl. assumption.
Qed.

Lemma rstrip_no_nl (line : string) : no_nl line -> no_nl (str_rstrip line).
Proof.
  unfold no_nl. induction line as [|c s IH]; intros H; [reflexivity|].
  cbn [count_char] in H. rewrite rstrip_cons.
  assert (Hc : (if Ascii.eqb c nl then 1 else 0) = 0) by lia.
  destruct (str_rstrip s) as [|a r] eqn:E.
  - destruct (is_space c); [reflexivity|]. simpl. rewrite Hc. reflexivity.
  - cbn [count_char]. rewrite Hc. simpl. apply IH. lia.
Qed.

Lemma lstrip_no_nl (line : string) : no_nl line -> no_nl (str_lstrip line).
Proof.
  unfold no_nl. induction line as [|c s IH]; intros H; [reflexivity|].
  rewrite lstrip_cons. destruct (is_space c); [|exact H].
  apply IH. cbn [count_char] in H. lia.
Qed.

(** Fences and lines: a fence lies within one line. *)

Lemma starts_fence_cons3 (a b c : ascii) (t : string) :
  starts_fence (String a (String b (String c t)))
  = Ascii.eqb tick a && Ascii.eqb tick b && Ascii.eqb tick c.
Proof.
  unfold starts_fence.
  change "```" with (String tick (String tick (String tick EmptyString))).
  simpl. destruct (Ascii.eqb tick a), (Ascii.eqb tick b), (Ascii.eqb tick c); reflexivity.
Qed.

Lemma starts_fence_short (s : string) : str_len s < 3 -> starts_fence s = false.
Proof.
  intros H. rewrite starts_fence_ticks. apply Nat.leb_gt.
  assert (T : forall t, ticks t <= str_len t).
  { induction t as [|c t IH]; simpl; [lia|]. destruct (Ascii.eqb tick c); unfold str_len in *; simpl; lia. }
  specialize (T s). lia.
Qed.

Lemma nl_not_tick : Ascii.eqb tick nl = false.
Proof. reflexivity. Qed.

Lemma starts_fence_before_nl (a w : string) :
  starts_fence (a +:+ String nl w) = starts_fence a.
Proof.
  destruct a as [|x [|y [|z t]]].
  - rewrite append_nil_l, !starts_fence_ticks. cbn [ticks]. rewrite nl_not_tick. reflexivity.
  - rewrite !append_cons, append_nil_l, !starts_fence_ticks. cbn [ticks].
    rewrite nl_not_tick. destruct (Ascii.eqb tick x); reflexivity.
  - rewrite !append_cons, append_nil_l, starts_fence_cons3, nl_not_tick, andb_false_r.
    symmetry. apply starts_fence_short. simpl. lia.
  - rewrite !append_cons, !starts_fence_cons3. reflexivity.
Qed.

Lemma has_fence_line_app (a w : string) :
  has_fence (a +:+ String nl w) = has_fence a || has_fence w.
Proof.
  induction a as [|c a IH].
  - rewrite append_nil_l, has_fence_cons, has_fence_nil.
    rewrite starts_fence_ticks. cbn [ticks]. rewrite nl_not_tick. reflexivity.
  - rewrite append_cons, !has_fence_cons, IH, <- append_cons, starts_fence_before_nl.
    rewrite orb_assoc. reflexivity.
Qed.

Lemma has_fence_join (l : list string) :
  has_fence (str_join newline l) = false <-> Forall no_fence l.
Proof.
  induction l as [|x l IH].
  - simpl. split; [constructor | reflexivity].
  - destruct l as [|y l].
    + simpl. split; [intros H; repeat constructor; exact H | intros H; inversion H; assumption].
    + rewrite str_join_two, has_fence_line_app, orb_false_iff, IH.
      split; [intros [H1 H2]; constructor; assumption | intros H; inversion H; split; assumption].
Qed.

Lemma split_lines_no_fence (s : string) :
  has_fence s = false -> Forall no_fence (str_split nl s).
Proof. intros H. apply has_fence_join. rewrite join_split. exact H. Qed.

Lemma starts_fence_app (a b : string) :
  starts_fence a = true -> starts_fence (a +:+ b) = true.
Proof.
  destruct a as [|x [|y [|z t]]]; try (intros H; rewrite starts_fence_short in H; [discriminate | simpl; lia]).
  rewrite !append_cons, !starts_fence_cons3. trivial.
Qed.

Lemma has_fence_app_l (a b : string) :
  has_fence (a +:+ b) = false -> has_fence a = false.
Proof.
  induction a as [|c a IH]; [reflexivity|].
  rewrite append_cons, !has_fence_cons, !orb_false_iff. intros [H1 H2].
  split; [|apply IH; exact H2].
  destruct (starts_fence (String c a)) eqn:E; [|reflexivity].
  apply starts_fence_app with (b := b) in E. rewrite append_cons in E. congruence.
Qed.

(** What [rstrip] removes. *)
Lemma rstrip_prefix (s : string) : exists w, s = str_rstrip s +:+ w /\ all_space w = true.
Proof.
  induction s as [|c s (w & Hw & Hs)]; [exists EmptyString; split; reflexivity|].
  rewrite rstrip_cons. destruct (str_rstrip s) as [|a r] eqn:E.
  - rewrite append_nil_l in Hw. subst w. destruct (is_space c) eqn:Ec.
    + exists (String c s). split; [reflexivity|]. simpl. rewrite Ec, Hs. reflexivity.
    + exists s. split; [reflexivity | exact Hs].
  - exists w. split; [rewrite append_cons, <- Hw; reflexivity | exact Hs].
Qed.

Lemma rstrip_no_fence (s : string) : no_fence s -> no_fence (str_rstrip s).
Proof.
  unfold no_fence. intros H. destruct (rstrip_prefix s) as (w & Hw & _).
  rewrite Hw in H. apply has_fence_app_l in H. exact H.
Qed.

Lemma lstrip_no_fence (s : string) : no_fence s -> no_fence (str_lstrip s).
Proof.
  unfold no_fence. induction s as [|c s IH]; intros H; [reflexivity|].
  rewrite lstrip_cons. destruct (is_space c); [|exact H].
  apply IH. rewrite has_fence_cons in H. apply orb_false_iff in H. tauto.
Qed.

(** ** The blank-line loop *)

Lemma is_blank_empty : is_blank EmptyString = true.
Proof. reflexivity. Qed.

Lemma strip_rstrip (s : string) : str_strip (str_rstrip s) = str_strip s.
Proof. unfold str_strip. rewrite rstrip_idem. reflexivity. Qed.

Lemma is_blank_rstrip (s : string) : is_blank (str_rstrip s) = is_blank s.
Proof. unfold is_blank. rewrite strip_rstrip. reflexivity. Qed.

Lemma collapse_clean_lines (lines : list string) :
  forall bc, Forall clean_line (collapse_blank bc lines).
Proof.
  induction lines as [|line lines IH]; intros bc; [constructor|].
  cbn [collapse_blank]. destruct (is_blank line) eqn:E.
  - destruct (bc + 1 <=? 2); [constructor; [left; reflexivity | apply IH] | apply IH].
  - constructor; [|apply IH]. right. split; [rewrite is_blank_rstrip; exact E|].
    apply rstrip_idem.
Qed.

Lemma collapse_keeps (P : string -> Prop) (lines : list string) :
  P EmptyString -> (forall l, P l -> P (str_rstrip l)) ->
  Forall P lines -> forall bc, Forall P (collapse_blank bc lines).
Proof.
  intros H0 Hr. induction 1 as [|line lines Hl Hrest IH]; intros bc; [constructor|].
  cbn [collapse_blank]. destruct (is_blank line).
  - destruct (bc + 1 <=? 2); [constructor; [exact H0 | apply IH] | apply IH].
  - constructor; [apply Hr; exact Hl | apply IH].
Qed.

Lemma three_blank_cons_nonblank (x : string) (l : list string) :
  is_blank x = false -> three_blank_lines (x :: l) = three_blank_lines l.
Proof.
  intros H. destruct l as [|b [|c l]]; try reflexivity.
  cbn [three_blank_lines]. rewrite H. reflexivity.
Qed.

Lemma three_blank_one (x : string) (l : list string) :
  is_blank x = false ->
  three_blank_lines (EmptyString :: x :: l) = three_blank_lines l.
Proof.
  intros H. rewrite <- (three_blank_cons_nonblank x l H).
  destruct l as [|c l]; [reflexivity|].
  change (three_blank_lines (EmptyString :: x :: c :: l))
    with ((is_blank EmptyString && is_blank x && is_blank c) || three_blank_lines (x :: c :: l)).
  rewrite H, andb_false_r. reflexivity.
Qed.

Lemma three_blank_two (x : string) (l : list string) :
  is_blank x = false ->
  three_blank_lines (EmptyString :: EmptyString :: x :: l) = three_blank_lines l.
Proof.
  intros H. rewrite <- (three_blank_one x l H).
  change (three_blank_lines (EmptyString :: EmptyString :: x :: l))
    with ((is_blank EmptyString && is_blank EmptyString && is_blank x)
          || three_blank_lines (EmptyString :: x :: l)).
  rewrite H, andb_false_r. reflexivity.
Qed.

(** After [bc] blank lines (counted up to two), the output of the loop
    has no three blank lines in a row. *)
Lemma collapse_no_three_blank (lines : list string) :
  forall bc,
    three_blank_lines (blanks (Nat.min bc 2) ++ collapse_blank bc lines) = false.
Proof.
  induction lines as [|line lines IH]; intros bc.
  - cbn [collapse_blank]. rewrite app_nil_r.
    destruct bc as [|[|bc]]; [reflexivity | reflexivity |].
    replace (Nat.min (S (S bc)) 2) with 2 by lia. reflexivity.
  - cbn [collapse_blank]. destruct (is_blank line) eqn:E.
    + destruct bc as [|[|bc]].
      * exact (IH 1).
      * exact (IH 2).
      * replace (S (S bc) + 1 <=? 2) with false by (symmetry; apply Nat.leb_gt; lia).
        specialize (IH (S (S bc) + 1)).
        replace (Nat.min (S (S bc) + 1) 2) with 2 in IH by lia.
        replace (Nat.min (S (S bc)) 2) with 2 by lia. exact IH.
    + assert (Eb : is_blank (str_rstrip line) = false) by (rewrite is_blank_rstrip; exact E).
      specialize (IH 0). cbn [Nat.min blanks repeat app] in IH.
      destruct bc as [|[|bc]].
      * cbn [Nat.min blanks repeat app].
        rewrite three_blank_cons_nonblank by exact Eb. exact IH.
      * cbn [Nat.min blanks repeat app].
        rewrite three_blank_one by exact Eb. exact IH.
      * replace (Nat.min (S (S bc)) 2) with 2 by lia. cbn [blanks repeat app].
        rewrite three_blank_two by exact Eb. exact IH.
Qed.

Lemma clean_line_blank (x : string) : clean_line x -> is_blank x = true -> x = EmptyString.
Proof. intros [H|[H _]] Hb; [exact H | congruence]. Qed.

(** On lines the loop has left, the loop changes nothing. *)
Lemma collapse_fixpoint (lines : list string) :
  Forall clean_line lines ->
  forall bc, bc <= 2 ->
    three_blank_lines (blanks bc ++ lines) = false ->
    collapse_blank bc lines = lines.
Proof.
  induction 1 as [|line lines Hl Hrest IH]; intros bc Hbc H3; [reflexivity|].
  cbn [collapse_blank]. destruct (is_blank line) eqn:E.
  - pose proof (clean_line_blank _ Hl E) as ->.
    destruct bc as [|[|[|bc]]]; try lia.
    + cbn [Nat.add Nat.leb]. rewrite (IH 1); [reflexivity | lia | exact H3].
    + cbn [Nat.add Nat.leb]. rewrite (IH 2); [reflexivity | lia | exact H3].
    + exfalso. cbn [blanks repeat app] in H3.
      destruct lines as [|c lines]; cbn [three_blank_lines] in H3;
        rewrite is_blank_empty in H3; discriminate.
  - destruct Hl as [->|[_ Hr]]; [rewrite is_blank_empty in E; discriminate|].
    rewrite Hr. f_equal. apply (IH 0); [lia|].
    destruct bc as [|[|[|bc]]]; try lia; cbn [blanks repeat app] in *.
    + rewrite three_blank_cons_nonblank in H3 by exact E. exact H3.
    + rewrite three_blank_one in H3 by exact E. exact H3.
    + rewrite three_blank_two in H3 by exact E. exact H3.
Qed.

(** ** Trailing blank lines *)

Lemma pop_cons (x : string) (l : list string) :
  pop_trailing_blank (x :: l)
  = match pop_trailing_blank l with
    | [] => if String.eqb x EmptyString then [] else [x]
    | r => x :: r
    end.
Proof. reflexivity. Qed.

Lemma pop_keeps (P : string -> Prop) (l : list string) :
  Forall P l -> Forall P (pop_trailing_blank l).
Proof.
  induction 1 as [|x l Hx Hl IH]; [constructor|].
  rewrite pop_cons. destruct (pop_trailing_blank l) as [|p ps].
  - destruct (String.eqb x EmptyString); repeat constructor. exact Hx.
  - constructor; assumption.
Qed.

Lemma pop_prefix (l : list string) :
  exists rest, l = pop_trailing_blank l ++ rest.
Proof.
  induction l as [|x l (rest & IH)]; [exists []; reflexivity|].
  rewrite pop_cons. destruct (pop_trailing_blank l) as [|p ps].
  - destruct (String.eqb x EmptyString).
    + exists (x :: l). reflexivity.
    + exists l. simpl in IH. simpl. reflexivity.
  - exists rest. simpl. rewrite IH at 1. reflexivity.
Qed.

Lemma pop_idem (l : list string) :
  pop_trailing_blank (pop_trailing_blank l) = pop_trailing_blank l.
Proof.
  induction l as [|x l IH]; [reflexivity|].
  rewrite pop_cons. destruct (pop_trailing_blank l) as [|p ps] eqn:E.
  - destruct (String.eqb x EmptyString) eqn:Ex; [reflexivity|].
    rewrite pop_cons. simpl. rewrite Ex. reflexivity.
  - rewrite pop_cons, IH. reflexivity.
Qed.

Lemma pop_join_truthy (l : list string) :
  pop_trailing_blank l <> [] -> truthy (str_join newline (pop_trailing_blank l)) = true.
Proof.
  induction l as [|x l IH]; [simpl; congruence|].
  rewrite pop_cons. destruct (pop_trailing_blank l) as [|p ps] eqn:E.
  - destruct x; simpl; [congruence | reflexivity].
  - intros _. rewrite str_join_two. destruct x; reflexivity.
Qed.

Lemma three_blank_app_l (a b : list string) :
  three_blank_lines (a ++ b) = false -> three_blank_lines a = false.
Proof.
  induction a as [|x a IH]; [reflexivity|].
  destruct a as [|y [|z a]]; try reflexivity.
  change ((x :: y :: z :: a) ++ b) with (x :: y :: z :: (a ++ b)).
  cbn [three_blank_lines] in *. rewrite !orb_false_iff. intros [H1 H2].
  split; [exact H1|]. apply IH. exact H2.
Qed.

(** ** clean_and_validate_code *)

Section CleanAndValidate.

Variable code_text : string.
Variable language : string.

Lemma validate_no_fence_left : has_fence (validate_stripped code_text) = false.
Proof.
  unfold validate_stripped.
  destruct (sub_exact_no_fence _ fence_open_opt_nl_exact
              (str_len code_text) code_text (Nat.le_refl _)) as [H _].
  rewrite (sub_no_fence_id _ _ fence_led_lit H). exact H.
Qed.

Lemma validate_kept :
  Forall clean_line (validate_lines code_text) /\ Forall no_nl (validate_lines code_text) /\ Forall no_fence (validate_lines code_text) /\
  three_blank_lines (validate_lines code_text) = false.
Proof.
  unfold validate_lines. repeat split.
  - apply pop_keeps, collapse_clean_lines.
  - apply pop_keeps, collapse_keeps;
      [reflexivity | apply rstrip_no_nl | apply split_lines_no_nl].
  - apply pop_keeps, collapse_keeps;
      [reflexivity | apply rstrip_no_fence
       | apply split_lines_no_fence, validate_no_fence_left].
  - destruct (pop_prefix (collapse_blank 0 (str_split nl (validate_stripped code_text)))) as (rest & Hrest).
    pose proof (collapse_no_three_blank (str_split nl (validate_stripped code_text)) 0) as H.
    cbn [Nat.min blanks repeat app] in H. rewrite Hrest in H.
    apply three_blank_app_l in H. exact H.
Qed.

Lemma validate_result :
  CodeRefactorer.clean_and_validate_code code_text language = str_join newline (validate_lines code_text).
Proof. apply clean_and_validate_code_eq. Qed.

Lemma validate_idempotent :
  CodeRefactorer.clean_and_validate_code
    (CodeRefactorer.clean_and_validate_code code_text language) language
  = CodeRefactorer.clean_and_validate_code code_text language.
Proof.
  rewrite validate_result.
  destruct validate_kept as (Hclean & Hnl & Hfence & H3).
  rewrite clean_and_validate_code_eq.
  assert (Hy : has_fence (str_join newline (validate_lines code_text)) = false) by (apply has_fence_join; exact Hfence).
  rewrite (sub_no_fence_id _ _ fence_open_opt_nl_led Hy).
  rewrite (sub_no_fence_id _ _ fence_led_lit Hy).
  destruct (validate_lines code_text) as [|x l] eqn:E; [reflexivity|].
  rewrite split_join by (try discriminate; exact Hnl).
  rewrite collapse_fixpoint; [| exact Hclean | lia | exact H3].
  rewrite <- E. unfold validate_lines. rewrite pop_idem. reflexivity.
Qed.

Lemma validate_blank_runs :
  three_blank_lines
    (str_split nl (CodeRefactorer.clean_and_validate_code code_text language)) = false.
Proof.
  rewrite validate_result.
  destruct validate_kept as (Hclean & Hnl & Hfence & H3).
  destruct (validate_lines code_text) as [|x l] eqn:E; [reflexivity|].
  rewrite split_join by (try discriminate; exact Hnl). exact H3.
Qed.

End CleanAndValidate.

(** ** clean_code_content *)

Lemma nl_is_space : is_space nl = true.
Proof. reflexivity. Qed.

Lemma rstrip_line_app (x w : string) :
  str_rstrip (x +:+ String nl w)
  = match str_rstrip w with
    | EmptyString => str_rstrip x
    | r => x +:+ String nl r
    end.
Proof.
  induction x as [|c x IH].
  - rewrite append_nil_l, rstrip_cons, nl_is_space.
    destruct (str_rstrip w); reflexivity.
  - rewrite append_cons, rstrip_cons, IH.
    destruct (str_rstrip w) as [|a r]; [rewrite rstrip_cons; reflexivity|].
    destruct x; reflexivity.
Qed.

Lemma rstrip_join (l : list string) :
  Forall rstripped l ->
  str_rstrip (str_join newline l) = str_join newline (pop_trailing_blank l).
Proof.
  induction 1 as [|x l Hx Hl IH]; [reflexivity|].
  destruct l as [|y l].
  - simpl. rewrite Hx. destruct x; reflexivity.
  - rewrite str_join_two, rstrip_line_app, IH, (pop_cons x (y :: l)).
    destruct (pop_trailing_blank (y :: l)) as [|p ps] eqn:E.
    + simpl. rewrite Hx. destruct x; reflexivity.
    + pose proof (pop_join_truthy (y :: l)) as T. rewrite E in T.
      specialize (T ltac:(discriminate)).
      rewrite str_join_two.
      destruct (str_join newline (p :: ps)); [discriminate T | reflexivity].
Qed.

Lemma lstrip_app (a b : string) :
  all_space a = false -> str_lstrip (a +:+ b) = str_lstrip a +:+ b.
Proof.
  induction a as [|c a IH]; intros H; [discriminate|].
  cbn [all_space] in H. rewrite append_cons, !lstrip_cons.
  destruct (is_space c); [apply IH; exact H | reflexivity].
Qed.

Lemma rstripped_not_blank (x : string) :
  rstripped x -> x <> EmptyString -> all_space x = false.
Proof.
  intros Hr Hne. destruct (all_space x) eqn:E; [|reflexivity].
  apply rstrip_empty_iff in E. rewrite Hr in E. contradiction.
Qed.

Lemma lstrip_join (l : list string) :
  Forall rstripped l ->
  str_lstrip (str_join newline l) = str_join newline (lstrip_lines l).
Proof.
  induction 1 as [|x l Hx Hl IH]; [reflexivity|].
  cbn [lstrip_lines]. destruct (String.eqb_spec x EmptyString) as [->|Hne].
  - destruct l as [|y l]; [reflexivity|].
    rewrite str_join_two, append_nil_l, lstrip_cons, nl_is_space. exact IH.
  - destruct l as [|y l]; [reflexivity|].
    rewrite !str_join_two. apply lstrip_app, rstripped_not_blank; assumption.
Qed.

Lemma rstripped_tail (c : ascii) (s : string) : rstripped (String c s) -> rstripped s.
Proof.
  unfold rstripped. rewrite rstrip_cons.
  destruct (str_rstrip s) as [|a r] eqn:E.
  - destruct (is_space c); [discriminate|]. intros H. injection H as <-. reflexivity.
  - intros H. injection H as H. exact H.
Qed.

Lemma rstripped_lstrip (s : string) : rstripped s -> rstripped (str_lstrip s).
Proof.
  induction s as [|c s IH]; intros H; [reflexivity|].
  rewrite lstrip_cons. destruct (is_space c); [|exact H].
  apply IH. eapply rstripped_tail. exact H.
Qed.

Lemma lstrip_idem (s : string) : str_lstrip (str_lstrip s) = str_lstrip s.
Proof.
  induction s as [|c s IH]; [reflexivity|].
  rewrite lstrip_cons. destruct (is_space c) eqn:E; [exact IH|].
  rewrite lstrip_cons, E. reflexivity.
Qed.

Lemma strip_idem (s : string) : str_strip (str_strip s) = str_strip s.
Proof.
  unfold str_strip.
  rewrite (rstripped_lstrip (str_rstrip s) (rstrip_idem s)).
  apply lstrip_idem.
Qed.

Lemma lstrip_lines_keeps (P : string -> Prop) (l : list string) :
  (forall x, P x -> P (str_lstrip x)) ->
  Forall P l -> Forall P (lstrip_lines l).
Proof.
  intros Hp. induction 1 as [|x l Hx Hl IH]; [constructor|].
  cbn [lstrip_lines]. destruct (String.eqb x EmptyString); [exact IH|].
  constructor; [apply Hp; exact Hx | exact Hl].
Qed.

Lemma map_rstrip_id (l : list string) : Forall rstripped l -> map str_rstrip l = l.
Proof.
  induction 1 as [|x l Hx Hl IH]; [reflexivity|]. simpl. rewrite Hx, IH. reflexivity.
Qed.

Lemma map_rstrip_keeps (P : string -> Prop) (l : list string) :
  (forall x, P x -> P (str_rstrip x)) -> Forall P l -> Forall P (map str_rstrip l).
Proof.
  intros Hp. induction 1 as [|x l Hx Hl IH]; simpl; constructor; auto.
Qed.

Lemma map_rstrip_rstripped (l : list string) : Forall rstripped (map str_rstrip l).
Proof. induction l as [|x l IH]; simpl; constructor; [apply rstrip_idem | exact IH]. Qed.

Section CleanCodeContent.

Variable text : string.

Lemma content_no_fence_left : has_fence (content_stripped text) = false.
Proof.
  unfold content_stripped.
  destruct (sub_exact_no_fence _ fence_is_exact
              (str_len (re_sub_empty fence_open_nl text))
              (re_sub_empty fence_open_nl text) (Nat.le_refl _)) as [H _].
  exact H.
Qed.

Lemma content_kept :
  Forall rstripped (content_lines text) /\ Forall no_nl (content_lines text) /\ Forall no_fence (content_lines text).
Proof.
  unfold content_lines. repeat split.
  - apply lstrip_lines_keeps; [apply rstripped_lstrip|].
    apply pop_keeps, map_rstrip_rstripped.
  - apply lstrip_lines_keeps; [apply lstrip_no_nl|].
    apply pop_keeps, map_rstrip_keeps; [apply rstrip_no_nl | apply split_lines_no_nl].
  - apply lstrip_lines_keeps; [apply lstrip_no_fence|].
    apply pop_keeps, map_rstrip_keeps;
      [apply rstrip_no_fence | apply split_lines_no_fence, content_no_fence_left].
Qed.

Lemma content_result :
  ScriptGenerator.clean_code_content text = str_join newline (content_lines text).
Proof.
  rewrite clean_code_content_eq. fold (content_stripped text). unfold str_strip, content_lines.
  rewrite rstrip_join by apply map_rstrip_rstripped.
  apply lstrip_join, pop_keeps, map_rstrip_rstripped.
Qed.

Lemma content_idempotent :
  ScriptGenerator.clean_code_content (ScriptGenerator.clean_code_content text)
  = ScriptGenerator.clean_code_content text.
Proof.
  rewrite (clean_code_content_eq (ScriptGenerator.clean_code_content text)).
  destruct content_kept as (Hr & Hnl & Hfence).
  assert (Hy : has_fence (ScriptGenerator.clean_code_content text) = false)
    by (rewrite content_result; apply has_fence_join; exact Hfence).
  rewrite (sub_no_fence_id _ _ fence_open_nl_led Hy).
  rewrite (sub_no_fence_id _ _ fence_led_lit Hy).
  rewrite content_result at 1.
  destruct (content_lines text) as [|x l] eqn:E.
  - rewrite content_result, E. reflexivity.
  - rewrite split_join by (try discriminate; exact Hnl).
    rewrite map_rstrip_id by exact Hr.
    rewrite <- E, <- content_result.
    rewrite clean_code_content_eq. apply strip_idem.
Qed.

End CleanCodeContent.

(** C4, as stated, fails for [clean_code_content]: it keeps a run of four
    blank lines as it is. *)
Lemma content_keeps_blank_runs :
  ScriptGenerator.clean_code_content four_blank_lines = four_blank_lines /\
  three_blank_lines
    (str_split nl (ScriptGenerator.clean_code_content four_blank_lines)) = true.
Proof. split; reflexivity. Qed.

(** C4, amended: both cleaners are idempotent, and the output of
    [clean_and_validate_code] never has three blank lines in a row. *)
Theorem cleaners_idempotent (text language : string) :
  CodeRefactorer.clean_and_validate_code
    (CodeRefactorer.clean_and_validate_code text language) language
  = CodeRefactorer.clean_and_validate_code text language /\
  ScriptGenerator.clean_code_content (ScriptGenerator.clean_code_content text)
  = ScriptGenerator.clean_code_content text /\
  three_blank_lines
    (str_split nl (CodeRefactorer.clean_and_validate_code text language)) = false.
Proof.
  split; [apply validate_idempotent|].
  split; [apply content_idempotent | apply validate_blank_runs].
Qed.

Example validate_collapses_blank_runs :
  CodeRefactorer.clean_and_validate_code four_blank_lines "python"
  = "a" +:+ newline +:+ newline +:+ newline +:+ "b".
Proof. reflexivity. Qed.

(** ** The public operations and the operating system *)

Lemma refactor_code_returns (ast_parse_walk : string -> result (list ast_node))
    (generate_content : string -> result string) (now_isoformat : string)
    (code_text language : string) (file_name : option string) :
  exists r,
    CodeRefactorer.refactor_code ast_parse_walk generate_content now_isoformat
      code_text language file_name = Ok r.
Proof.
  unfold CodeRefactorer.refactor_code, try_except.
  match goal with |- context [match ?body with Ok _ => _ | Raise _ => _ end] =>
    destruct body as [r|e] end; simpl; eauto.
Qed.

Lemma generate_script_returns (generate_content : string -> result string)
    (now_isoformat : string) (prompt language task_type : string) :
  exists r,
    ScriptGenerator.generate_script generate_content now_isoformat
      prompt language task_type = Ok r.
Proof.
  unfold ScriptGenerator.generate_script, try_except.
  match goal with |- context [match ?body with Ok _ => _ | Raise _ => _ end] =>
    destruct body as [r|e] end; simpl; eauto.
Qed.

(** Sequences of calls. *)

Lemma all_succeed_app (sys : os) (a b : list call) :
  forall log,
    all_succeed sys (a ++ b) log
    <-> all_succeed sys a log /\ all_succeed sys b (log ++ a).
Proof.
  induction a as [|c a IH]; intros log; cbn [app all_succeed].
  - rewrite app_nil_r. tauto.
  - rewrite IH, <- app_assoc. cbn [app]. tauto.
Qed.

Lemma run_calls_app (sys : os) (a b : list call) :
  forall log,
    run_calls sys (a ++ b) log
    = io_bind (run_calls sys a) (fun _ => run_calls sys b) log.
Proof.
  induction a as [|c a IH]; intros log; [reflexivity|].
  cbn [app run_calls]. unfold io_bind in *.
  destruct (call_result sys log c) as [[]|e]; [apply IH | reflexivity].
Qed.

Lemma run_calls_returns (sys : os) (calls : list call) :
  forall log,
    fst (run_calls sys calls log) = Ok tt ->
    all_succeed sys calls log /\ snd (run_calls sys calls log) = log ++ calls.
Proof.
  induction calls as [|c calls IH]; intros log; cbn [run_calls all_succeed].
  - intros _. split; [exact I|]. cbn. rewrite app_nil_r. reflexivity.
  - destruct (call_result sys log c) as [[]|e]; [|discriminate].
    intros H. destruct (IH _ H) as [Hall Hlog]. split; [split; [reflexivity | exact Hall]|].
    rewrite Hlog, <- app_assoc. reflexivity.
Qed.

Lemma run_calls_raised (sys : os) (calls : list call) (e : exn) :
  forall log,
    fst (run_calls sys calls log) = Raise e ->
    exists pre c post,
      calls = pre ++ c :: post /\
      all_succeed sys pre log /\
      call_result sys (log ++ pre) c = Raise e /\
      snd (run_calls sys calls log) = log ++ pre ++ [c].
Proof.
  induction calls as [|c calls IH]; intros log; cbn [run_calls]; [discriminate|].
  destruct (call_result sys log c) as [[]|e'] eqn:E.
  - intros H. destruct (IH _ H) as (pre & c' & post & -> & Hall & Hc & Hlog).
    exists (c :: pre), c', post. split; [reflexivity|].
    split; [split; assumption|].
    rewrite <- app_assoc in Hc, Hlog. split; [exact Hc | exact Hlog].
  - intros H. injection H as <-. exists [], c, calls.
    cbn [app all_succeed]. rewrite app_nil_r. repeat split. exact E.
Qed.

Lemma run_calls_raises (sys : os) (pre post : list call) (c : call) (e : exn) :
  forall log,
    all_succeed sys pre log ->
    call_result sys (log ++ pre) c = Raise e ->
    run_calls sys (pre ++ c :: post) log = (Raise e, log ++ pre ++ [c]).
Proof.
  induction pre as [|x pre IH]; intros log Hall Hc; cbn [app run_calls].
  - rewrite app_nil_r in Hc. rewrite Hc. reflexivity.
  - destruct Hall as [Hx Hall]. rewrite Hx.
    rewrite (IH _ Hall) by (rewrite <- app_assoc; exact Hc).
    rewrite <- app_assoc. reflexivity.
Qed.

Lemma run_calls_prefix (sys : os) (calls : list call) :
  forall log,
    exists pre post, calls = pre ++ post /\ snd (run_calls sys calls log) = log ++ pre.
Proof.
  induction calls as [|c calls IH]; intros log; cbn [run_calls].
  - exists [], []. split; [reflexivity|]. cbn. rewrite app_nil_r. reflexivity.
  - destruct (call_result sys log c) as [[]|e].
    + destruct (IH (log ++ [c])) as (pre & post & -> & ->).
      exists (c :: pre), post. split; [reflexivity|]. rewrite <- app_assoc. reflexivity.
    + exists [c], calls. split; reflexivity.
Qed.

(** The saves as sequences of calls. *)

Lemma saves_app (project_dir : Path) (a b : list file_record) :
  saves project_dir (a ++ b) = saves project_dir a ++ saves project_dir b.
Proof. apply flat_map_app. Qed.

Lemma generator_save_loop_eq (sys : os) (project_dir : Path) (l : list file_record) :
  forall saved log,
    ScriptGenerator.save_loop sys project_dir l saved log
    = CodeRefactorer.save_loop sys project_dir l saved log.
Proof.
  induction l as [|f l IH]; intros saved log; [reflexivity|].
  cbn [ScriptGenerator.save_loop CodeRefactorer.save_loop]. unfold io_bind.
  destruct (open_write sys (Path_div project_dir (filename f)) (content f) log)
    as [[[]|e] log']; [|reflexivity].
  destruct (py_print sys _ log') as [[[]|e] log'']; [apply IH | reflexivity].
Qed.

Lemma save_loop_calls (sys : os) (project_dir : Path) (l : list file_record) :
  forall saved log,
    CodeRefactorer.save_loop sys project_dir l saved log
    = returning (saved ++ target_paths project_dir l)
        (run_calls sys (saves project_dir l) log).
Proof.
  induction l as [|f l IH]; intros saved log.
  - cbn. rewrite app_nil_r. reflexivity.
  - cbn [CodeRefactorer.save_loop saves flat_map app run_calls call_result target_paths map].
    fold (saves project_dir l). fold (target_paths project_dir l).
    unfold io_bind, open_write, py_print.
    destruct (os_write sys log (Path_str (Path_div project_dir (filename f))) (content f))
      as [[]|e]; [|reflexivity].
    destruct (os_print sys _ _) as [[]|e]; [|reflexivity].
    rewrite IH, <- !app_assoc. reflexivity.
Qed.

Lemma save_under_calls (sys : os) (project_dir : Path) (l : list file_record)
    (log : list call) :
  io_bind (Path_mkdir sys project_dir)
    (fun _ => CodeRefactorer.save_loop sys project_dir l []) log
  = returning (target_paths project_dir l) (run_calls sys (save_calls project_dir l) log).
Proof.
  unfold io_bind, Path_mkdir, save_calls. cbn [run_calls call_result].
  destruct (os_mkdir sys log (Path_str project_dir)) as [[]|e]; [|reflexivity].
  apply save_loop_calls.
Qed.

Lemma refactor_save_calls (sys : os) (now_stamp : string) (l : list file_record)
    (project_name : option string) (log : list call) :
  let dir := project_dir_of CodeRefactorer.output_dir ("refactored_" +:+ now_stamp)
               project_name in
  CodeRefactorer.save_refactored_files now_stamp sys l project_name log
  = returning (target_paths dir l) (run_calls sys (save_calls dir l) log).
Proof. apply save_under_calls. Qed.

Lemma generator_save_calls (sys : os) (now_stamp : string) (l : list file_record)
    (project_name : option string) (log : list call) :
  let dir := project_dir_of ScriptGenerator.output_dir ("project_" +:+ now_stamp)
               project_name in
  ScriptGenerator.save_files now_stamp sys l project_name log
  = returning (target_paths dir l) (run_calls sys (save_calls dir l) log).
Proof.
  intros dir. rewrite <- save_under_calls.
  unfold ScriptGenerator.save_files, io_bind. fold (project_dir_of ScriptGenerator.output_dir
    ("project_" +:+ now_stamp) project_name). fold dir.
  destruct (Path_mkdir sys dir log) as [[[]|e] log']; [|reflexivity].
  apply generator_save_loop_eq.
Qed.

Lemma refactor_file_run (ast_parse_walk : string -> result (list ast_node))
    (generate_content : string -> result string) (now_isoformat : string) (sys : os)
    (file_path : string) (language : option string) (log : list call) :
  let path := Path_str (Path_of file_path) in
  let run := CodeRefactorer.refactor_file ast_parse_walk generate_content now_isoformat
               sys file_path language log in
  match os_exists sys log path with
  | Raise e => run = (Raise e, log ++ [Exists path])
  | Ok _ =>
      exists r, fst run = Ok r /\
                (snd run = log ++ [Exists path] \/ snd run = log ++ [Exists path; Read path])
  end.
Proof.
  intros path run. subst run.
  unfold CodeRefactorer.refactor_file, io_bind, Path_exists. fold path.
  destruct (os_exists sys log path) as [found|e]; [|reflexivity].
  destruct found; cbn [negb]; [|unfold io_ret; cbn; eauto].
  match goal with |- context [match ?d with Some _ => _ | None => _ end] =>
    destruct d as [lang|] end; [|unfold io_ret; cbn; eauto].
  unfold open_read. fold path.
  destruct (os_read sys (log ++ [Exists path]) path) as [code_text|e]; cbn [fst snd].
  - destruct (refactor_code_returns ast_parse_walk generate_content now_isoformat
                code_text lang (Some (Path_name (Path_of file_path)))) as (r & ->).
    exists r. split; [reflexivity|]. right. rewrite <- app_assoc. reflexivity.
  - eexists. split; [reflexivity|]. right. rewrite <- app_assoc. reflexivity.
Qed.

(** C7, as stated, fails.  Saving a record whose filename names a
    directory that is not there raises, in [save_refactored_files] and
    in [refactor_and_save] after a successful refactoring; and
    [refactor_file] raises when [Path.exists] does, which is called
    outside the [try]. *)
Lemma saving_can_raise :
  fst (CodeRefactorer.save_refactored_files "20240101_000000" no_subdirectory
         [MkFile "src/main.py" "x = 1" code] (Some "demo") [])
  = Raise (FileNotFoundError "refactored_code/demo/src/main.py") /\
  fst (CodeRefactorer.refactor_and_save no_nodes nested_reply
         "2024-01-01T00:00:00" "20240101_000000" no_subdirectory
         "x=1" "python" None (Some "demo") [])
  = Raise (FileNotFoundError "refactored_code/demo/src/main.py") /\
  fst (CodeRefactorer.refactor_file no_nodes nested_reply "2024-01-01T00:00:00"
         long_names (str_repeat "a" 300 +:+ ".py") None [])
  = Raise (OSError ("[Errno 36] File name too long: '"
                    +:+ str_repeat "a" 300 +:+ ".py" +:+ "'")).
Proof. repeat split; vm_compute; reflexivity. Qed.

(** C7, amended: [refactor_code] and [generate_script] always return a
    success/failure result (and call nothing of the system);
    [refactor_file] returns one unless [Path.exists] raises, and that
    exception it lets through; it only tests and reads the file.
    [refactor_and_save] and [generate_and_save] return the failure of
    the first step without a call to the system, and raise when the save
    raises.  [save_refactored_files] and [save_files] make the project
    directory, then write and report the records in their order: the
    first of these calls that raises ends the save with its exception,
    and whether the save returns or raises, the calls it has made are
    the first ones of that sequence, so that it opens for writing only
    paths of the records it is given. *)
Theorem public_operations (ast_parse_walk : string -> result (list ast_node))
    (generate_content : string -> result string) (now_isoformat now_stamp : string)
    (sys : os) (code_text prompt language task_type file_path : string)
    (file_name file_language project_name : option string)
    (l : list file_record) (log : list call) :
  (exists r,
     CodeRefactorer.refactor_code ast_parse_walk generate_content now_isoformat
       code_text language file_name = Ok r) /\
  (exists r,
     ScriptGenerator.generate_script generate_content now_isoformat
       prompt language task_type = Ok r) /\
  (let path := Path_str (Path_of file_path) in
   let run := CodeRefactorer.refactor_file ast_parse_walk generate_content now_isoformat
                sys file_path file_language log in
   (forall e, os_exists sys log path = Raise e -> run = (Raise e, log ++ [Exists path])) /\
   (forall found, os_exists sys log path = Ok found ->
      exists r, fst run = Ok r /\
                (snd run = log ++ [Exists path]
                 \/ snd run = log ++ [Exists path; Read path]))) /\
  (forall error ts,
     CodeRefactorer.refactor_code ast_parse_walk generate_content now_isoformat
       code_text language file_name = Ok (CodeRefactorer.Failure error ts) ->
     CodeRefactorer.refactor_and_save ast_parse_walk generate_content now_isoformat
       now_stamp sys code_text language file_name project_name log
     = (Ok (CodeRefactorer.Failure error ts), log)) /\
  (forall error ts,
     ScriptGenerator.generate_script generate_content now_isoformat
       prompt language task_type = Ok (ScriptGenerator.Failure error ts) ->
     ScriptGenerator.generate_and_save generate_content now_isoformat now_stamp sys
       prompt language task_type project_name log
     = (Ok (ScriptGenerator.Failure error ts), log)) /\
  (forall a files raw ts saved e,
     CodeRefactorer.refactor_code ast_parse_walk generate_content now_isoformat
       code_text language file_name = Ok (CodeRefactorer.Success a files raw ts saved) ->
     fst (CodeRefactorer.save_refactored_files now_stamp sys files project_name log)
     = Raise e ->
     fst (CodeRefactorer.refactor_and_save ast_parse_walk generate_content now_isoformat
            now_stamp sys code_text language file_name project_name log) = Raise e) /\
  (forall files raw ts saved e,
     ScriptGenerator.generate_script generate_content now_isoformat
       prompt language task_type = Ok (ScriptGenerator.Success files raw ts saved) ->
     fst (ScriptGenerator.save_files now_stamp sys files project_name log) = Raise e ->
     fst (ScriptGenerator.generate_and_save generate_content now_isoformat now_stamp sys
            prompt language task_type project_name log) = Raise e) /\
  (let dir := project_dir_of CodeRefactorer.output_dir ("refactored_" +:+ now_stamp)
                project_name in
   let run := CodeRefactorer.save_refactored_files now_stamp sys l project_name log in
   (forall pre c post e,
      save_calls dir l = pre ++ c :: post ->
      all_succeed sys pre log ->
      call_result sys (log ++ pre) c = Raise e ->
      fst run = Raise e) /\
   exists pre post, save_calls dir l = pre ++ post /\ snd run = log ++ pre) /\
  (let dir := project_dir_of ScriptGenerator.output_dir ("project_" +:+ now_stamp)
                project_name in
   let run := ScriptGenerator.save_files now_stamp sys l project_name log in
   (forall pre c post e,
      save_calls dir l = pre ++ c :: post ->
      all_succeed sys pre log ->
      call_result sys (log ++ pre) c = Raise e ->
      fst run = Raise e) /\
   exists pre post, save_calls dir l = pre ++ post /\ snd run = log ++ pre).
Proof.
  split; [apply refactor_code_returns|].
  split; [apply generate_script_returns|].
  split.
  { intros path run.
    pose proof (refactor_file_run ast_parse_walk generate_content now_isoformat sys
                  file_path file_language log) as H.
    cbv zeta in H. fold path in H. fold run in H. split.
    - intros e He. rewrite He in H. exact H.
    - intros found He. rewrite He in H. exact H. }
  split.
  { intros error ts H. unfold CodeRefactorer.refactor_and_save, io_bind, io_lift.
    rewrite H. reflexivity. }
  split.
  { intros error ts H. unfold ScriptGenerator.generate_and_save, io_bind, io_lift.
    rewrite H. reflexivity. }
  split.
  { intros a files raw ts saved e H Hs.
    unfold CodeRefactorer.refactor_and_save, io_bind, io_lift. rewrite H.
    destruct (CodeRefactorer.save_refactored_files now_stamp sys files project_name log)
      as [[out|e'] log']; cbn [fst] in *;
      [discriminate Hs | injection Hs as ->; reflexivity]. }
  split.
  { intros files raw ts saved e H Hs.
    unfold ScriptGenerator.generate_and_save, io_bind, io_lift. rewrite H.
    destruct (ScriptGenerator.save_files now_stamp sys files project_name log)
      as [[out|e'] log']; cbn [fst] in *;
      [discriminate Hs | injection Hs as ->; reflexivity]. }
  split.
  - intros dir run. subst run. rewrite refactor_save_calls. fold dir. split.
    + intros pre c post e Hplan Hall Hc. rewrite Hplan.
      rewrite (run_calls_raises _ _ _ _ _ _ Hall Hc). reflexivity.
    + apply run_calls_prefix.
  - intros dir run. subst run. rewrite generator_save_calls. fold dir. split.
    + intros pre c post e Hplan Hall Hc. rewrite Hplan.
      rewrite (run_calls_raises _ _ _ _ _ _ Hall Hc). reflexivity.
    + apply run_calls_prefix.
Qed.

Example refactor_code_failure :
  CodeRefactorer.refactor_code no_nodes failing_service "2024-01-01T00:00:00"
    "x=1" "python" None
  = Ok (CodeRefactorer.Failure "quota exceeded" (Some "2024-01-01T00:00:00")).
Proof. vm_compute. reflexivity. Qed.

Example refactor_code_success :
  CodeRefactorer.refactor_code no_nodes nested_reply "2024-01-01T00:00:00"
    "x=1" "python" None
  = Ok (CodeRefactorer.Success (MkAnalysis "python" 1 [] [] [] [])
          [MkFile "src/main.py" "x = 1" code]
          ("=== FILENAME: src/main.py ===" +:+ newline +:+ "x = 1")
          "2024-01-01T00:00:00" None).
Proof. vm_compute. reflexivity. Qed.

Lemma public_operations_witness :
  CodeRefactorer.refactor_and_save no_nodes failing_service
    "2024-01-01T00:00:00" "20240101_000000" obliging "x=1" "python" None (Some "demo") []
  = (Ok (CodeRefactorer.Failure "quota exceeded" (Some "2024-01-01T00:00:00")), []).
Proof.
  destruct (public_operations no_nodes failing_service
              "2024-01-01T00:00:00" "20240101_000000" obliging
              "x=1" "hello" "python" "script" "a.py" None None (Some "demo") [] [])
    as (_ & _ & _ & H & _).
  apply H. vm_compute. reflexivity.
Defined.

(** * Further properties *)

(** ** What the parsers return for every response *)

Lemma length_re_split (r : regex) (s : string) :
  length (re_split r s) = 2 * length (re_findall r s) + 1.
Proof.
  rewrite split_scan, findall_scan. cbn [length].
  rewrite length_split_parts, length_map. lia.
Qed.

Lemma refactor_parser_cases (response language : string) :
  exists docs codes,
    CodeRefactorer.parse_refactored_response response language = Ok (docs ++ codes) /\
    length docs <= 1 /\ Forall is_documentation docs /\
    length codes <= Nat.max 1 (length (re_findall file_pattern response)) /\
    Forall (fun f => is_code f /\
                     exists text, content f
                                  = CodeRefactorer.clean_and_validate_code text language)
      codes.
Proof.
  destruct (snd (scan file_pattern response)) as [|mg l] eqn:E.
  - rewrite (refactor_single _ _ E). eexists _, _. split; [reflexivity|].
    rewrite findall_scan, E. unfold optional_record.
    destruct (truthy (fst (CodeRefactorer.separate_explanation_and_code response))),
             (truthy (snd (CodeRefactorer.separate_explanation_and_code response)));
      simpl; repeat split; try lia; repeat constructor; eauto.
  - assert (Hne : snd (scan file_pattern response) <> []) by (rewrite E; discriminate).
    rewrite (refactor_multi _ _ Hne). eexists _, _. split; [reflexivity|].
    destruct (refactoring_notes_doc (fst (scan file_pattern response))) as [H1 H2].
    split; [exact H1|]. split; [exact H2|]. rewrite findall_scan.
    unfold code_records. rewrite !length_map. split; [lia|].
    induction (snd (scan file_pattern response)) as [|x xs IH] in |- *; simpl;
      constructor; [split; [reflexivity | eauto] | exact IH].
Qed.

Lemma generator_parser_cases (response language : string) :
  exists docs codes,
    ScriptGenerator.parse_multi_file_response response language = Ok (docs ++ codes) /\
    length docs <= 1 /\ Forall is_documentation docs /\
    length codes = Nat.max 1 (length (re_findall file_pattern response)) /\
    Forall (fun f => is_code f /\
                     exists text, content f = ScriptGenerator.clean_code_content text)
      codes.
Proof.
  destruct (snd (scan file_pattern response)) as [|mg l] eqn:E.
  - rewrite (generator_single _ _ E). exists [], [MkFile ("generated_script." +:+ py_or_ts language)
          (ScriptGenerator.clean_code_content response) code].
    split; [reflexivity|]. rewrite findall_scan, E. simpl.
    repeat split; try lia; repeat constructor; eauto.
  - assert (Hne : snd (scan file_pattern response) <> []) by (rewrite E; discriminate).
    rewrite (generator_multi _ _ Hne). eexists _, _. split; [reflexivity|].
    destruct (readme_doc (fst (scan file_pattern response))) as [H1 H2].
    split; [exact H1|]. split; [exact H2|]. rewrite findall_scan.
    unfold code_records. rewrite !length_map. split; [rewrite E; simpl; lia|].
    induction (snd (scan file_pattern response)) as [|x xs IH] in |- *; simpl;
      constructor; [split; [reflexivity | eauto] | exact IH].
Qed.

(** X1: neither parser raises, whatever the response: the index guard of
    the loop over the parts never fails, and the result holds at most one
    documentation record followed by at most max(1, N) code records for N
    delimiters. *)
Theorem parsers_always_return (response language : string) :
  (exists files,
     CodeRefactorer.parse_refactored_response response language = Ok files /\
     length files <= 1 + Nat.max 1 (length (re_findall file_pattern response))) /\
  (exists files,
     ScriptGenerator.parse_multi_file_response response language = Ok files /\
     length files <= 1 + Nat.max 1 (length (re_findall file_pattern response)) /\
     1 <= length files).
Proof.
  split.
  - destruct (refactor_parser_cases response language)
      as (docs & codes & -> & Hd & _ & Hc & _).
    eexists. split; [reflexivity|]. rewrite length_app. lia.
  - destruct (generator_parser_cases response language)
      as (docs & codes & -> & Hd & _ & Hc & _).
    eexists. split; [reflexivity|]. rewrite length_app. lia.
Qed.

(** ** What the cleaners leave *)

Lemma clean_line_rstripped (line : string) : clean_line line -> rstripped line.
Proof. intros [->|[_ H]]; [reflexivity | exact H]. Qed.

Lemma lines_of_join (l : list string) :
  Forall no_nl l ->
  str_split nl (str_join newline l) = match l with [] => [EmptyString] | _ => l end.
Proof.
  intros H. destruct l as [|x l]; [reflexivity|].
  apply split_join; [discriminate | exact H].
Qed.

Lemma validate_output_no_fence (code_text language : string) :
  has_fence (CodeRefactorer.clean_and_validate_code code_text language) = false.
Proof.
  rewrite validate_result. apply has_fence_join.
  destruct (validate_kept code_text) as (_ & _ & H & _). exact H.
Qed.

Lemma content_output_no_fence (text : string) :
  has_fence (ScriptGenerator.clean_code_content text) = false.
Proof.
  rewrite content_result. apply has_fence_join.
  destruct (content_kept text) as (_ & _ & H). exact H.
Qed.

(** X2: the text [clean_and_validate_code] returns holds no fence marker,
    no line of it ends in white space, and it does not end in white space
    (so not in a blank line either). *)
Theorem validate_output_is_tidy (code_text language : string) :
  has_fence (CodeRefactorer.clean_and_validate_code code_text language) = false /\
  Forall rstripped
    (str_split nl (CodeRefactorer.clean_and_validate_code code_text language)) /\
  str_rstrip (CodeRefactorer.clean_and_validate_code code_text language)
  = CodeRefactorer.clean_and_validate_code code_text language.
Proof.
  split; [apply validate_output_no_fence|].
  rewrite validate_result.
  destruct (validate_kept code_text) as (Hclean & Hnl & _ & _).
  assert (Hr : Forall rstripped (validate_lines code_text)).
  { eapply Forall_impl; [exact Hclean | apply clean_line_rstripped]. }
  split.
  - rewrite lines_of_join by exact Hnl.
    destruct (validate_lines code_text); [repeat constructor | exact Hr].
  - rewrite rstrip_join by exact Hr. unfold validate_lines.
    rewrite pop_idem. reflexivity.
Qed.

(** X3: the text [clean_code_content] returns holds no fence marker, no
    line of it ends in white space, and it neither starts nor ends with
    white space. *)
Theorem content_output_is_tidy (text : string) :
  has_fence (ScriptGenerator.clean_code_content text) = false /\
  Forall rstripped (str_split nl (ScriptGenerator.clean_code_content text)) /\
  str_strip (ScriptGenerator.clean_code_content text)
  = ScriptGenerator.clean_code_content text.
Proof.
  split; [apply content_output_no_fence|]. split.
  - rewrite content_result.
    destruct (content_kept text) as (Hr & Hnl & _).
    rewrite lines_of_join by exact Hnl.
    destruct (content_lines text); [repeat constructor | exact Hr].
  - rewrite clean_code_content_eq. apply strip_idem.
Qed.

(** X4: in [clean_and_validate_code] the second substitution, of the bare
    fence, never changes the text: the first one has already removed every
    fence.  (In [clean_code_content] the first pattern needs a newline,
    and the second substitution does remove what is left.) *)
Theorem second_substitution_is_idle (code_text : string) :
  re_sub_empty fence (re_sub_empty fence_open_opt_nl code_text)
  = re_sub_empty fence_open_opt_nl code_text /\
  has_fence (re_sub_empty fence_open_opt_nl code_text) = false.
Proof.
  destruct (sub_exact_no_fence _ fence_open_opt_nl_exact
              (str_len code_text) code_text (Nat.le_refl _)) as [H _].
  split; [apply (sub_no_fence_id _ _ fence_led_lit H) | exact H].
Qed.

Example second_substitution_needed :
  re_sub_empty fence_open_nl "```x```" = "```x```" /\
  ScriptGenerator.clean_code_content "```x```" = "x" /\
  CodeRefactorer.clean_and_validate_code "```x```" "python" = EmptyString.
Proof. repeat split; reflexivity. Qed.

(** ** The code records *)

Lemma Forall_docs_codes (P : file_record -> Prop) (docs codes : list file_record) :
  Forall is_documentation docs ->
  Forall (fun f => is_code f /\ P f) codes ->
  Forall (fun f => is_code f -> P f) (docs ++ codes).
Proof.
  intros Hd Hc. apply Forall_app. split.
  - eapply Forall_impl; [exact Hd|]. unfold is_documentation, is_code.
    intros f H1 H2. congruence.
  - eapply Forall_impl; [exact Hc|]. intros f [_ H] _. exact H.
Qed.

(** X5: the content of every code record the parsers return holds no
    fence marker and is left as it is by the cleaner of its parser; in the
    refactoring parser it has no three blank lines in a row either. *)
Theorem code_records_are_clean (response language : string) :
  (exists files,
     CodeRefactorer.parse_refactored_response response language = Ok files /\
     Forall (fun f => is_code f ->
               has_fence (content f) = false /\
               CodeRefactorer.clean_and_validate_code (content f) language = content f /\
               three_blank_lines (str_split nl (content f)) = false) files) /\
  (exists files,
     ScriptGenerator.parse_multi_file_response response language = Ok files /\
     Forall (fun f => is_code f ->
               has_fence (content f) = false /\
               ScriptGenerator.clean_code_content (content f) = content f) files).
Proof.
  split.
  - destruct (refactor_parser_cases response language)
      as (docs & codes & -> & _ & Hd & _ & Hc).
    eexists. split; [reflexivity|]. apply Forall_docs_codes; [exact Hd|].
    eapply Forall_impl; [exact Hc|]. intros f [Hf (text & ->)].
    split; [exact Hf|]. split; [apply validate_output_no_fence|].
    split; [apply validate_idempotent | apply validate_blank_runs].
  - destruct (generator_parser_cases response language)
      as (docs & codes & -> & _ & Hd & _ & Hc).
    eexists. split; [reflexivity|]. apply Forall_docs_codes; [exact Hd|].
    eapply Forall_impl; [exact Hc|]. intros f [Hf (text & ->)].
    split; [exact Hf|]. split; [apply content_output_no_fence | apply content_idempotent].
Qed.

(** ** The delimiter pattern *)

Lemma strip_prefix_eq (p s s' : string) : strip_prefix p s = Some s' -> s = p +:+ s'.
Proof.
  revert s. induction p as [|a p IH]; intros s H; simpl in H.
  - injection H as ->. reflexivity.
  - destruct s as [|b s]; [discriminate|].
    destruct (Ascii.eqb_spec a b) as [->|]; [|discriminate].
    rewrite append_cons, <- (IH _ H). reflexivity.
Qed.

Lemma str_take_app (a b : string) (n : nat) :
  n = str_len a -> str_take n (a +:+ b) = a.
Proof.
  intros ->. induction a as [|c a IH]; [destruct b; reflexivity|].
  rewrite append_cons. simpl. rewrite IH. reflexivity.
Qed.

Lemma lazy_one_spec (p : ascii -> bool) (k : string -> mres) (s : string) (r : option string * string) :
  lazy_one p s k = Some r ->
  exists pre t, s = pre +:+ t /\ str_forall p pre = true /\ k t = Some r.
Proof.
  induction s as [|c s IH]; cbn [lazy_one]; intros H.
  - destruct (k EmptyString) eqn:E; simpl in H; [|discriminate].
    injection H as <-. exists EmptyString, EmptyString. repeat split. exact E.
  - destruct (k (String c s)) eqn:E; simpl in H.
    + injection H as <-. exists EmptyString, (String c s). repeat split. exact E.
    + destruct (p c) eqn:Ec; [|discriminate].
      destruct (IH H) as (pre & t & -> & Hpre & Hk).
      exists (String c pre), t. repeat split; [|exact Hk].
      simpl. rewrite Ec, Hpre. reflexivity.
Qed.

Lemma match_file_pattern (s : string) (cap : option string) (rest : string) :
  match_here file_pattern s = Some (cap, rest) ->
  exists name,
    cap = Some name /\ s = delimiter name +:+ rest /\
    name <> EmptyString /\ str_forall is_dot name = true.
Proof.
  unfold match_here, file_pattern. cbn [rmatch take_n]. intros H.
  destruct (strip_prefix "=== FILENAME: " s) as [s1|] eqn:E1; [|discriminate].
  apply strip_prefix_eq in E1. subst s.
  destruct s1 as [|c s2]; [discriminate|].
  destruct (is_dot c) eqn:Ec; [|discriminate].
  apply lazy_one_spec in H. destruct H as (pre & t & -> & Hpre & H).
  destruct (strip_prefix " ===" t) as [s3|] eqn:E3; [|discriminate].
  apply strip_prefix_eq in E3. subst t. injection H as <- <-.
  exists (String c pre).
  change (String c (pre +:+ " ===" +:+ s3)) with (String c pre +:+ (" ===" +:+ s3)).
  rewrite str_take_app
    by (rewrite !str_len_append; unfold str_len; simpl; lia).
  split; [reflexivity|]. split.
  - unfold delimiter. rewrite !append_assoc. reflexivity.
  - split; [discriminate|]. simpl. rewrite Ec, Hpre. reflexivity.
Qed.

Lemma find_first_file_pattern (s gap : string) (m : re_match) (rest : string) :
  find_first file_pattern s = Some (gap, m, rest) ->
  exists name,
    m_group m = Some name /\ s = gap +:+ delimiter name +:+ rest /\
    name <> EmptyString /\ str_forall is_dot name = true.
Proof.
  revert gap m rest. induction s as [|c s IH]; intros gap m rest H.
  - rewrite find_first_nil in H. discriminate.
  - destruct (nonempty_match file_pattern (String c s)) eqn:E.
    + unfold nonempty_match in E.
      destruct (match_here file_pattern (String c s)) as [[cap rest']|] eqn:Hm; [|discriminate].
      apply Nat.ltb_lt in E. rewrite (find_first_match _ _ _ _ Hm E) in H.
      injection H as <- <- <-.
      destruct (match_file_pattern _ _ _ Hm) as (name & -> & Hs & Hn).
      exists name. split; [reflexivity|]. split; [exact Hs | exact Hn].
    + rewrite find_first_skip in H by exact E.
      destruct (find_first file_pattern s) as [[[gap' m'] rest']|] eqn:F; [|discriminate].
      injection H as <- <- <-.
      destruct (IH _ _ _ eq_refl) as (name & Hg & -> & Hn).
      exists name. split; [exact Hg|]. split; [reflexivity | exact Hn].
Qed.

Lemma scan_file_pattern (n : nat) :
  forall s, str_len s <= n ->
    rejoin (fst (scan file_pattern s) :: split_parts (snd (scan file_pattern s))) = s /\
    Forall (fun mg => exists name,
              m_group (fst mg) = Some name /\ name <> EmptyString /\
              str_forall is_dot name = true)
      (snd (scan file_pattern s)).
Proof.
  induction n as [|n IH]; intros s Hn.
  - destruct s; [|simpl in Hn; lia]. split; [reflexivity | constructor].
  - destruct (find_first file_pattern s) as [[[gap m] rest]|] eqn:F.
    + rewrite (scan_some _ _ _ _ _ F). cbn [fst snd].
      pose proof (find_first_shorter _ _ _ _ _ F) as Hlt.
      destruct (IH rest ltac:(lia)) as [H1 H2].
      destruct (find_first_file_pattern _ _ _ _ F) as (name & Hg & Hs & Hn').
      split.
      * assert (Hgt : group_or_text m = name)
          by (unfold group_or_text; rewrite Hg; reflexivity).
        change (split_parts ((m, fst (scan file_pattern rest)) :: snd (scan file_pattern rest)))
          with (group_or_text m :: fst (scan file_pattern rest)
                  :: split_parts (snd (scan file_pattern rest))).
        cbn [rejoin rejoin_pairs] in *. rewrite Hgt, H1, Hs. reflexivity.
      * constructor; [exists name; split; [exact Hg | exact Hn'] | exact H2].
    + rewrite (scan_none _ _ F). split; [apply append_nil_r | constructor].
Qed.

Lemma no_newline_dot (name : string) : str_forall is_dot name = true -> no_nl name.
Proof.
  unfold no_nl. induction name as [|c s IH]; [reflexivity|].
  cbn [str_forall count_char]. intros H. apply andb_true_iff in H as [Hc Hs].
  unfold is_dot in Hc. apply negb_true_iff in Hc. rewrite Hc. simpl. apply IH, Hs.
Qed.

(** X6: splitting at the delimiters loses nothing: the leading segment,
    the delimiters of the captured names and the segments after them, put
    together in order, give the response back; and every captured name is
    non-empty and lies on one line. *)
Theorem split_is_lossless (response : string) :
  rejoin (re_split file_pattern response) = response /\
  Forall (fun name => name <> EmptyString /\ no_nl name)
    (re_findall file_pattern response).
Proof.
  destruct (scan_file_pattern (str_len response) response (Nat.le_refl _)) as [H1 H2].
  split; [rewrite split_scan; exact H1|].
  rewrite findall_scan. clear H1. revert H2.
  generalize (snd (scan file_pattern response)) as l.
  induction 1 as [|mg l (name & Hg & Hne & Hdot) _ IH]; simpl;
    constructor; [|exact IH].
  unfold group_or_text. rewrite Hg. split; [exact Hne | apply no_newline_dot, Hdot].
Qed.

Lemma filenames_no_nl_codes (clean : string -> string) (l : list (re_match * string)) :
  Forall (fun mg => exists name,
            m_group (fst mg) = Some name /\ name <> EmptyString /\
            str_forall is_dot name = true) l ->
  Forall (fun f => no_nl (filename f)) (code_records clean l).
Proof.
  induction 1 as [|mg l (name & Hg & _ & Hdot) _ IH]; simpl; constructor; [|exact IH].
  simpl. unfold group_or_text. rewrite Hg. unfold str_strip.
  apply lstrip_no_nl, rstrip_no_nl, no_newline_dot, Hdot.
Qed.

(** X7: the filename of every record the parsers return lies on one line:
    the names captured from the delimiters hold no newline, and the fixed
    names do not either. *)
Theorem filenames_on_one_line (response language : string) :
  (exists files,
     CodeRefactorer.parse_refactored_response response language = Ok files /\
     Forall (fun f => no_nl (filename f)) files) /\
  (exists files,
     ScriptGenerator.parse_multi_file_response response language = Ok files /\
     Forall (fun f => no_nl (filename f)) files).
Proof.
  destruct (scan_file_pattern (str_len response) response (Nat.le_refl _)) as [_ H].
  destruct (snd (scan file_pattern response)) as [|mg l] eqn:E.
  - rewrite (refactor_single _ _ E), (generator_single _ _ E). split.
    + eexists. split; [reflexivity|]. unfold optional_record, py_or_ts.
      destruct (truthy _), (truthy _), (String.eqb language "python");
        repeat constructor.
    + eexists. split; [reflexivity|]. unfold py_or_ts.
      destruct (String.eqb language "python"); repeat constructor.
  - assert (Hne : snd (scan file_pattern response) <> []) by (rewrite E; discriminate).
    rewrite (refactor_multi _ _ Hne), (generator_multi _ _ Hne), E. split.
    + eexists. split; [reflexivity|]. apply Forall_app. split.
      * unfold refactoring_notes. destruct (50 <? _); repeat constructor.
      * apply filenames_no_nl_codes, H.
    + eexists. split; [reflexivity|]. apply Forall_app. split.
      * unfold readme. destruct (truthy _); repeat constructor.
      * apply filenames_no_nl_codes, H.
Qed.

(** ** More on the analyzer *)

Lemma fold_visit_names (tree : list ast_node) :
  forall a,
    imports (fold_left CodeRefactorer.visit tree a) = imports a ++ imports_of tree /\
    functions (fold_left CodeRefactorer.visit tree a) = functions a ++ functions_of tree /\
    classes (fold_left CodeRefactorer.visit tree a) = classes a ++ classes_of tree /\
    analysis_language (fold_left CodeRefactorer.visit tree a) = analysis_language a.
Proof.
  induction tree as [|node tree IH]; intros a.
  - simpl. rewrite !app_nil_r. repeat split; reflexivity.
  - cbn [fold_left]. destruct (IH (CodeRefactorer.visit a node)) as (-> & -> & -> & ->).
    destruct node as [names | [[|c m]|] names | name | name |]; simpl;
      rewrite ?app_nil_r, <- ?app_assoc; repeat split; reflexivity.
Qed.

Lemma str_count_positive (sub s : string) :
  sub <> EmptyString -> (0 <? str_count sub s) = str_contains sub s.
Proof.
  intros Hsub. unfold str_count. induction s as [|c s IH].
  - simpl. destruct sub; [congruence | reflexivity].
  - cbn [str_count_from].
    change (str_contains sub (String c s))
      with (match strip_prefix sub (String c s) with
            | Some _ => true
            | None => str_contains sub s
            end).
    destruct (strip_prefix sub (String c s)); [reflexivity | exact IH].
Qed.

Lemma heuristics_In (code_text x : string) (a : analysis) :
  In x (complexity_indicators (heuristics code_text a))
  <-> In x (complexity_indicators a)
      \/ (500 < lines_of_code a /\ x = "Large file (>500 lines)")
      \/ (20 < length (functions a) /\ x = "Many functions (>20)")
      \/ (10 < length (classes a) /\ x = "Many classes (>10)")
      \/ (str_contains "TODO" code_text || str_contains "FIXME" code_text = true
          /\ x = "Contains TODO/FIXME comments")
      \/ (str_contains "except:" code_text = true /\ x = "Bare except clauses found")
      \/ (re_findall long_function code_text <> []
          /\ x = "Very long functions detected").
Proof.
  unfold heuristics. cbv zeta. rewrite !maybe_flag_In.
  repeat match goal with
         | |- context [functions (maybe_flag ?b ?f ?y)] =>
             destruct (maybe_flag_names b f y) as (_ & -> & _)
         | |- context [classes (maybe_flag ?b ?f ?y)] =>
             destruct (maybe_flag_names b f y) as (_ & _ & ->)
         end.
  rewrite str_count_positive by discriminate. rewrite !Nat.ltb_lt.
  assert (Hl : 0 < length (re_findall long_function code_text)
               <-> re_findall long_function code_text <> []).
  { destruct (re_findall long_function code_text); simpl; split;
      try lia; try congruence; intros _; discriminate. }
  rewrite Hl. tauto.
Qed.

Lemma parse_stage_cases (ast_parse_walk : string -> result (list ast_node))
    (code_text language : string) :
  let a0 := MkAnalysis language (length (str_split nl code_text)) [] [] [] [] in
  parse_stage ast_parse_walk code_text language
  = if String.eqb language "python" then
      match ast_parse_walk code_text with
      | Ok tree => Ok (fold_left CodeRefactorer.visit tree a0)
      | Raise SyntaxError => Ok (add_indicator a0 "Syntax errors present")
      | Raise e => Raise e
      end
    else Ok a0.
Proof.
  intros a0. unfold parse_stage. fold a0.
  destruct (String.eqb language "python"); [|reflexivity].
  destruct (ast_parse_walk code_text) as [tree|[]]; reflexivity.
Qed.

(** X8: when the parse succeeds, the profile lists the names in the order
    of the walk: every name of an [import], one entry ["module.a, b"] per
    [from module import a, b] (none when the module is missing, as in a
    relative import), every [FunctionDef] name and every [ClassDef] name;
    and it carries no syntax-error flag. *)
Theorem names_in_walk_order (ast_parse_walk : string -> result (list ast_node))
    (code_text : string) (tree : list ast_node) :
  ast_parse_walk code_text = Ok tree ->
  exists a,
    CodeRefactorer.analyze_code_structure ast_parse_walk code_text "python" = Ok a /\
    imports a = imports_of tree /\
    functions a = functions_of tree /\
    classes a = classes_of tree /\
    ~ In "Syntax errors present" (complexity_indicators a).
Proof.
  intros H. rewrite analyze_stages, parse_stage_cases, H.
  change (String.eqb "python" "python") with true. cbv iota.
  eexists. split; [reflexivity|].
  destruct (heuristics_names code_text
              (fold_left CodeRefactorer.visit tree
                 (MkAnalysis "python" (length (str_split nl code_text)) [] [] [] [])))
    as (-> & -> & ->).
  destruct (fold_visit_names tree
              (MkAnalysis "python" (length (str_split nl code_text)) [] [] [] []))
    as (-> & -> & -> & _).
  repeat split. rewrite heuristics_In.
  destruct (fold_visit_keeps tree
              (MkAnalysis "python" (length (str_split nl code_text)) [] [] [] []))
    as [_ ->].
  simpl. intuition discriminate.
Qed.

Lemma names_in_walk_order_witness :
  exists a,
    CodeRefactorer.analyze_code_structure sample_parser "import os, sys" "python" = Ok a /\
    imports a = ["os"; "sys"; "a.b.c, d"] /\
    functions a = ["f"; "g"] /\
    classes a = ["C"] /\
    ~ In "Syntax errors present" (complexity_indicators a).
Proof. apply (names_in_walk_order sample_parser "import os, sys" sample_tree). reflexivity. Defined.

(** X9: each heuristic flag is in the profile exactly when its test holds:
    more than 20 functions, more than 10 classes, "TODO" or "FIXME" in the
    text, "except:" in the text, a match of the long-function pattern; and
    the syntax-error flag exactly when the language is python and the
    parse failed. *)
Theorem flags_are_exact (ast_parse_walk : string -> result (list ast_node))
    (code_text language : string) :
  (language = "python" ->
   forall e, ast_parse_walk code_text = Raise e -> e = SyntaxError) ->
  exists a,
    CodeRefactorer.analyze_code_structure ast_parse_walk code_text language = Ok a /\
    analysis_language a = language /\
    (In "Many functions (>20)" (complexity_indicators a) <-> 20 < length (functions a)) /\
    (In "Many classes (>10)" (complexity_indicators a) <-> 10 < length (classes a)) /\
    (In "Contains TODO/FIXME comments" (complexity_indicators a)
     <-> str_contains "TODO" code_text = true \/ str_contains "FIXME" code_text = true) /\
    (In "Bare except clauses found" (complexity_indicators a)
     <-> str_contains "except:" code_text = true) /\
    (In "Very long functions detected" (complexity_indicators a)
     <-> re_findall long_function code_text <> []) /\
    (In "Syntax errors present" (complexity_indicators a)
     <-> language = "python" /\ ast_parse_walk code_text = Raise SyntaxError).
Proof.
  intros Hparse. rewrite analyze_stages, parse_stage_cases.
  set (a0 := MkAnalysis language (length (str_split nl code_text)) [] [] [] []).
  assert (Hcases : exists a1,
             (if String.eqb language "python" then
                match ast_parse_walk code_text with
                | Ok tree => Ok (fold_left CodeRefactorer.visit tree a0)
                | Raise SyntaxError => Ok (add_indicator a0 "Syntax errors present")
                | Raise e => Raise e
                end
              else Ok a0) = Ok a1 /\
             analysis_language a1 = language /\
             (forall x, In x (complexity_indicators a1)
                        <-> x = "Syntax errors present" /\ language = "python"
                            /\ ast_parse_walk code_text = Raise SyntaxError)).
  { destruct (String.eqb_spec language "python") as [Hl|Hl].
    - destruct (ast_parse_walk code_text) as [tree|e] eqn:E.
      + eexists. split; [reflexivity|].
        destruct (fold_visit_names tree a0) as (_ & _ & _ & ->).
        destruct (fold_visit_keeps tree a0) as [_ ->].
        split; [reflexivity|]. intros x. simpl. intuition discriminate.
      + rewrite (Hparse Hl e eq_refl). eexists. split; [reflexivity|].
        split; [reflexivity|]. intros x. simpl. intuition congruence.
    - eexists. split; [reflexivity|]. split; [reflexivity|].
      intros x. simpl. intuition congruence. }
  destruct Hcases as (a1 & -> & Hlang & Hflags).
  eexists. split; [reflexivity|].
  destruct (heuristics_names code_text a1) as (_ & -> & ->).
  split.
  { unfold heuristics, maybe_flag. cbv zeta.
    repeat match goal with |- context [if ?b then _ else _] => destruct b end;
      exact Hlang. }
  rewrite !heuristics_In, !Hflags, orb_true_iff.
  repeat split; intuition (try discriminate; try congruence).
Qed.

Lemma flags_are_exact_witness :
  exists a,
    CodeRefactorer.analyze_code_structure reject_all "try: x; except: pass # TODO" "python"
    = Ok a /\
    analysis_language a = "python" /\
    (In "Many functions (>20)" (complexity_indicators a) <-> 20 < length (functions a)) /\
    (In "Many classes (>10)" (complexity_indicators a) <-> 10 < length (classes a)) /\
    (In "Contains TODO/FIXME comments" (complexity_indicators a)
     <-> str_contains "TODO" "try: x; except: pass # TODO" = true
         \/ str_contains "FIXME" "try: x; except: pass # TODO" = true) /\
    (In "Bare except clauses found" (complexity_indicators a)
     <-> str_contains "except:" "try: x; except: pass # TODO" = true) /\
    (In "Very long functions detected" (complexity_indicators a)
     <-> re_findall long_function "try: x; except: pass # TODO" <> []) /\
    (In "Syntax errors present" (complexity_indicators a)
     <-> "python" = "python" /\ reject_all "try: x; except: pass # TODO" = Raise SyntaxError).
Proof.
  apply (flags_are_exact reject_all "try: x; except: pass # TODO" "python").
  intros _ e H. unfold reject_all in H. injection H as <-. reflexivity.
Defined.

Example flags_of_a_bad_source :
  CodeRefactorer.analyze_code_structure reject_all "try: x; except: pass # TODO" "python"
  = Ok (MkAnalysis "python" 1
          ["Syntax errors present"; "Contains TODO/FIXME comments";
           "Bare except clauses found"] [] [] []).
Proof. vm_compute. reflexivity. Qed.

(** X10: for a language other than python the parser is never consulted:
    the profile is the same whatever the parser does, it names no import,
    function or class, and it carries none of the flags that depend on
    them. *)
Theorem other_languages_skip_the_parse
    (ast_parse_walk : string -> result (list ast_node)) (code_text language : string) :
  language <> "python" ->
  exists a,
    (forall parser,
       CodeRefactorer.analyze_code_structure parser code_text language = Ok a) /\
    CodeRefactorer.analyze_code_structure ast_parse_walk code_text language = Ok a /\
    imports a = [] /\ functions a = [] /\ classes a = [] /\
    ~ In "Syntax errors present" (complexity_indicators a) /\
    ~ In "Many functions (>20)" (complexity_indicators a) /\
    ~ In "Many classes (>10)" (complexity_indicators a).
Proof.
  intros Hl. apply String.eqb_neq in Hl.
  exists (heuristics code_text
            (MkAnalysis language (length (str_split nl code_text)) [] [] [] [])).
  assert (Hany : forall parser,
             CodeRefactorer.analyze_code_structure parser code_text language
             = Ok (heuristics code_text
                     (MkAnalysis language (length (str_split nl code_text)) [] [] [] []))).
  { intros parser. rewrite analyze_stages, parse_stage_cases, Hl. reflexivity. }
  split; [exact Hany|]. split; [apply Hany|].
  destruct (heuristics_names code_text
              (MkAnalysis language (length (str_split nl code_text)) [] [] [] []))
    as (-> & -> & ->).
  repeat split; rewrite heuristics_In; simpl; intuition (try discriminate; try lia).
Qed.

Lemma other_languages_skip_the_parse_witness :
  exists a,
    (forall parser,
       CodeRefactorer.analyze_code_structure parser "let x = 1" "typescript" = Ok a) /\
    CodeRefactorer.analyze_code_structure reject_all "let x = 1" "typescript" = Ok a /\
    imports a = [] /\ functions a = [] /\ classes a = [] /\
    ~ In "Syntax errors present" (complexity_indicators a) /\
    ~ In "Many functions (>20)" (complexity_indicators a) /\
    ~ In "Many classes (>10)" (complexity_indicators a).
Proof.
  apply (other_languages_skip_the_parse reject_all "let x = 1" "typescript"). discriminate.
Defined.

(** ** A reply always parses *)

(** X11: [refactor_code] and [generate_script] fail only when the
    analysis or the service call raises: whatever text the service
    returns, they return a success holding that text and the records
    parsed from it (at least one record for [generate_script]); when the
    service raises, they return a failure with the message of the
    exception. *)
Theorem any_reply_is_a_success (ast_parse_walk : string -> result (list ast_node))
    (generate_content : string -> result string) (now_isoformat : string)
    (code_text prompt language task_type : string) (file_name : option string)
    (a : analysis) :
  CodeRefactorer.analyze_code_structure ast_parse_walk code_text language = Ok a ->
  (forall text, (forall p, generate_content p = Ok text) ->
     (exists files,
        CodeRefactorer.parse_refactored_response text language = Ok files /\
        CodeRefactorer.refactor_code ast_parse_walk generate_content now_isoformat
          code_text language file_name
        = Ok (CodeRefactorer.Success a files text now_isoformat None)) /\
     (exists f files,
        ScriptGenerator.parse_multi_file_response text language = Ok (f :: files) /\
        ScriptGenerator.generate_script generate_content now_isoformat
          prompt language task_type
        = Ok (ScriptGenerator.Success (f :: files) text now_isoformat None))) /\
  (forall e, (forall p, generate_content p = Raise e) ->
     CodeRefactorer.refactor_code ast_parse_walk generate_content now_isoformat
       code_text language file_name
     = Ok (CodeRefactorer.Failure (exn_str e) (Some now_isoformat)) /\
     ScriptGenerator.generate_script generate_content now_isoformat
       prompt language task_type
     = Ok (ScriptGenerator.Failure (exn_str e) now_isoformat)).
Proof.
  intros Ha. split.
  - intros text Hgen. split.
    + destruct (refactor_parser_cases text language) as (docs & codes & Hp & _).
      exists (docs ++ codes). split; [exact Hp|].
      unfold CodeRefactorer.refactor_code. rewrite Ha. cbn [mbind result_bind].
      rewrite Hgen. cbn [mbind result_bind]. rewrite Hp. reflexivity.
    + destruct (generator_parser_cases text language)
        as (docs & codes & Hp & _ & _ & Hc & _).
      assert (Hne : exists f files, docs ++ codes = f :: files).
      { destruct docs as [|d docs]; [|simpl; eauto].
        destruct codes as [|c codes]; [simpl in Hc; lia | simpl; eauto]. }
      destruct Hne as (f & files & Hne). rewrite Hne in Hp.
      exists f, files. split; [exact Hp|].
      unfold ScriptGenerator.generate_script. rewrite Hgen. cbn [mbind result_bind].
      rewrite Hp. reflexivity.
  - intros e Hgen. split.
    + unfold CodeRefactorer.refactor_code. rewrite Ha. cbn [mbind result_bind].
      rewrite Hgen. reflexivity.
    + unfold ScriptGenerator.generate_script. rewrite Hgen. reflexivity.
Qed.

Lemma any_reply_is_a_success_witness :
  (exists files,
     CodeRefactorer.parse_refactored_response "x = 1" "python" = Ok files /\
     CodeRefactorer.refactor_code no_nodes (constant_reply "x = 1") "2024-01-01T00:00:00"
       "x=1" "python" None
     = Ok (CodeRefactorer.Success (MkAnalysis "python" 1 [] [] [] []) files "x = 1"
             "2024-01-01T00:00:00" None)) /\
  (exists f files,
     ScriptGenerator.parse_multi_file_response "x = 1" "python" = Ok (f :: files) /\
     ScriptGenerator.generate_script (constant_reply "x = 1") "2024-01-01T00:00:00"
       "write it" "python" "script"
     = Ok (ScriptGenerator.Success (f :: files) "x = 1" "2024-01-01T00:00:00" None)).
Proof.
  destruct (any_reply_is_a_success no_nodes (constant_reply "x = 1")
              "2024-01-01T00:00:00" "x=1" "write it" "python" "script" None
              (MkAnalysis "python" 1 [] [] [] []) eq_refl) as [H _].
  apply (H "x = 1"). intros p. reflexivity.
Defined.

(** ** A plain reply *)

Lemma fenced_code_led : fence_led fenced_code.
Proof. apply cat_fence_led. Qed.

(** X12: a reply with no fence marker and no delimiter is taken whole as
    the code: the refactoring parser returns no documentation record, and
    one code record holding the cleaned reply unless the reply is blank. *)
Theorem plain_reply_is_code (response language : string) :
  has_fence response = false ->
  re_findall file_pattern response = [] ->
  CodeRefactorer.separate_explanation_and_code response = (EmptyString, str_strip response) /\
  CodeRefactorer.parse_refactored_response response language
  = Ok (if truthy (str_strip response)
        then [MkFile (if String.eqb language "python"
                      then "refactored_code.py" else "refactored_code.ts")
                (CodeRefactorer.clean_and_validate_code (str_strip response) language)
                code]
        else []).
Proof.
  intros Hf Hd. apply findall_empty in Hd.
  assert (Hs : CodeRefactorer.separate_explanation_and_code response
               = (EmptyString, str_strip response)).
  { unfold CodeRefactorer.separate_explanation_and_code.
    rewrite findall_scan, (scan_none _ _ (find_first_no_fence _ _ fenced_code_led Hf)).
    reflexivity. }
  split; [exact Hs|].
  rewrite (refactor_single _ _ Hd), Hs. unfold optional_record, py_or_ts. simpl.
  destruct (truthy (str_strip response)), (String.eqb language "python"); reflexivity.
Qed.

Lemma plain_reply_is_code_witness :
  CodeRefactorer.separate_explanation_and_code "  x = 1  " = (EmptyString, "x = 1") /\
  CodeRefactorer.parse_refactored_response "  x = 1  " "go"
  = Ok [MkFile "refactored_code.ts" "x = 1" code].
Proof. apply (plain_reply_is_code "  x = 1  " "go"); reflexivity. Defined.

(** ** Saving *)

Lemma last_write_app (path : string) (a b : list call) :
  last_write path (a ++ b)
  = match last_write path b with
    | Some text => Some text
    | None => last_write path a
    end.
Proof.
  induction a as [|c a IH]; cbn [app last_write].
  - destruct (last_write path b); reflexivity.
  - rewrite IH. destruct (last_write path b); reflexivity.
Qed.

Lemma last_write_other (project_dir : Path) (l : list file_record) (path : string) :
  ~ In path (target_paths project_dir l) -> last_write path (saves project_dir l) = None.
Proof.
  induction l as [|f l IH]; intros Hnot; [reflexivity|].
  cbn [saves flat_map app last_write]. fold (saves project_dir l).
  rewrite IH by (intros H; apply Hnot; right; exact H).
  destruct (String.eqb_spec (Path_str (Path_div project_dir (filename f))) path) as [E|E];
    [|reflexivity].
  exfalso. apply Hnot. left. exact E.
Qed.

Lemma last_write_record (project_dir : Path) (l0 l1 : list file_record) (f : file_record)
    (log : list call) :
  ~ In (Path_str (Path_div project_dir (filename f))) (target_paths project_dir l1) ->
  last_write (Path_str (Path_div project_dir (filename f)))
    (log ++ saves project_dir (l0 ++ f :: l1))
  = Some (content f).
Proof.
  intros Hnot. rewrite saves_app, app_assoc, last_write_app.
  cbn [saves flat_map app last_write]. fold (saves project_dir l1).
  rewrite (last_write_other _ _ _ Hnot), String.eqb_refl. reflexivity.
Qed.

Lemma returning_returns {A : Type} (a out : A) (m : result unit * list call) :
  fst (returning a m) = Ok out -> out = a /\ fst m = Ok tt.
Proof.
  unfold returning. cbn [fst]. destruct (fst m) as [[]|e]; [|discriminate].
  intros H. injection H as <-. split; reflexivity.
Qed.

Lemma returning_raised {A : Type} (a : A) (m : result unit * list call) (e : exn) :
  fst (returning a m) = Raise e -> fst m = Raise e.
Proof.
  unfold returning. cbn [fst]. destruct (fst m) as [[]|e']; [discriminate|].
  intros H. injection H as <-. reflexivity.
Qed.

(** X13: when [save_refactored_files] or [save_files] returns, it returns
    the paths of the records in their order, as [pathlib] prints
    [project_dir / filename]; it has made the project directory and then
    written and reported every record, in that order, each call
    succeeding: so the last text written to the path of a record is its
    content, unless a later record has the same path. *)
Theorem saved_files_are_written (sys : os) (now_stamp : string) (l : list file_record)
    (project_name : option string) (log : list call) (out : list string) :
  (fst (CodeRefactorer.save_refactored_files now_stamp sys l project_name log) = Ok out ->
   let dir := project_dir_of CodeRefactorer.output_dir ("refactored_" +:+ now_stamp)
                project_name in
   let log' := snd (CodeRefactorer.save_refactored_files now_stamp sys l project_name log) in
   out = target_paths dir l /\
   log' = log ++ save_calls dir l /\
   all_succeed sys (save_calls dir l) log /\
   forall l0 f l1, l = l0 ++ f :: l1 ->
     ~ In (Path_str (Path_div dir (filename f))) (target_paths dir l1) ->
     last_write (Path_str (Path_div dir (filename f))) log' = Some (content f)) /\
  (fst (ScriptGenerator.save_files now_stamp sys l project_name log) = Ok out ->
   let dir := project_dir_of ScriptGenerator.output_dir ("project_" +:+ now_stamp)
                project_name in
   let log' := snd (ScriptGenerator.save_files now_stamp sys l project_name log) in
   out = target_paths dir l /\
   log' = log ++ save_calls dir l /\
   all_succeed sys (save_calls dir l) log /\
   forall l0 f l1, l = l0 ++ f :: l1 ->
     ~ In (Path_str (Path_div dir (filename f))) (target_paths dir l1) ->
     last_write (Path_str (Path_div dir (filename f))) log' = Some (content f)).
Proof.
  split.
  - intros H dir log'. subst log'. revert H. rewrite refactor_save_calls. fold dir.
    intros H. apply returning_returns in H as [-> H].
    apply run_calls_returns in H as [Hall Hlog]. cbn [returning snd].
    split; [reflexivity|]. split; [exact Hlog|]. split; [exact Hall|].
    intros l0 f l1 -> Hnot. rewrite Hlog. unfold save_calls.
    change (log ++ Mkdir (Path_str dir) :: saves dir (l0 ++ f :: l1))
      with (log ++ [Mkdir (Path_str dir)] ++ saves dir (l0 ++ f :: l1)).
    rewrite app_assoc. apply last_write_record, Hnot.
  - intros H dir log'. subst log'. revert H. rewrite generator_save_calls. fold dir.
    intros H. apply returning_returns in H as [-> H].
    apply run_calls_returns in H as [Hall Hlog]. cbn [returning snd].
    split; [reflexivity|]. split; [exact Hlog|]. split; [exact Hall|].
    intros l0 f l1 -> Hnot. rewrite Hlog. unfold save_calls.
    change (log ++ Mkdir (Path_str dir) :: saves dir (l0 ++ f :: l1))
      with (log ++ [Mkdir (Path_str dir)] ++ saves dir (l0 ++ f :: l1)).
    rewrite app_assoc. apply last_write_record, Hnot.
Qed.

Lemma saved_files_are_written_witness :
  fst (CodeRefactorer.save_refactored_files "20240101_000000" obliging three_records
         (Some "demo") [])
  = Ok ["refactored_code/demo/a.py"; "refactored_code/demo/b.py";
        "refactored_code/demo/a.py"] /\
  last_write "refactored_code/demo/a.py"
    (snd (CodeRefactorer.save_refactored_files "20240101_000000" obliging three_records
            (Some "demo") []))
  = Some "new".
Proof.
  split; [vm_compute; reflexivity|].
  destruct (saved_files_are_written obliging "20240101_000000" three_records (Some "demo")
              []
              ["refactored_code/demo/a.py"; "refactored_code/demo/b.py";
               "refactored_code/demo/a.py"]) as [H _].
  destruct (H ltac:(vm_compute; reflexivity)) as (_ & _ & _ & Hlast).
  apply (Hlast [MkFile "a.py" "old" code; MkFile "b.py" "two" code]
               (MkFile "a.py" "new" code) []); [reflexivity | simpl; tauto].
Defined.

Example saved_paths_are_normalised :
  fst (CodeRefactorer.save_refactored_files "20240101_000000" obliging
         [MkFile "./a.py" "one" code; MkFile "src//b.py" "two" code;
          MkFile "/tmp/c.py" "three" code] (Some ".") [])
  = Ok ["refactored_code/a.py"; "refactored_code/src/b.py"; "/tmp/c.py"].
Proof. vm_compute. reflexivity. Qed.

(** X14: a save that raises is not undone, and the exception is the one
    of the system: the calls of the save before the one that raised have
    all been made and have succeeded, and no call after it is made.  So
    either the project directory could not be made and nothing was
    written, or the records before the failing call are written and the
    ones after it are not attempted. *)
Theorem failed_save_is_partial (sys : os) (now_stamp : string) (l : list file_record)
    (project_name : option string) (log : list call) (e : exn) :
  (fst (CodeRefactorer.save_refactored_files now_stamp sys l project_name log) = Raise e ->
   let dir := project_dir_of CodeRefactorer.output_dir ("refactored_" +:+ now_stamp)
                project_name in
   let log' := snd (CodeRefactorer.save_refactored_files now_stamp sys l project_name log) in
   exists pre c post,
     save_calls dir l = pre ++ c :: post /\
     all_succeed sys pre log /\
     call_result sys (log ++ pre) c = Raise e /\
     log' = log ++ pre ++ [c]) /\
  (fst (ScriptGenerator.save_files now_stamp sys l project_name log) = Raise e ->
   let dir := project_dir_of ScriptGenerator.output_dir ("project_" +:+ now_stamp)
                project_name in
   let log' := snd (ScriptGenerator.save_files now_stamp sys l project_name log) in
   exists pre c post,
     save_calls dir l = pre ++ c :: post /\
     all_succeed sys pre log /\
     call_result sys (log ++ pre) c = Raise e /\
     log' = log ++ pre ++ [c]).
Proof.
  split.
  - intros H dir log'. subst log'. revert H. rewrite refactor_save_calls. fold dir.
    intros H. apply returning_raised in H. apply (run_calls_raised _ _ _ _ H).
  - intros H dir log'. subst log'. revert H. rewrite generator_save_calls. fold dir.
    intros H. apply returning_raised in H. apply (run_calls_raised _ _ _ _ H).
Qed.

Lemma failed_save_is_partial_witness :
  let dir := project_dir_of CodeRefactorer.output_dir ("refactored_" +:+ "20240101_000000")
               (Some "demo") in
  let log' := snd (CodeRefactorer.save_refactored_files "20240101_000000" no_subdirectory
                     nested_after_flat (Some "demo") []) in
  exists pre c post,
    save_calls dir nested_after_flat = pre ++ c :: post /\
    all_succeed no_subdirectory pre [] /\
    call_result no_subdirectory ([] ++ pre) c
    = Raise (FileNotFoundError "refactored_code/demo/src/b.py") /\
    log' = [] ++ pre ++ [c].
Proof.
  apply (proj1 (failed_save_is_partial no_subdirectory "20240101_000000" nested_after_flat
                  (Some "demo") [] (FileNotFoundError "refactored_code/demo/src/b.py"))).
  vm_compute. reflexivity.
Defined.

Example failed_save_leaves_first_file :
  CodeRefactorer.save_refactored_files "20240101_000000" no_subdirectory
    nested_after_flat (Some "demo") []
  = (Raise (FileNotFoundError "refactored_code/demo/src/b.py"),
     [Mkdir "refactored_code/demo"; Write "refactored_code/demo/a.py" "one";
      Stdout "Saved: refactored_code/demo/a.py";
      Write "refactored_code/demo/src/b.py" "two"]).
Proof. vm_compute. reflexivity. Qed.

Example closed_terminal_stops_the_save :
  CodeRefactorer.save_refactored_files "20240101_000000" closed_terminal
    three_records (Some "demo") []
  = (Raise (ValueError "I/O operation on closed file."),
     [Mkdir "refactored_code/demo"; Write "refactored_code/demo/a.py" "old";
      Stdout "Saved: refactored_code/demo/a.py"]).
Proof. vm_compute. reflexivity. Qed.

(** ** refactor_file *)

(** X15: [refactor_file] works on [Path(file_path)].  An exception of
    [Path.exists] is let through.  Otherwise the result is a failure
    naming the path as [pathlib] prints it when the path does not exist,
    a failure naming the suffix when no language is given and the suffix
    is none of .py, .ts and .js, a failure with the message of the
    exception when the file cannot be read, and in every other case what
    [refactor_code] returns for the content, under the given language or
    the one the suffix stands for, with the name of the path.  The only
    calls are the test and, after it, at most one read of that path. *)
Theorem refactor_file_cases (ast_parse_walk : string -> result (list ast_node))
    (generate_content : string -> result string) (now_isoformat : string) (sys : os)
    (file_path : string) (language : option string) (log : list call) :
  let p := Path_of file_path in
  let path := Path_str p in
  let run := CodeRefactorer.refactor_file ast_parse_walk generate_content now_isoformat
               sys file_path language log in
  let given := match language with Some (String c l) => Some (String c l) | _ => None end in
  let suffix := Path_suffix p in
  let detected := if String.eqb suffix ".py" then Some "python"
                  else if String.eqb suffix ".ts" || String.eqb suffix ".js"
                       then Some "typescript" else None in
  let chosen := match given with Some l => Some l | None => detected end in
  (forall e, os_exists sys log path = Raise e -> run = (Raise e, log ++ [Exists path])) /\
  (os_exists sys log path = Ok false ->
   run = (Ok (CodeRefactorer.Failure ("File not found: " +:+ path) None),
          log ++ [Exists path])) /\
  (os_exists sys log path = Ok true -> chosen = None ->
   run = (Ok (CodeRefactorer.Failure ("Unsupported file type: " +:+ suffix) None),
          log ++ [Exists path])) /\
  (forall l e, os_exists sys log path = Ok true -> chosen = Some l ->
   os_read sys (log ++ [Exists path]) path = Raise e ->
   run = (Ok (CodeRefactorer.Failure ("Error reading file: " +:+ exn_str e) None),
          log ++ [Exists path; Read path])) /\
  (forall l text, os_exists sys log path = Ok true -> chosen = Some l ->
   os_read sys (log ++ [Exists path]) path = Ok text ->
   run = (CodeRefactorer.refactor_code ast_parse_walk generate_content now_isoformat
            text l (Some (Path_name p)),
          log ++ [Exists path; Read path])).
Proof.
  intros p path run given suffix detected chosen. subst run.
  unfold CodeRefactorer.refactor_file, io_bind, Path_exists, open_read.
  fold p. fold path. fold suffix.
  assert (Hchosen :
    match language with
    | Some (String c l) => Some (String c l)
    | _ => if String.eqb suffix ".py" then Some "python"
           else if String.eqb suffix ".ts" || String.eqb suffix ".js"
                then Some "typescript" else None
    end = chosen).
  { subst chosen given detected. destruct language as [[|c l]|]; reflexivity. }
  rewrite Hchosen. clearbody chosen. clear Hchosen.
  split; [intros e ->; reflexivity|].
  split; [intros ->; reflexivity|].
  split; [intros -> ->; reflexivity|].
  split.
  - intros l e -> -> Hr. cbn [negb]. cbv beta. fold path. rewrite Hr.
    rewrite <- app_assoc. reflexivity.
  - intros l text -> -> Hr. cbn [negb]. cbv beta. fold path. rewrite Hr.
    rewrite <- app_assoc. reflexivity.
Qed.

Lemma refactor_file_cases_witness :
  CodeRefactorer.refactor_file no_nodes (constant_reply "y = 2") "2024-01-01T00:00:00"
    no_subdirectory "./notes.txt" None []
  = (Ok (CodeRefactorer.Failure ("File not found: " +:+ "notes.txt") None),
     [] ++ [Exists "notes.txt"]).
Proof.
  apply (proj1 (proj2 (refactor_file_cases no_nodes (constant_reply "y = 2")
                         "2024-01-01T00:00:00" no_subdirectory "./notes.txt" None []))).
  reflexivity.
Defined.

Example refactor_file_reads_the_file :
  CodeRefactorer.refactor_file no_nodes (constant_reply "y = 2") "2024-01-01T00:00:00"
    obliging "src/./app.py" None []
  = (Ok (CodeRefactorer.Success (MkAnalysis "python" 1 [] [] [] [])
           [MkFile "refactored_code.py" "y = 2" code] "y = 2" "2024-01-01T00:00:00" None),
     [Exists "src/app.py"; Read "src/app.py"]).
Proof. vm_compute. reflexivity. Qed.

(** ** Fenced blocks *)

Lemma lazy_any_fence (s : string) :
  lazy_one is_any s
    (fun t => match strip_prefix "```" t with
              | Some t' => Some (None, t')
              | None => None
              end)
  = None <-> has_fence s = false.
Proof.
  induction s as [|c s IH]; cbn [lazy_one].
  - simpl. split; reflexivity.
  - rewrite has_fence_cons. unfold starts_fence.
    destruct (strip_prefix "```" (String c s)); simpl; [split; discriminate|].
    exact IH.
Qed.

Lemma lazy_any_shorter (s : string) (cap : option string) (rest : string) :
  lazy_one is_any s
    (fun t => match strip_prefix "```" t with
              | Some t' => Some (None, t')
              | None => None
              end)
  = Some (cap, rest) -> str_len rest < str_len s.
Proof.
  intros H. apply lazy_one_spec in H as (pre & t & -> & _ & H).
  destruct (strip_prefix "```" t) as [t'|] eqn:E; [|discriminate].
  injection H as _ <-. apply strip_prefix_len in E.
  rewrite str_len_append, E. simpl. lia.
Qed.

Lemma block_match (s : string) :
  nonempty_match fenced_block s
  = match strip_prefix "```" s with
    | Some s1 => has_fence s1
    | None => false
    end.
Proof.
  unfold nonempty_match, match_here, fenced_block. cbn [rmatch take_n].
  destruct (strip_prefix "```" s) as [s1|] eqn:E; [|reflexivity].
  apply strip_prefix_len in E.
  destruct (lazy_one is_any s1 _) as [[cap rest]|] eqn:L.
  - pose proof (lazy_any_shorter _ _ _ L) as Hlt.
    assert (Hf : has_fence s1 = true).
    { destruct (has_fence s1) eqn:F; [reflexivity|].
      apply lazy_any_fence in F. congruence. }
    rewrite Hf. apply Nat.ltb_lt. lia.
  - apply lazy_any_fence in L. rewrite L. reflexivity.
Qed.

Lemma has_block_cons (c : ascii) (s : string) :
  has_block (String c s) = nonempty_match fenced_block (String c s) || has_block s.
Proof. reflexivity. Qed.

Lemma no_block_no_match (s : string) :
  has_block s = false -> find_first fenced_block s = None.
Proof.
  induction s as [|c s IH]; intros H; [apply find_first_nil|].
  rewrite has_block_cons in H. apply orb_false_iff in H as [H1 H2].
  rewrite find_first_skip by exact H1. rewrite IH by exact H2. reflexivity.
Qed.

Lemma has_fence_tail (c : ascii) (s : string) :
  has_fence (String c s) = false -> has_fence s = false.
Proof. rewrite has_fence_cons. intros H. apply orb_false_iff in H. tauto. Qed.

Lemma no_fence_no_block (s : string) : has_fence s = false -> has_block s = false.
Proof.
  induction s as [|c s IH]; intros H; [reflexivity|].
  rewrite has_block_cons, (IH (has_fence_tail _ _ H)), orb_false_r.
  destruct (nonempty_match fenced_block (String c s)) eqn:E; [|reflexivity].
  apply fenced_block_led in E. rewrite has_fence_cons, E in H. discriminate.
Qed.

Lemma sub_ticks_small (r : regex) (s : string) :
  fence_led r -> ticks s < 3 -> ticks (re_sub_empty r s) = ticks s.
Proof.
  intros Hr. induction s as [|c s IH]; intros Ht; [rewrite sub_nil; reflexivity|].
  assert (E : nonempty_match r (String c s) = false).
  { destruct (nonempty_match r (String c s)) eqn:E; [|reflexivity].
    apply Hr in E. rewrite starts_fence_ticks in E. apply Nat.leb_le in E. lia. }
  rewrite sub_skip by exact E. cbn [ticks] in *.
  destruct (Ascii.eqb tick c); [|reflexivity]. rewrite IH by lia. reflexivity.
Qed.

Lemma no_block_after_open (s1 : string) :
  has_fence s1 = false -> has_block (String tick (String tick s1)) = false.
Proof.
  intros H. rewrite !has_block_cons, (no_fence_no_block _ H), orb_false_r.
  rewrite !block_match. apply orb_false_iff. split.
  - destruct (strip_prefix "```" (String tick (String tick s1))) as [x|] eqn:E; [|reflexivity].
    apply strip_prefix_eq in E. injection E as E. subst s1.
    apply (has_fence_tail _ _ H).
  - destruct (strip_prefix "```" (String tick s1)) as [x|] eqn:E; [|reflexivity].
    apply strip_prefix_eq in E. injection E as E. subst s1.
    apply (has_fence_tail _ _ (has_fence_tail _ _ H)).
Qed.

Lemma sub_block_free (n : nat) :
  forall s, str_len s <= n -> has_block (re_sub_empty fenced_block s) = false.
Proof.
  induction n as [|n IH]; intros s Hn.
  - destruct s; [|simpl in Hn; lia]. rewrite sub_nil. reflexivity.
  - destruct s as [|c s]; [rewrite sub_nil; reflexivity|].
    destruct (nonempty_match fenced_block (String c s)) eqn:E.
    + unfold nonempty_match in E.
      destruct (match_here fenced_block (String c s)) as [[cap rest]|] eqn:Hm; [|discriminate].
      apply Nat.ltb_lt in E. rewrite (sub_match _ _ _ _ Hm E).
      apply IH. unfold str_len in *. simpl in *. lia.
    + rewrite sub_skip by exact E.
      assert (Hs : has_block (re_sub_empty fenced_block s) = false)
        by (apply IH; unfold str_len in *; simpl in Hn; lia).
      rewrite has_block_cons, Hs, orb_false_r.
      destruct (strip_prefix "```" (String c s)) as [s1|] eqn:P.
      * (* the text starts with a fence that is never closed *)
        rewrite block_match, P in E.
        apply strip_prefix_eq in P. injection P as -> ->.
        pose proof (no_block_after_open s1 E) as Hb. unfold tick in Hb.
        change ("``" +:+ s1) with (String "`" (String "`" s1)) in *.
        rewrite (sub_none _ _ (no_block_no_match _ Hb)).
        rewrite block_match.
        change (strip_prefix "```" (String "`" (String "`" (String "`" s1))))
          with (Some s1).
        exact E.
      * (* fewer than three backticks in front, before and after *)
        assert (Ht : ticks (String c s) < 3).
        { pose proof (starts_fence_ticks (String c s)) as T. unfold starts_fence in T.
          rewrite P in T. symmetry in T. apply Nat.leb_gt in T. exact T. }
        rewrite block_match.
        destruct (strip_prefix "```" (String c (re_sub_empty fenced_block s))) as [x|] eqn:Q;
          [|reflexivity].
        exfalso.
        pose proof (starts_fence_ticks (String c (re_sub_empty fenced_block s))) as T.
        unfold starts_fence in T. rewrite Q in T. symmetry in T. apply Nat.leb_le in T.
        cbn [ticks] in *. destruct (Ascii.eqb tick c); [|lia].
        rewrite (sub_ticks_small _ _ fenced_block_led) in T by lia. lia.
Qed.

Lemma has_block_suffix (s : string) :
  has_block s = false -> has_block (str_lstrip s) = false.
Proof.
  induction s as [|c s IH]; intros H; [reflexivity|].
  rewrite lstrip_cons. destruct (is_space c); [|exact H].
  apply IH. rewrite has_block_cons in H. apply orb_false_iff in H. tauto.
Qed.

Lemma has_fence_app_r (a b : string) : has_fence a = true -> has_fence (a +:+ b) = true.
Proof.
  intros H. destruct (has_fence (a +:+ b)) eqn:E; [reflexivity|].
  apply has_fence_app_l in E. congruence.
Qed.

Lemma strip_prefix_app (p s s' b : string) :
  strip_prefix p s = Some s' -> strip_prefix p (s +:+ b) = Some (s' +:+ b).
Proof.
  revert s. induction p as [|x p IH]; intros s H; simpl in H.
  - injection H as ->. reflexivity.
  - destruct s as [|y s]; [discriminate|]. rewrite append_cons. simpl.
    destruct (Ascii.eqb x y); [apply IH; exact H | discriminate].
Qed.

Lemma has_block_prefix (a b : string) :
  has_block (a +:+ b) = false -> has_block a = false.
Proof.
  induction a as [|c a IH]; [reflexivity|].
  rewrite append_cons, !has_block_cons, !orb_false_iff. intros [H1 H2].
  split; [|apply IH; exact H2].
  rewrite <- append_cons, block_match in H1. rewrite block_match.
  destruct (strip_prefix "```" (String c a)) as [x|] eqn:E; [|reflexivity].
  rewrite (strip_prefix_app _ _ _ b E) in H1.
  destruct (has_fence x) eqn:F; [|reflexivity].
  rewrite (has_fence_app_r _ b F) in H1. discriminate.
Qed.

(** X16: once the fenced blocks are removed, no complete fenced block is
    left, so removing them again changes nothing; the explanation, which
    is that text stripped at both ends, holds no complete fenced block
    either. *)
Theorem explanation_has_no_block (text : string) :
  has_block (re_sub_empty fenced_block text) = false /\
  re_sub_empty fenced_block (re_sub_empty fenced_block text)
  = re_sub_empty fenced_block text /\
  has_block (str_strip (re_sub_empty fenced_block text)) = false.
Proof.
  pose proof (sub_block_free (str_len text) text (Nat.le_refl _)) as H.
  split; [exact H|]. split; [apply sub_none, no_block_no_match, H|].
  unfold str_strip. apply has_block_suffix.
  destruct (rstrip_prefix (re_sub_empty fenced_block text)) as (w & Hw & _).
  rewrite Hw in H. apply has_block_prefix in H. exact H.
Qed.

Example unclosed_fence_stays :
  re_sub_empty fenced_block "a```b```c```d" = "ac```d" /\
  has_block "ac```d" = false /\ has_fence "ac```d" = true.
Proof. repeat split; reflexivity. Qed.

(** ** The lines the cleaner keeps *)

Lemma pop_prefix_blank (l : list string) :
  exists k, l = pop_trailing_blank l ++ blanks k.
Proof.
  induction l as [|x l (k & IH)]; [exists 0; reflexivity|].
  rewrite pop_cons. destruct (pop_trailing_blank l) as [|p ps].
  - simpl in IH. destruct (String.eqb_spec x EmptyString) as [->|Hx].
    + exists (S k). rewrite IH. reflexivity.
    + exists k. rewrite IH. reflexivity.
  - exists k. simpl. rewrite IH at 1. reflexivity.
Qed.

Lemma filter_blanks (k : nat) :
  List.filter (fun line => negb (is_blank line)) (blanks k) = [].
Proof. induction k as [|k IH]; [reflexivity | exact IH]. Qed.

Lemma filter_pop (l : list string) :
  List.filter (fun line => negb (is_blank line)) (pop_trailing_blank l)
  = List.filter (fun line => negb (is_blank line)) l.
Proof.
  destruct (pop_prefix_blank l) as (k & H). rewrite H at 2.
  rewrite List.filter_app, filter_blanks, app_nil_r. reflexivity.
Qed.

Lemma filter_collapse (lines : list string) :
  forall bc,
    List.filter (fun line => negb (is_blank line)) (collapse_blank bc lines)
    = map str_rstrip (List.filter (fun line => negb (is_blank line)) lines).
Proof.
  induction lines as [|line lines IH]; intros bc; [reflexivity|].
  cbn [collapse_blank List.filter]. destruct (is_blank line) eqn:E; cbn [negb].
  - destruct (bc + 1 <=? 2); [cbn [List.filter]; rewrite is_blank_empty|]; apply IH.
  - cbn [List.filter map]. rewrite is_blank_rstrip, E. cbn [negb]. rewrite IH. reflexivity.
Qed.

(** X17: [clean_and_validate_code] keeps the code: its lines that are not
    blank are exactly those of the text without its fence markers, in the
    same order, each with its trailing white space removed. *)
Theorem validate_keeps_code_lines (code_text language : string) :
  code_lines (CodeRefactorer.clean_and_validate_code code_text language)
  = map str_rstrip (code_lines (re_sub_empty fence_open_opt_nl code_text)).
Proof.
  unfold code_lines. rewrite validate_result.
  destruct (validate_kept code_text) as (_ & Hnl & _ & _).
  rewrite lines_of_join by exact Hnl.
  assert (H : List.filter (fun line => negb (is_blank line)) (validate_lines code_text)
              = map str_rstrip
                  (List.filter (fun line => negb (is_blank line))
                     (str_split nl (re_sub_empty fence_open_opt_nl code_text)))).
  { unfold validate_lines, validate_stripped.
    destruct (sub_exact_no_fence _ fence_open_opt_nl_exact
                (str_len code_text) code_text (Nat.le_refl _)) as [Hf _].
    rewrite (sub_no_fence_id _ _ fence_led_lit Hf), filter_pop. apply filter_collapse. }
  rewrite <- H. destruct (validate_lines code_text); reflexivity.
Qed.

Example indented_code_is_kept :
  CodeRefactorer.clean_and_validate_code
    ("def f():  " +:+ newline +:+ newline +:+ "    return 1 " +:+ newline) "python"
  = "def f():" +:+ newline +:+ newline +:+ "    return 1".
Proof. reflexivity. Qed.

(** ** Refactoring or generating, then saving *)

Lemma refactor_and_save_calls (ast_parse_walk : string -> result (list ast_node))
    (generate_content : string -> result string) (now_isoformat now_stamp : string)
    (sys : os) (code_text language : string) (file_name project_name : option string)
    (a : analysis) (l : list file_record) (raw ts : string) (saved : option (list string))
    (log : list call) :
  CodeRefactorer.refactor_code ast_parse_walk generate_content now_isoformat
    code_text language file_name = Ok (CodeRefactorer.Success a l raw ts saved) ->
  let dir := project_dir_of CodeRefactorer.output_dir ("refactored_" +:+ now_stamp)
               project_name in
  CodeRefactorer.refactor_and_save ast_parse_walk generate_content now_isoformat
    now_stamp sys code_text language file_name project_name log
  = returning (CodeRefactorer.Success a l raw ts (Some (target_paths dir l)))
      (run_calls sys (save_calls dir l ++ summary a l) log).
Proof.
  intros H dir. unfold CodeRefactorer.refactor_and_save, io_lift.
  unfold io_bind at 1. rewrite H. unfold io_bind at 1.
  rewrite refactor_save_calls. fold dir. rewrite run_calls_app. unfold io_bind at 5.
  unfold returning at 1. cbn [fst snd].
  destruct (run_calls sys (save_calls dir l) log) as [[[]|e] log']; cbn [fst snd];
    [|reflexivity].
  unfold summary, io_bind, py_print, io_ret. cbn [run_calls call_result].
  destruct (os_print sys log' _) as [[]|e]; [|reflexivity].
  destruct (os_print sys (log' ++ _) _) as [[]|e]; [|reflexivity].
  destruct (os_print sys ((log' ++ _) ++ _) _) as [[]|e]; [|reflexivity].
  destruct (os_print sys (((log' ++ _) ++ _) ++ _) _) as [[]|e]; reflexivity.
Qed.

Lemma generate_and_save_calls (generate_content : string -> result string)
    (now_isoformat now_stamp : string) (sys : os) (prompt language task_type : string)
    (project_name : option string) (l : list file_record) (raw ts : string)
    (saved : option (list string)) (log : list call) :
  ScriptGenerator.generate_script generate_content now_isoformat
    prompt language task_type = Ok (ScriptGenerator.Success l raw ts saved) ->
  let dir := project_dir_of ScriptGenerator.output_dir ("project_" +:+ now_stamp)
               project_name in
  ScriptGenerator.generate_and_save generate_content now_isoformat now_stamp sys
    prompt language task_type project_name log
  = returning (ScriptGenerator.Success l raw ts (Some (target_paths dir l)))
      (run_calls sys (save_calls dir l) log).
Proof.
  intros H dir. unfold ScriptGenerator.generate_and_save, io_lift.
  unfold io_bind at 1. rewrite H. unfold io_bind at 1.
  rewrite generator_save_calls. fold dir. unfold returning. cbn [fst snd].
  destruct (run_calls sys (save_calls dir l) log) as [[[]|e] log']; reflexivity.
Qed.

(** X18: when the service answers and the save returns,
    [refactor_and_save] and [generate_and_save] return the success of the
    first step with [saved_files] set to one path per parsed record, in
    the order of the records; the calls made are those of the save, each
    succeeding, followed in [refactor_and_save] by the four lines of the
    summary; [generate_and_save] then saves at least one file. *)
Theorem saved_result_lists_the_records
    (ast_parse_walk : string -> result (list ast_node))
    (generate_content : string -> result string) (now_isoformat now_stamp : string)
    (sys : os) (code_text prompt language task_type text : string)
    (file_name project_name : option string) (a : analysis) (log : list call) :
  CodeRefactorer.analyze_code_structure ast_parse_walk code_text language = Ok a ->
  (forall p, generate_content p = Ok text) ->
  (forall r,
     fst (CodeRefactorer.refactor_and_save ast_parse_walk generate_content now_isoformat
            now_stamp sys code_text language file_name project_name log) = Ok r ->
     let dir := project_dir_of CodeRefactorer.output_dir ("refactored_" +:+ now_stamp)
                  project_name in
     exists l,
       CodeRefactorer.parse_refactored_response text language = Ok l /\
       r = CodeRefactorer.Success a l text now_isoformat (Some (target_paths dir l)) /\
       length (target_paths dir l) = length l /\
       all_succeed sys (save_calls dir l ++ summary a l) log /\
       snd (CodeRefactorer.refactor_and_save ast_parse_walk generate_content
              now_isoformat now_stamp sys code_text language file_name project_name log)
       = log ++ save_calls dir l ++ summary a l) /\
  (forall r,
     fst (ScriptGenerator.generate_and_save generate_content now_isoformat now_stamp sys
            prompt language task_type project_name log) = Ok r ->
     let dir := project_dir_of ScriptGenerator.output_dir ("project_" +:+ now_stamp)
                  project_name in
     exists f l,
       ScriptGenerator.parse_multi_file_response text language = Ok (f :: l) /\
       r = ScriptGenerator.Success (f :: l) text now_isoformat
             (Some (target_paths dir (f :: l))) /\
       all_succeed sys (save_calls dir (f :: l)) log /\
       snd (ScriptGenerator.generate_and_save generate_content now_isoformat now_stamp sys
              prompt language task_type project_name log)
       = log ++ save_calls dir (f :: l)).
Proof.
  intros Ha Hgen. split.
  - intros r H dir.
    destruct (refactor_parser_cases text language) as (docs & codes & Hp & _).
    exists (docs ++ codes). split; [exact Hp|].
    assert (Hr : CodeRefactorer.refactor_code ast_parse_walk generate_content
                   now_isoformat code_text language file_name
                 = Ok (CodeRefactorer.Success a (docs ++ codes) text now_isoformat None)).
    { unfold CodeRefactorer.refactor_code. rewrite Ha. cbn [mbind result_bind].
      rewrite Hgen. cbn [mbind result_bind]. rewrite Hp. reflexivity. }
    revert H. rewrite (refactor_and_save_calls _ _ _ _ _ _ _ _ _ _ _ _ _ _ log Hr).
    fold dir. intros H. apply returning_returns in H as [-> H].
    apply run_calls_returns in H as [Hall Hlog]. cbn [returning snd].
    split; [reflexivity|]. split; [unfold target_paths; apply length_map|].
    split; [exact Hall | exact Hlog].
  - intros r H dir.
    destruct (generator_parser_cases text language)
      as (docs & codes & Hp & _ & _ & Hc & _).
    assert (Hne : exists f files, docs ++ codes = f :: files).
    { destruct docs as [|d docs]; [|simpl; eauto].
      destruct codes as [|c codes]; [simpl in Hc; lia | simpl; eauto]. }
    destruct Hne as (f & l & Hne). rewrite Hne in Hp.
    exists f, l. split; [exact Hp|].
    assert (Hr : ScriptGenerator.generate_script generate_content now_isoformat
                   prompt language task_type
                 = Ok (ScriptGenerator.Success (f :: l) text now_isoformat None)).
    { unfold ScriptGenerator.generate_script. rewrite Hgen. cbn [mbind result_bind].
      rewrite Hp. reflexivity. }
    revert H. rewrite (generate_and_save_calls _ _ _ _ _ _ _ _ _ _ _ _ log Hr).
    fold dir. intros H. apply returning_returns in H as [-> H].
    apply run_calls_returns in H as [Hall Hlog]. cbn [returning snd].
    split; [reflexivity|]. split; [exact Hall | exact Hlog].
Qed.

Lemma saved_result_lists_the_records_witness :
  fst (CodeRefactorer.refactor_and_save no_nodes (constant_reply "x = 1")
         "2024-01-01T00:00:00" "20240101_000000" obliging "x=1" "python" None (Some "demo")
         [])
  = Ok (CodeRefactorer.Success (MkAnalysis "python" 1 [] [] [] [])
          [MkFile "refactored_code.py" "x = 1" code] "x = 1" "2024-01-01T00:00:00"
          (Some ["refactored_code/demo/refactored_code.py"])) /\
  exists l,
    CodeRefactorer.parse_refactored_response "x = 1" "python" = Ok l /\
    CodeRefactorer.Success (MkAnalysis "python" 1 [] [] [] [])
      [MkFile "refactored_code.py" "x = 1" code] "x = 1" "2024-01-01T00:00:00"
      (Some ["refactored_code/demo/refactored_code.py"])
    = CodeRefactorer.Success (MkAnalysis "python" 1 [] [] [] []) l "x = 1"
        "2024-01-01T00:00:00"
        (Some (target_paths
                 (project_dir_of CodeRefactorer.output_dir
                    ("refactored_" +:+ "20240101_000000") (Some "demo")) l)).
Proof.
  split; [vm_compute; reflexivity|].
  destruct (saved_result_lists_the_records no_nodes (constant_reply "x = 1")
              "2024-01-01T00:00:00" "20240101_000000" obliging "x=1" "write it" "python"
              "script" "x = 1" None (Some "demo") (MkAnalysis "python" 1 [] [] [] []) []
              eq_refl (fun p => eq_refl)) as [H _].
  destruct (H (CodeRefactorer.Success (MkAnalysis "python" 1 [] [] [] [])
                 [MkFile "refactored_code.py" "x = 1" code] "x = 1" "2024-01-01T00:00:00"
                 (Some ["refactored_code/demo/refactored_code.py"]))
              ltac:(vm_compute; reflexivity)) as (l & Hp & Hr & _).
  exists l. split; [exact Hp | exact Hr].
Defined.

Example refactor_and_save_calls_made :
  snd (CodeRefactorer.refactor_and_save no_nodes (constant_reply "x = 1")
         "2024-01-01T00:00:00" "20240101_000000" obliging "x=1" "python" None (Some "demo")
         [])
  = [Mkdir "refactored_code/demo";
     Write "refactored_code/demo/refactored_code.py" "x = 1";
     Stdout "Saved: refactored_code/demo/refactored_code.py";
     Stdout (newline +:+ "=== Refactoring Summary ===");
     Stdout "Original complexity indicators: ";
     Stdout "Generated 1 files";
     Stdout "Reduced from 1 lines to multiple organized modules"].
Proof. vm_compute. reflexivity. Qed.

(** ** Saving plain names *)

Lemma split_no_sep (sep : ascii) (x : string) :
  count_char sep x = 0 -> str_split sep x = [x].
Proof.
  induction x as [|c x IH]; intros H; [reflexivity|].
  cbn [count_char] in H. rewrite str_split_cons.
  destruct (Ascii.eqb c sep); [simpl in H; lia|].
  rewrite IH by (simpl in H; lia). reflexivity.
Qed.

Lemma Path_of_plain (name : string) : plain_name name -> Path_of name = MkPath "" [name].
Proof.
  intros (Hne & Hc & Hdot & _). destruct name as [|c name]; [congruence|].
  unfold Path_of, splitroot. pose proof Hc as Hc'. cbn [count_char] in Hc'.
  destruct (Ascii.eqb c "/"); [simpl in Hc'; lia|].
  cbn [fst snd]. rewrite (split_no_sep _ _ Hc). cbn [List.filter].
  unfold is_part. cbn [truthy andb].
  destruct (String.eqb_spec (String c name) "."); [contradiction | reflexivity].
Qed.

Lemma Path_div_plain (p : Path) (name : string) :
  plain_name name ->
  Path_div p name = MkPath (path_root p) (path_parts p ++ [name]).
Proof. intros H. unfold Path_div. rewrite (Path_of_plain _ H). reflexivity. Qed.

Lemma project_dir_plain (output : string) (default project : string) :
  plain_name output -> plain_name project ->
  project_dir_of (Path_of output) default (Some project) = MkPath "" [output; project].
Proof.
  intros Ho Hp. unfold project_dir_of.
  destruct project as [|c n]; [destruct Hp as [Hp _]; congruence|].
  rewrite (Path_div_plain _ _ Hp), (Path_of_plain _ Ho). reflexivity.
Qed.

Lemma target_paths_plain (output project : string) (l : list file_record) :
  Forall (fun f => plain_name (filename f)) l ->
  target_paths (MkPath "" [output; project]) l
  = map (fun f => output +:+ "/" +:+ project +:+ "/" +:+ filename f) l.
Proof.
  induction 1 as [|f l Hf _ IH]; [reflexivity|].
  cbn [target_paths map]. fold (target_paths (MkPath "" [output; project]) l).
  rewrite IH, (Path_div_plain _ _ Hf). reflexivity.
Qed.

Lemma output_dir_plain : plain_name "refactored_code" /\ plain_name "generated_scripts".
Proof. repeat split; (discriminate || reflexivity). Qed.

(** X19: with a project name and filenames of one plain part each (not
    empty, no slash, neither [.] nor [..]), the paths a save returns are
    the filenames below [refactored_code/<project>], or below
    [generated_scripts/<project>], in the order of the records. *)
Theorem plain_names_are_saved (sys : os) (now_stamp project : string)
    (l : list file_record) (log : list call) (out : list string) :
  plain_name project ->
  Forall (fun f => plain_name (filename f)) l ->
  (fst (CodeRefactorer.save_refactored_files now_stamp sys l (Some project) log) = Ok out ->
   out = map (fun f => "refactored_code/" +:+ project +:+ "/" +:+ filename f) l) /\
  (fst (ScriptGenerator.save_files now_stamp sys l (Some project) log) = Ok out ->
   out = map (fun f => "generated_scripts/" +:+ project +:+ "/" +:+ filename f) l).
Proof.
  intros Hp Hl. destruct output_dir_plain as [Hr Hg]. split.
  - rewrite refactor_save_calls. intros H. apply returning_returns in H as [-> _].
    change CodeRefactorer.output_dir with (Path_of "refactored_code").
    rewrite (project_dir_plain _ _ _ Hr Hp), (target_paths_plain _ _ _ Hl). reflexivity.
  - rewrite generator_save_calls. intros H. apply returning_returns in H as [-> _].
    change ScriptGenerator.output_dir with (Path_of "generated_scripts").
    rewrite (project_dir_plain _ _ _ Hg Hp), (target_paths_plain _ _ _ Hl). reflexivity.
Qed.

Lemma plain_names_are_saved_witness :
  ["refactored_code/demo/a.py"; "refactored_code/demo/b.py"; "refactored_code/demo/a.py"]
  = map (fun f => "refactored_code/" +:+ "demo" +:+ "/" +:+ filename f) three_records.
Proof.
  apply (proj1 (plain_names_are_saved obliging "20240101_000000" "demo" three_records []
                  ["refactored_code/demo/a.py"; "refactored_code/demo/b.py";
                   "refactored_code/demo/a.py"]
                  ltac:(repeat split; (discriminate || reflexivity))
                  ltac:(repeat constructor; discriminate))).
  vm_compute. reflexivity.
Defined.

Example other_names_leave_the_project :
  fst (ScriptGenerator.save_files "20240101_000000" obliging
         [MkFile "../a.py" "one" code; MkFile "/tmp/b.py" "two" code;
          MkFile "." "three" code] (Some "demo") [])
  = Ok ["generated_scripts/demo/../a.py"; "/tmp/b.py"; "generated_scripts/demo"].
Proof. vm_compute. reflexivity. Qed.
